(** * WHOOP MCP server: token store and API access layer

    A shallow embedding of [src/auth_manager.py] (class [TokenManager]) and
    [src/whoop_client.py] (class [WhoopClient]), with the constants of
    [src/config.py], and the properties of the specification proved about it;
    then the tools of [src/whoop_mcp_server.py] and the token steps of
    [setup.py], with further properties of the code.

    Modelling conventions.
    - Python values are the inductive [pyval]; a [dict] is an association
      list in insertion order with pairwise distinct keys.  Floats are not
      modelled, and strings are treated as ASCII text.
    - A naive [datetime] is an integer number of microseconds since
      0001-01-01T00:00:00, a [timedelta] an integer number of microseconds.
      [timedelta.total_seconds()] compared with an integer number of seconds
      is the comparison of the microsecond counts.  Arithmetic that leaves
      the range of [datetime] raises [OverflowError], as in Python.
    - Methods are computations in a state-and-exception monad [M] over the
      record [world]: the token file, the fields of the client object, and
      the number of clock readings and random draws made so far.  A raise
      keeps the state reached, as a Python exception keeps the mutations
      made before it.
    - What lies outside the repository is a parameter: the class [Libs] for
      the library functions (Fernet, the json codec for files, isoformat),
      with the laws they are documented to satisfy, and the record [env]
      for the clock, the randomness and the two HTTP endpoints.
    - Operations on the token file itself (open, write, remove, chmod) are
      taken to succeed; logging is not modelled.  [save_tokens] opens the
      file for writing, which truncates it, and then has [json.dump] write
      the envelope: on a [pyval] [json.dump] cannot fail, so the two are one
      step here.  A response holding a value that json cannot serialise,
      which no [pyval] is, makes the code raise after the truncation; the
      properties below that speak of the token file after a failed save are
      about responses that are JSON values.
    - The encryption key, which [TokenManager.__init__] reads or creates
      once, is a field of the environment: a [TokenManager] is taken to
      have been constructed with a key that Fernet accepts.  The
      construction itself, with the key file and the key that Fernet may
      reject, is [TokenManager_init]; a constructor that raises inside
      [WhoopClient()] is not modelled, and the properties of
      [init_whoop_client] are stated for the calls that return.
    - A timestamp with a UTC offset, which [datetime.fromisoformat] accepts
      and which cannot then be compared with [datetime.now()], is outside
      the model: [fromisoformat] is [None] on it as on a string that is
      no timestamp.  [save_tokens] and [_save_to_cache] only write naive
      timestamps. *)

From stdpp Require Import gmap strings list sorting pretty countable.

Local Open Scope Z_scope.

(** ** Python values *)

Scheme All for list.
Scheme All for prod.

Inductive pyval : Type :=
  | PNone
  | PBool (b : bool)
  | PInt (n : Z)
  | PStr (s : string)
  | PList (l : list pyval)
  | PDict (d : list (string * pyval)).

Inductive exn : Type :=
  | KeyError (k : string)
  | TypeError
  | AttributeError
  | ValueError
  | OverflowError
  | InvalidToken          (* cryptography.fernet.InvalidToken *)
  | JSONDecodeError
  | TimeoutException      (* httpx.TimeoutException *)
  | TransportError        (* any other failure of the HTTP transport *)
  | Exception (msg : string).

Inductive result (A : Type) : Type :=
  | Ok (a : A)
  | Raise (e : exn).
Arguments Ok {A} a.
Arguments Raise {A} e.

(** [bool(v)] *)
Definition truthy (v : pyval) : bool :=
  match v with
  | PNone => false
  | PBool b => b
  | PInt n => negb (n =? 0)
  | PStr s => negb (String.eqb s EmptyString)
  | PList l => match l with [] => false | _ => true end
  | PDict d => match d with [] => false | _ => true end
  end.

Fixpoint dict_get (k : string) (d : list (string * pyval)) : option pyval :=
  match d with
  | [] => None
  | (k', v) :: d' => if decide (k = k') then Some v else dict_get k d'
  end.

(** [v[k]] for a string [k] *)
Definition getitem (v : pyval) (k : string) : result pyval :=
  match v with
  | PDict d =>
      match dict_get k d with
      | Some x => Ok x
      | None => Raise (KeyError k)
      end
  | _ => Raise TypeError
  end.

(** [v.get(k, dflt)] *)
Definition get_default (v : pyval) (k : string) (dflt : pyval) : result pyval :=
  match v with
  | PDict d => Ok (default dflt (dict_get k d))
  | _ => Raise AttributeError
  end.

Fixpoint is_substring (k s : string) : bool :=
  String.prefix k s ||
  match s with
  | EmptyString => false
  | String _ s' => is_substring k s'
  end.

(** [k in v] for a string [k] *)
Definition py_in (k : string) (v : pyval) : result bool :=
  match v with
  | PDict d => Ok (bool_decide (is_Some (dict_get k d)))
  | PList l =>
      Ok (existsb (λ x, match x with PStr s => String.eqb s k | _ => false end) l)
  | PStr s => Ok (is_substring k s)
  | _ => Raise TypeError
  end.

(** Well-formed values: the keys of every dict are pairwise distinct. *)
Fixpoint wf_pyval (v : pyval) : bool :=
  match v with
  | PList l => forallb wf_pyval l
  | PDict d =>
      bool_decide (NoDup (d.*1)) &&
      forallb (λ kv, match kv with (_, x) => wf_pyval x end) d
  | _ => true
  end.

(** ** Time *)

Definition SECOND : Z := 1000000.

(** One past [datetime.max], in microseconds since [datetime.min]. *)
Definition DATETIME_END : Z := 3652059 * 86400 * SECOND.

(** [t + delta] for a datetime [t] and a timedelta [delta] *)
Definition datetime_add (t delta : Z) : result Z :=
  if bool_decide (0 ≤ t + delta < DATETIME_END) then Ok (t + delta)
  else Raise OverflowError.

(** [timedelta(seconds=v)]; [bool] is a subclass of [int]. *)
Definition timedelta_seconds (v : pyval) : result Z :=
  match v with
  | PInt n => Ok (n * SECOND)
  | PBool b => Ok (if b then SECOND else 0)
  | _ => Raise TypeError
  end.

(** ** Configuration: [config.py] *)

Record config : Type := Config {
  WHOOP_API_BASE : string;
  CACHE_DURATION : Z;            (* seconds *)
  MAX_REQUESTS_PER_MINUTE : Z;
  REQUEST_TIMEOUT : Z            (* seconds *)
}.

Definition default_config : config :=
  {| WHOOP_API_BASE := "https://api.prod.whoop.com/developer/v1";
     CACHE_DURATION := 300;
     MAX_REQUESTS_PER_MINUTE := 100;
     REQUEST_TIMEOUT := 30 |}.

(** ** The libraries *)

Class Libs : Type := {
  (** [Fernet(key).encrypt], with the random bytes it draws made explicit,
      and [Fernet(key).decrypt], [None] standing for [InvalidToken]. *)
  fernet_encrypt : string → string → string → string;
  fernet_decrypt : string → string → option string;
  fernet_decrypt_encrypt key rnd msg :
    fernet_decrypt key (fernet_encrypt key rnd msg) = Some msg;
  (** [json.dump(v, f, indent=2)] and [json.load] / [json.loads], [None]
      standing for [JSONDecodeError]. *)
  json_dump : pyval → string;
  json_loads : string → option pyval;
  json_loads_dump v : wf_pyval v = true → json_loads (json_dump v) = Some v;
  json_dump_dict_brace d : ∃ rest, json_dump (PDict d) = "{" +:+ rest;
  (** [datetime.isoformat] and [datetime.fromisoformat]; the latter is
      [None] on a string that is not a naive timestamp. *)
  isoformat : Z → string;
  fromisoformat : string → option Z;
  fromisoformat_isoformat t : fromisoformat (isoformat t) = Some t;
  (** [datetime.fromtimestamp] on an integer, [None] when it raises. *)
  fromtimestamp : Z → option Z;
  (** [str(v)], as an f-string formats a value. *)
  py_str : pyval → string
}.

(** ** The environment *)

Inductive http_outcome : Type :=
  | Responded (status_code : Z) (text : string) (json : option pyval)
      (* [json] is what [response.json()] returns, [None] when it raises *)
  | TimedOut
  | Failed.

Record env : Type := Env {
  encryption_key : string;
  (** the n-th reading of [datetime.now()] *)
  clock : nat → Z;
  (** the random bytes of the n-th [Fernet.encrypt] *)
  entropy : nat → string;
  (** [requests.post(OAUTH_REFRESH_URL, json={'refresh_token': v})] *)
  refresh_post : pyval → http_outcome;
  (** [client.get(url, headers=..., params=...)] *)
  api_get : string → list (string * pyval) → list (string * pyval) → http_outcome
}.

(** ** The mutable state *)

Record cache_entry : Type := CacheEntry {
  data : pyval;
  cached_at : string
}.

Record world : Type := World {
  token_file : option string;     (* content of TOKEN_STORAGE_PATH *)
  clock_reads : nat;
  random_draws : nat;
  cache : gmap string cache_entry;
  request_count : Z;
  request_window_start : Z
}.

Definition set_token_file (f : option string) (w : world) : world :=
  World f (clock_reads w) (random_draws w) (cache w) (request_count w)
    (request_window_start w).
Definition set_clock_reads (n : nat) (w : world) : world :=
  World (token_file w) n (random_draws w) (cache w) (request_count w)
    (request_window_start w).
Definition set_random_draws (n : nat) (w : world) : world :=
  World (token_file w) (clock_reads w) n (cache w) (request_count w)
    (request_window_start w).
Definition set_cache (c : gmap string cache_entry) (w : world) : world :=
  World (token_file w) (clock_reads w) (random_draws w) c (request_count w)
    (request_window_start w).
Definition set_request_count (n : Z) (w : world) : world :=
  World (token_file w) (clock_reads w) (random_draws w) (cache w) n
    (request_window_start w).
Definition set_request_window_start (t : Z) (w : world) : world :=
  World (token_file w) (clock_reads w) (random_draws w) (cache w)
    (request_count w) t.

(** ** The monad *)

Definition M (A : Type) : Type := world → result A * world.

Definition ret {A} (a : A) : M A := λ w, (Ok a, w).
Definition raise {A} (e : exn) : M A := λ w, (Raise e, w).
Definition bind {A B} (m : M A) (k : A → M B) : M B :=
  λ w, match m w with
       | (Ok a, w') => k a w'
       | (Raise e, w') => (Raise e, w')
       end.
Definition lift {A} (r : result A) : M A := λ w, (r, w).
Definition try_except {A} (m : M A) (handler : exn → M A) : M A :=
  λ w, match m w with
       | (Ok a, w') => (Ok a, w')
       | (Raise e, w') => handler e w'
       end.
Definition gets {A} (f : world → A) : M A := λ w, (Ok (f w), w).
Definition modify (f : world → world) : M unit := λ w, (Ok tt, f w).

Declare Scope py_scope.
Delimit Scope py_scope with py.
Notation "x <- m ;; k" := (bind m (λ x, k))
  (at level 100, m at next level, right associativity) : py_scope.
Notation "m ;;; k" := (bind m (λ _, k))
  (at level 100, right associativity) : py_scope.
Local Open Scope py_scope.

(** ** [auth_manager.py]: class [TokenManager] *)

Section TokenManager.
Context {L : Libs} (E : env).

(** [datetime.now()] *)
Definition datetime_now : M Z :=
  λ w, (Ok (clock E (clock_reads w)), set_clock_reads (S (clock_reads w)) w).

Definition draw_random : M string :=
  λ w, (Ok (entropy E (random_draws w)),
        set_random_draws (S (random_draws w)) w).

(** [datetime.fromisoformat(v)], for naive timestamps: a timestamp with a
    UTC offset is treated as a string that does not parse. *)
Definition datetime_fromisoformat (v : pyval) : result Z :=
  match v with
  | PStr s =>
      match fromisoformat s with
      | Some t => Ok t
      | None => Raise ValueError
      end
  | _ => Raise TypeError
  end.

Definition _encrypt_data (data : pyval) : M string :=
  match data with
  | PStr s =>
      rnd <- draw_random ;;
      ret (fernet_encrypt (encryption_key E) rnd s)
  | _ => raise AttributeError
  end.

Definition _decrypt_data (encrypted_data : pyval) : result string :=
  match encrypted_data with
  | PStr s =>
      match fernet_decrypt (encryption_key E) s with
      | Some msg => Ok msg
      | None => Raise InvalidToken
      end
  | _ => Raise AttributeError
  end.

(** The last step is the write: [open(..., 'w')], [json.dump] and
    [chmod]. *)
Definition save_tokens (tokens : pyval) : M unit :=
  try_except
    (expires_in <- lift (get_default tokens "expires_in" (PInt 3600)) ;;
     now <- datetime_now ;;
     delta <- lift (timedelta_seconds expires_in) ;;
     expires_at <- lift (datetime_add now delta) ;;
     access <- lift (getitem tokens "access_token") ;;
     access_enc <- _encrypt_data access ;;
     refresh <-
       lift (get_default tokens "refresh_token" (PStr EmptyString)) ;;
     refresh_enc <- _encrypt_data refresh ;;
     token_type <- lift (get_default tokens "token_type" (PStr "Bearer")) ;;
     created <- datetime_now ;;
     let token_data :=
       PDict [("access_token", PStr access_enc);
              ("refresh_token", PStr refresh_enc);
              ("token_type", token_type);
              ("expires_at", PStr (isoformat expires_at));
              ("created_at", PStr (isoformat created))] in
     modify (set_token_file (Some (json_dump token_data))))
    (λ e, raise e).

Definition parse_json (s : string) : result pyval :=
  match json_loads s with
  | Some v => Ok v
  | None => Raise JSONDecodeError
  end.

Definition load_tokens : M pyval :=
  file <- gets token_file ;;
  match file with
  | None => ret PNone
  | Some file_content =>
      try_except
        (if String.prefix "gAAAAA" file_content then
           match fernet_decrypt (encryption_key E) file_content with
           | Some decrypted_data => lift (parse_json decrypted_data)
           | None => raise InvalidToken
           end
         else
           encrypted_data <- lift (parse_json file_content) ;;
           access_enc <- lift (getitem encrypted_data "access_token") ;;
           access <- lift (_decrypt_data access_enc) ;;
           refresh_enc <- lift (getitem encrypted_data "refresh_token") ;;
           refresh <- lift (_decrypt_data refresh_enc) ;;
           token_type <-
             lift (get_default encrypted_data "token_type" (PStr "Bearer")) ;;
           expires_at <- lift (getitem encrypted_data "expires_at") ;;
           created_at <- lift (getitem encrypted_data "created_at") ;;
           ret (PDict [("access_token", PStr access);
                       ("refresh_token", PStr refresh);
                       ("token_type", token_type);
                       ("expires_at", expires_at);
                       ("created_at", created_at)]))
        (λ _, ret PNone)
  end.

Definition is_token_expired (tokens : pyval) : M bool :=
  try_except
    (stamp <- lift (getitem tokens "expires_at") ;;
     expires_at <- lift (datetime_fromisoformat stamp) ;;
     let buffer_time := 5 * 60 * SECOND in
     now <- datetime_now ;;
     limit <- lift (datetime_add now buffer_time) ;;
     ret (bool_decide (expires_at ≤ limit)))
    (λ _, ret true).

Definition refresh_tokens (refresh_token : pyval) : M pyval :=
  try_except
    (match refresh_post E refresh_token with
     | Responded status_code _ body =>
         if status_code =? 200 then
           token_data <-
             lift (match body with
                   | Some v => Ok v
                   | None => Raise JSONDecodeError
                   end) ;;
           success <- lift (get_default token_data "success" PNone) ;;
           if truthy success then
             save_tokens token_data ;;;
             ret token_data
           else ret PNone
         else ret PNone
     | TimedOut => raise TimeoutException
     | Failed => raise TransportError
     end)
    (λ _, ret PNone).

Definition get_valid_access_token : M pyval :=
  tokens <- load_tokens ;;
  if negb (truthy tokens) then ret PNone
  else
    expired <- is_token_expired tokens ;;
    if negb expired then lift (getitem tokens "access_token")
    else
      refresh_token <- lift (getitem tokens "refresh_token") ;;
      refreshed_tokens <- refresh_tokens refresh_token ;;
      if truthy refreshed_tokens then
        lift (getitem refreshed_tokens "access_token")
      else ret PNone.

Definition clear_tokens : M unit :=
  try_except
    (file <- gets token_file ;;
     match file with
     | Some _ => modify (set_token_file None)
     | None => ret tt
     end)
    (λ _, ret tt).

(** [datetime.fromtimestamp(v)].  When the value is out of range the code
    raises [OverflowError], [OSError] or [ValueError], by its size and the
    platform; the one exception here stands for all of them. *)
Definition datetime_fromtimestamp (v : pyval) : result Z :=
  let from n :=
    match fromtimestamp n with
    | Some t => Ok t
    | None => Raise OverflowError
    end in
  match v with
  | PInt n => from n
  | PBool b => from (if b then 1 else 0)
  | _ => Raise TypeError
  end.

Definition get_token_info : M pyval :=
  tokens <- load_tokens ;;
  if negb (truthy tokens) then ret (PDict [("status", PStr "no_tokens")])
  else
    has_expires_at <- lift (py_in "expires_at" tokens) ;;
    expires_at <-
      (if has_expires_at then
         stamp <- lift (getitem tokens "expires_at") ;;
         lift (datetime_fromisoformat stamp)
       else
         has_timestamp <- lift (py_in "timestamp" tokens) ;;
         has_expires_in <-
           (if has_timestamp then lift (py_in "expires_in" tokens)
            else ret false) ;;
         if has_expires_in then
           timestamp <- lift (getitem tokens "timestamp") ;;
           created_at <- lift (datetime_fromtimestamp timestamp) ;;
           expires_in <- lift (getitem tokens "expires_in") ;;
           delta <- lift (timedelta_seconds expires_in) ;;
           lift (datetime_add created_at delta)
         else
           now <- datetime_now ;;
           lift (datetime_add now (3600 * SECOND))) ;;
    now <- datetime_now ;;
    let is_expired := bool_decide (expires_at < now) in
    match tokens with
    | PDict _ =>
        now' <- datetime_now ;;
        created_at <-
          lift (get_default tokens "created_at" (PStr (isoformat now'))) ;;
        token_type <-
          lift (get_default tokens "token_type" (PStr "Bearer")) ;;
        refresh_token <- lift (get_default tokens "refresh_token" PNone) ;;
        ret (PDict [("status",
                     PStr (if is_expired then "expired" else "valid"));
                    ("expires_at", PStr (isoformat expires_at));
                    ("created_at", created_at);
                    ("token_type", token_type);
                    ("has_refresh_token", PBool (truthy refresh_token))])
    | _ => raise AttributeError
    end.

End TokenManager.

(** ** [json.dumps(v, sort_keys=True)] *)

Definition chr (n : nat) : string := String (Ascii.ascii_of_nat n) EmptyString.
Definition DQUOTE : string := chr 34.
Definition BACKSLASH : string := chr 92.

Definition hex_digit (n : nat) : string :=
  chr (if decide (n < 10)%nat then 48 + n else 87 + n)%nat.

(** One character of a string literal, with [ensure_ascii] in force. *)
Definition escape_char (c : Ascii.ascii) : string :=
  let n := Ascii.nat_of_ascii c in
  if decide (n = 34)%nat then BACKSLASH +:+ DQUOTE
  else if decide (n = 92)%nat then BACKSLASH +:+ BACKSLASH
  else if decide (n = 10)%nat then BACKSLASH +:+ "n"
  else if decide (n = 13)%nat then BACKSLASH +:+ "r"
  else if decide (n = 9)%nat then BACKSLASH +:+ "t"
  else if decide (n = 8)%nat then BACKSLASH +:+ "b"
  else if decide (n = 12)%nat then BACKSLASH +:+ "f"
  else if decide (32 ≤ n ≤ 126)%nat then String c EmptyString
  else BACKSLASH +:+ "u00" +:+ hex_digit (n / 16) +:+ hex_digit (n mod 16).

Fixpoint escape_string (s : string) : string :=
  match s with
  | EmptyString => EmptyString
  | String c s' => escape_char c +:+ escape_string s'
  end.

Definition json_string (s : string) : string :=
  DQUOTE +:+ escape_string s +:+ DQUOTE.

Fixpoint join (sep : string) (l : list string) : string :=
  match l with
  | [] => EmptyString
  | [x] => x
  | x :: l' => x +:+ sep +:+ join sep l'
  end.

(** The order in which [sort_keys] puts the items: by key. *)
Definition key_le {A} (p q : string * A) : Prop := (p.1 ≤ q.1)%string.

Global Instance key_le_dec {A} (p q : string * A) : Decision (key_le p q).
Proof. unfold key_le. apply _. Defined.

Definition sort_items {A} (items : list (string * A)) : list (string * A) :=
  merge_sort key_le items.

Fixpoint json_dumps_sorted (v : pyval) : string :=
  match v with
  | PNone => "null"
  | PBool b => if b then "true" else "false"
  | PInt n => pretty n
  | PStr s => json_string s
  | PList l => "[" +:+ join ", " (map json_dumps_sorted l) +:+ "]"
  | PDict d =>
      let rendered :=
        map (λ kv, match kv with (k, x) => (k, json_dumps_sorted x) end) d in
      "{" +:+
      join ", " (map (λ kr, json_string kr.1 +:+ ": " +:+ kr.2)
                     (sort_items rendered)) +:+
      "}"
  end.

(** [d[k] = v] *)
Fixpoint dict_set (k : string) (v : pyval) (d : list (string * pyval))
  : list (string * pyval) :=
  match d with
  | [] => [(k, v)]
  | (k', v') :: d' =>
      if decide (k = k') then (k, v) :: d' else (k', v') :: dict_set k v d'
  end.

(** [s.lstrip('/')] *)
Fixpoint lstrip_slash (s : string) : string :=
  match s with
  | EmptyString => EmptyString
  | String c s' =>
      if decide (Ascii.nat_of_ascii c = 47%nat) then lstrip_slash s' else s
  end.

(** ** [whoop_client.py]: class [WhoopClient] *)

(** Names for the exceptions the client raises, which the source tells
    apart by their messages only. *)
Definition RATE_LIMIT_EXCEEDED : exn :=
  Exception "Rate limit exceeded. Please wait before making more requests.".
Definition NO_VALID_TOKEN : exn :=
  Exception "No valid access token available".
Definition AUTHENTICATION_FAILED : exn :=
  Exception "Authentication failed. Please re-authorize your WHOOP account.".
Definition REQUEST_TIMED_OUT : exn :=
  Exception "Request timed out. Please try again.".
Definition API_REQUEST_FAILED (status_code : Z) (text : string) : exn :=
  Exception ("API request failed with status " +:+ pretty status_code
             +:+ ": " +:+ text).

Section WhoopClient.
Context {L : Libs} (cfg : config) (E : env).

Definition _get_headers : M (list (string * pyval)) :=
  access_token <- get_valid_access_token E ;;
  if negb (truthy access_token) then
    raise (Exception "No valid access token available")
  else
    ret [("Authorization", PStr ("Bearer " +:+ py_str access_token));
         ("Content-Type", PStr "application/json")].

Definition _check_rate_limit : M unit :=
  now <- datetime_now E ;;
  window_start <- gets request_window_start ;;
  (if bool_decide (60 * SECOND ≤ now - window_start) then
     modify (set_request_count 0) ;;;
     modify (set_request_window_start now)
   else ret tt) ;;;
  count <- gets request_count ;;
  if bool_decide (MAX_REQUESTS_PER_MINUTE cfg ≤ count) then
    raise (Exception
      "Rate limit exceeded. Please wait before making more requests.")
  else modify (set_request_count (count + 1)).

Definition _get_cache_key (endpoint : string)
    (params : option (list (string * pyval))) : string :=
  match params with
  | Some ((_ :: _) as p) => endpoint +:+ ":" +:+ json_dumps_sorted (PDict p)
  | _ => endpoint
  end.

Definition _get_from_cache (cache_key : string) : M pyval :=
  c <- gets cache ;;
  match c !! cache_key with
  | Some cached_data =>
      cache_time <-
        lift (datetime_fromisoformat (PStr (cached_at cached_data))) ;;
      now <- datetime_now E ;;
      if bool_decide (now - cache_time < CACHE_DURATION cfg * SECOND) then
        ret (data cached_data)
      else
        modify (λ w, set_cache (delete cache_key (cache w)) w) ;;;
        ret PNone
  | None => ret PNone
  end.

Definition _save_to_cache (cache_key : string) (payload : pyval) : M unit :=
  now <- datetime_now E ;;
  modify (λ w,
    set_cache (<[cache_key := CacheEntry payload (isoformat now)]> (cache w)) w).

Definition _make_request (endpoint : string)
    (params : option (list (string * pyval))) : M pyval :=
  _check_rate_limit ;;;
  let cache_key := _get_cache_key endpoint params in
  cached_data <- _get_from_cache cache_key ;;
  if truthy cached_data then ret cached_data
  else
    let url := WHOOP_API_BASE cfg +:+ "/" +:+ lstrip_slash endpoint in
    headers <- _get_headers ;;
    try_except
      (match api_get E url headers (default [] params) with
       | Responded status_code text body =>
           if status_code =? 200 then
             payload <-
               lift (match body with
                     | Some v => Ok v
                     | None => Raise JSONDecodeError
                     end) ;;
             _save_to_cache cache_key payload ;;;
             ret payload
           else if status_code =? 401 then
             clear_tokens ;;;
             raise (Exception
               "Authentication failed. Please re-authorize your WHOOP account.")
           else
             raise (Exception
               ("API request failed with status " +:+ pretty status_code
                +:+ ": " +:+ text))
       | TimedOut => raise TimeoutException
       | Failed => raise TransportError
       end)
      (λ e, match e with
            | TimeoutException =>
                raise (Exception "Request timed out. Please try again.")
            | _ => raise e
            end).

Definition get_user_profile : M pyval :=
  _make_request "/user/profile/basic" None.

Definition date_params (start_date end_date limit : pyval)
  : list (string * pyval) :=
  let params := [("limit", limit)] in
  let params :=
    if truthy start_date then dict_set "start" start_date params
    else params in
  if truthy end_date then dict_set "end" end_date params else params.

Definition get_workouts (start_date end_date limit : pyval) : M pyval :=
  _make_request "/activity/workout"
    (Some (date_params start_date end_date limit)).

Definition get_recovery (start_date end_date limit : pyval) : M pyval :=
  _make_request "/recovery" (Some (date_params start_date end_date limit)).

Definition get_sleep (start_date end_date limit : pyval) : M pyval :=
  _make_request "/activity/sleep"
    (Some (date_params start_date end_date limit)).

Definition get_cycles (start_date end_date limit : pyval) : M pyval :=
  _make_request "/cycle" (Some (date_params start_date end_date limit)).

Definition get_auth_status : M pyval := get_token_info E.

Definition clear_cache : M unit := modify (set_cache ∅).

End WhoopClient.

(** ** [auth_manager.py]: construction of a [TokenManager] *)

(** [TokenManager._get_or_create_key], on the content of the key file:
    the key and the key file afterwards.  [generated] is what
    [Fernet.generate_key()] gives if it is called. *)
Definition _get_or_create_key (key_file : option string) (generated : string)
  : string * option string :=
  match key_file with
  | Some key => (key, Some key)
  | None => (generated, Some generated)
  end.

(** [TokenManager.__init__]: the key, unless [Fernet(key)] rejects it;
    [key_ok] tells the keys that [Fernet] accepts. *)
Definition TokenManager_init (key_ok : string → bool)
    (key_file : option string) (generated : string)
  : result string * option string :=
  let '(key, key_file') := _get_or_create_key key_file generated in
  if key_ok key then (Ok key, key_file') else (Raise ValueError, key_file').

(** The environment of a manager that holds [key]. *)
Definition with_key (key : string) (E : env) : env :=
  {| encryption_key := key;
     clock := clock E;
     entropy := entropy E;
     refresh_post := refresh_post E;
     api_get := api_get E |}.

(** ** [whoop_mcp_server.py]: the tools

    The global [whoop_client] is [None] or the one client of the process;
    the fields of that client are those of [world].  The client is built
    with the constants of [config.py], and its [TokenManager] with the key
    of the environment.  Printing to [stderr] is not modelled, but the
    expressions printed are evaluated, since they can raise.  A call of a
    tool runs to its end: calls that overlap at an [await] are not
    modelled. *)

Record server : Type := Server {
  whoop_client : bool;          (* [whoop_client is not None] *)
  client_state : world
}.

Definition SM (A : Type) : Type := server → result A * server.

Definition sret {A} (a : A) : SM A := λ s, (Ok a, s).
Definition sbind {A B} (m : SM A) (k : A → SM B) : SM B :=
  λ s, match m s with
       | (Ok a, s') => k a s'
       | (Raise e, s') => (Raise e, s')
       end.
Definition stry {A} (m : SM A) (handler : exn → SM A) : SM A :=
  λ s, match m s with
       | (Ok a, s') => (Ok a, s')
       | (Raise e, s') => handler e s'
       end.
(** A method of the client, run on the state of the client. *)
Definition on_client {A} (m : M A) : SM A :=
  λ s, let (r, w) := m (client_state s) in (r, Server (whoop_client s) w).

Notation "x <~ m ;; k" := (sbind m (λ x, k))
  (at level 100, m at next level, right associativity) : py_scope.

(** [len(v)] *)
Definition py_len (v : pyval) : result Z :=
  match v with
  | PStr s => Ok (Z.of_nat (String.length s))
  | PList l => Ok (Z.of_nat (length l))
  | PDict d => Ok (Z.of_nat (length d))
  | _ => Raise TypeError
  end.

Section Server.
Context {L : Libs} (E : env).
(** [str(e)] for the exceptions of the libraries *)
Context (describe : exn → string).

(** [str(e)] *)
Definition exception_str (e : exn) : string :=
  match e with
  | Exception msg => msg
  | _ => describe e
  end.

(** [WhoopClient.__init__], with a [TokenManager()] that succeeds and holds
    the key of the environment. *)
Definition WhoopClient_init : M unit :=
  modify (set_cache ∅) ;;;
  modify (set_request_count 0) ;;;
  now <- datetime_now E ;;
  modify (set_request_window_start now).

Definition init_whoop_client : SM unit :=
  λ s,
    if whoop_client s then (Ok tt, s)
    else
      let (_, w) := WhoopClient_init (client_state s) in
      on_client
        (auth_status <- get_auth_status E ;;
         _ <- lift (getitem auth_status "status") ;;
         ret tt)
        (Server true w).

Definition get_whoop_auth_status : SM pyval :=
  stry
    (_ <~ init_whoop_client ;;
     status <~ on_client (get_auth_status E) ;;
     now <~ on_client (datetime_now E) ;;
     let result :=
       PDict [("tool", PStr "get_whoop_auth_status");
              ("data", status);
              ("timestamp", PStr (isoformat now))] in
     _ <~ on_client (lift (getitem status "status")) ;;
     sret result)
    (λ e,
       now <~ on_client (datetime_now E) ;;
       sret (PDict [("tool", PStr "get_whoop_auth_status");
                    ("error", PStr (exception_str e));
                    ("timestamp", PStr (isoformat now))])).

Definition get_whoop_profile : SM pyval :=
  stry
    (_ <~ init_whoop_client ;;
     payload <~ on_client (get_user_profile default_config E) ;;
     now <~ on_client (datetime_now E) ;;
     let result :=
       PDict [("tool", PStr "get_whoop_profile");
              ("data", payload);
              ("timestamp", PStr (isoformat now))] in
     _ <~ on_client (lift (get_default payload "first_name" (PStr "N/A"))) ;;
     sret result)
    (λ e,
       now <~ on_client (datetime_now E) ;;
       sret (PDict [("tool", PStr "get_whoop_profile");
                    ("error", PStr (exception_str e));
                    ("timestamp", PStr (isoformat now))])).

Definition get_whoop_workouts (limit : pyval) : SM pyval :=
  stry
    (_ <~ init_whoop_client ;;
     payload <~ on_client (get_workouts default_config E PNone PNone limit) ;;
     now <~ on_client (datetime_now E) ;;
     let result :=
       PDict [("tool", PStr "get_whoop_workouts");
              ("data", payload);
              ("timestamp", PStr (isoformat now))] in
     _ <~ on_client (lift (py_len payload)) ;;
     sret result)
    (λ e,
       now <~ on_client (datetime_now E) ;;
       sret (PDict [("tool", PStr "get_whoop_workouts");
                    ("error", PStr (exception_str e));
                    ("timestamp", PStr (isoformat now))])).

Definition get_whoop_recovery (limit : pyval) : SM pyval :=
  stry
    (_ <~ init_whoop_client ;;
     payload <~ on_client (get_recovery default_config E PNone PNone limit) ;;
     now <~ on_client (datetime_now E) ;;
     let result :=
       PDict [("tool", PStr "get_whoop_recovery");
              ("data", payload);
              ("timestamp", PStr (isoformat now))] in
     _ <~ on_client (lift (py_len payload)) ;;
     sret result)
    (λ e,
       now <~ on_client (datetime_now E) ;;
       sret (PDict [("tool", PStr "get_whoop_recovery");
                    ("error", PStr (exception_str e));
                    ("timestamp", PStr (isoformat now))])).

End Server.

(** ** [setup.py]: obtaining and storing the first tokens

    Printing is not modelled.  A [TokenManager] is built with the key of
    the environment. *)

Definition OAUTH_BASE_URL : string :=
  "https://personal-integrations-462307.uc.r.appspot.com".
Definition OAUTH_TOKEN_URL : string := OAUTH_BASE_URL +:+ "/api/get-tokens".

Module setup.
Section Setup.
Context {L : Libs} (E : env).
(** [requests.get(url, timeout=30)] *)
Context (token_get : string → http_outcome).

Definition exchange_code_for_tokens (auth_code : string) : pyval :=
  let attempt : result pyval :=
    match token_get (OAUTH_TOKEN_URL +:+ "/" +:+ auth_code) with
    | Responded status_code _ body =>
        if status_code =? 200 then
          match body with
          | Some token_data =>
              match get_default token_data "success" PNone with
              | Ok success => Ok (if truthy success then token_data else PNone)
              | Raise e => Raise e
              end
          | None => Raise JSONDecodeError
          end
        else Ok PNone
    | TimedOut => Raise TimeoutException
    | Failed => Raise TransportError
    end in
  match attempt with
  | Ok v => v
  | Raise _ => PNone
  end.

Definition save_tokens (token_data : pyval) : M bool :=
  try_except
    (save_tokens E token_data ;;;
     ret true)
    (λ _, ret false).

Definition verify_setup : M bool :=
  try_except
    (token_info <- get_token_info E ;;
     status <- lift (getitem token_info "status") ;;
     if match status with
        | PStr s => String.eqb s "no_tokens"
        | _ => false
        end
     then ret false
     else
       _ <- lift (getitem token_info "token_type") ;;
       _ <- lift (getitem token_info "expires_at") ;;
       _ <- lift (getitem token_info "has_refresh_token") ;;
       ret true)
    (λ _, ret false).

End Setup.
End setup.

(** ** An implementation of the libraries

    The properties below are proved for every implementation of [Libs].
    [model_libs] is one, simple enough to evaluate the methods on concrete
    states; it shows that the laws of [Libs] can be met together.  Its
    texts are strings of binary digits, not the texts Python writes. *)

Fixpoint pos_to_bits (p : positive) : string :=
  match p with
  | xH => EmptyString
  | xO p' => String (Ascii.ascii_of_nat 48) (pos_to_bits p')
  | xI p' => String (Ascii.ascii_of_nat 49) (pos_to_bits p')
  end.

Fixpoint bits_to_pos (s : string) : option positive :=
  match s with
  | EmptyString => Some xH
  | String c s' =>
      let n := Ascii.nat_of_ascii c in
      if decide (n = 48)%nat then xO <$> bits_to_pos s'
      else if decide (n = 49)%nat then xI <$> bits_to_pos s'
      else None
  end.

Definition encode_text `{Countable A} (a : A) : string :=
  pos_to_bits (encode a).
Definition decode_text `{Countable A} (s : string) : option A :=
  bits_to_pos s ≫= decode.

Fixpoint pyval_to_tree (v : pyval) : gen_tree (bool + Z + string) :=
  match v with
  | PNone => GenNode 0 []
  | PBool b => GenLeaf (inl (inl b))
  | PInt n => GenLeaf (inl (inr n))
  | PStr s => GenLeaf (inr s)
  | PList l => GenNode 1 (map pyval_to_tree l)
  | PDict d =>
      GenNode 2
        (map (λ kv, match kv with
                    | (k, x) => GenNode 3 [GenLeaf (inr k); pyval_to_tree x]
                    end) d)
  end.

Fixpoint tree_to_pyval (t : gen_tree (bool + Z + string)) : pyval :=
  match t with
  | GenLeaf (inl (inl b)) => PBool b
  | GenLeaf (inl (inr n)) => PInt n
  | GenLeaf (inr s) => PStr s
  | GenNode 1 ts => PList (map tree_to_pyval ts)
  | GenNode 2 ts =>
      PDict (map (λ t', match t' with
                        | GenNode _ [GenLeaf (inr k); tx] =>
                            (k, tree_to_pyval tx)
                        | _ => (EmptyString, PNone)
                        end) ts)
  | GenNode _ _ => PNone
  end.

Lemma tree_to_pyval_to_tree v : tree_to_pyval (pyval_to_tree v) = v.
Proof.
  induction v as [| | | |l IH|d IH]; simpl; try done.
  - f_equal. induction IH as [|x Hx l' Hl IHl]; simpl; [done|].
    by rewrite Hx, IHl.
  - f_equal. induction IH as [|kv Hkv d' Hd IHd]; simpl; [done|].
    destruct Hkv as [k _ x Hx]. by rewrite Hx, IHd.
Qed.

Global Instance pyval_eq_dec : EqDecision pyval.
Proof.
  intros x y. destruct (decide (pyval_to_tree x = pyval_to_tree y)) as [H|H].
  - left. rewrite <- (tree_to_pyval_to_tree x), <- (tree_to_pyval_to_tree y).
    by rewrite H.
  - right. by intros ->.
Defined.

Global Instance pyval_countable : Countable pyval :=
  inj_countable' pyval_to_tree tree_to_pyval tree_to_pyval_to_tree.

Fixpoint string_drop (n : nat) (s : string) : string :=
  match n, s with
  | S n', String _ s' => string_drop n' s'
  | _, _ => s
  end.

Definition FERNET_MARKER : string := "gAAAAA".

Definition model_fernet_encrypt (key rnd msg : string) : string :=
  FERNET_MARKER +:+ encode_text (key, rnd, msg).

Definition model_fernet_decrypt (key token : string) : option string :=
  if String.prefix FERNET_MARKER token then
    match decode_text (A:=string * string * string) (string_drop 6 token) with
    | Some (k, _, msg) => if decide (k = key) then Some msg else None
    | None => None
    end
  else None.

Definition model_json_loads (s : string) : option pyval :=
  match s with
  | String c rest =>
      if decide (Ascii.nat_of_ascii c = 123)%nat then decode_text rest
      else None
  | EmptyString => None
  end.

(** 1970-01-01T00:00:00, for a local time zone equal to UTC *)
Definition UNIX_EPOCH : Z := 719162 * 86400 * SECOND.

Definition model_py_str (v : pyval) : string :=
  match v with
  | PStr s => s
  | PNone => "None"
  | PBool b => if b then "True" else "False"
  | PInt n => pretty n
  | _ => json_dumps_sorted v
  end.

Lemma bits_to_pos_to_bits p : bits_to_pos (pos_to_bits p) = Some p.
Proof. induction p as [p IH|p IH|]; simpl; [| |done]; by rewrite IH. Qed.

Lemma decode_encode_text `{Countable A} (a : A) :
  decode_text (encode_text a) = Some a.
Proof.
  unfold decode_text, encode_text. rewrite bits_to_pos_to_bits. simpl.
  apply decode_encode.
Qed.

Lemma prefix_app (p s : string) : String.prefix p (p +:+ s) = true.
Proof.
  induction p as [|a p IH]; simpl; [by destruct s|].
  by destruct (Ascii.ascii_dec a a).
Qed.

Lemma model_fernet_decrypt_encrypt key rnd msg :
  model_fernet_decrypt key (model_fernet_encrypt key rnd msg) = Some msg.
Proof.
  unfold model_fernet_decrypt, model_fernet_encrypt.
  rewrite prefix_app.
  change (string_drop 6 _) with (encode_text (key, rnd, msg)).
  rewrite decode_encode_text. by rewrite decide_True.
Qed.

Lemma model_json_loads_dump v :
  model_json_loads ("{" +:+ encode_text v) = Some v.
Proof. apply decode_encode_text. Qed.

Global Program Instance model_libs : Libs := {|
  fernet_encrypt := model_fernet_encrypt;
  fernet_decrypt := model_fernet_decrypt;
  json_dump v := "{" +:+ encode_text v;
  json_loads := model_json_loads;
  isoformat t := encode_text t;
  fromisoformat s := decode_text s;
  fromtimestamp n := Some (UNIX_EPOCH + n * SECOND);
  py_str := model_py_str
|}.
Next Obligation. apply model_fernet_decrypt_encrypt. Qed.
Next Obligation. intros v _. apply model_json_loads_dump. Qed.
Next Obligation. intros d. by eexists. Qed.
Next Obligation. intros t. apply decode_encode_text. Qed.

(** ** Notions used in the statements *)

Section Notions.
Context {L : Libs} (cfg : config) (E : env).

(** The stored content cannot be decrypted with the key of the
    installation: the whole file in the Fernet format, one of the two
    encrypted fields in the JSON format. *)
Definition cannot_decrypt (content : string) : Prop :=
  if String.prefix "gAAAAA" content then
    fernet_decrypt (encryption_key E) content = None
  else
    ∃ doc c1 c2,
      json_loads content = Some doc ∧
      getitem doc "access_token" = Ok (PStr c1) ∧
      getitem doc "refresh_token" = Ok (PStr c2) ∧
      (fernet_decrypt (encryption_key E) c1 = None ∨
       fernet_decrypt (encryption_key E) c2 = None).

(** What [save_tokens] writes: the JSON envelope with the two tokens
    encrypted. *)
Definition envelope (access_enc refresh_enc : string) (token_type : pyval)
    (expires_at created_at : Z) : pyval :=
  PDict [("access_token", PStr access_enc);
         ("refresh_token", PStr refresh_enc);
         ("token_type", token_type);
         ("expires_at", PStr (isoformat expires_at));
         ("created_at", PStr (isoformat created_at))].

(** A token response that [save_tokens] accepts: a dict with a string
    [access_token], a string [refresh_token] or none, an integer
    [expires_in] or none, and any [token_type] or none. *)
Definition valid_token_response (tokens : pyval) (access refresh : string)
    (token_type : pyval) (lifetime : Z) : Prop :=
  getitem tokens "access_token" = Ok (PStr access) ∧
  get_default tokens "refresh_token" (PStr EmptyString) = Ok (PStr refresh) ∧
  get_default tokens "token_type" (PStr "Bearer") = Ok token_type ∧
  wf_pyval token_type = true ∧
  ∃ expires_in,
    get_default tokens "expires_in" (PInt 3600) = Ok expires_in ∧
    timedelta_seconds expires_in = Ok lifetime.

(** The steps of [_make_request] before the HTTP call: the response the
    request receives from upstream and the state it is received in, or
    [None] when the request is rejected by the rate limiter, answered from
    the cache, or left without a token. *)
Definition upstream_response (endpoint : string)
    (params : option (list (string * pyval))) (w : world)
  : option (http_outcome * world) :=
  match _check_rate_limit cfg E w with
  | (Ok _, w1) =>
      match _get_from_cache cfg E (_get_cache_key endpoint params) w1 with
      | (Ok cached_data, w2) =>
          if truthy cached_data then None
          else
            match _get_headers E w2 with
            | (Ok headers, w3) =>
                let url := WHOOP_API_BASE cfg +:+ "/" +:+ lstrip_slash endpoint in
                Some (api_get E url headers (default [] params), w3)
            | (Raise _, _) => None
            end
      | (Raise _, _) => None
      end
  | (Raise _, _) => None
  end.

End Notions.

(** [n] successive calls of a method: the outcome of each call in order,
    and the state after the last one. *)
Fixpoint call_times {A} (n : nat) (m : M A) (w : world)
  : list (result A) * world :=
  match n with
  | O => ([], w)
  | S n' =>
      let (r, w') := m w in
      let (rs, w'') := call_times n' m w' in
      (r :: rs, w'')
  end.

(** A relation between the state before and the state after is preserved
    by a method when every run of the method satisfies it. *)
Definition preserves {A} (R : relation world) (m : M A) : Prop :=
  ∀ w r w', m w = (r, w') → R w w'.

Definition same_client : relation world := λ w w',
  cache w' = cache w ∧
  request_count w' = request_count w ∧
  request_window_start w' = request_window_start w.

Definition same_cache : relation world := λ w w', cache w' = cache w.

(** ** Sample installations

    Concrete environments and states, over [model_libs], on which the
    properties are instantiated. *)

(** 2024-01-01T00:00:00 *)
Definition T0 : Z := 738885 * 86400 * SECOND.

Definition sample_response : pyval :=
  PDict [("success", PBool true);
         ("access_token", PStr "access-1");
         ("refresh_token", PStr "refresh-1");
         ("expires_in", PInt 3600);
         ("token_type", PStr "Bearer")].

Definition refreshed_response : pyval :=
  PDict [("success", PBool true);
         ("access_token", PStr "access-2");
         ("refresh_token", PStr "refresh-2");
         ("expires_in", PInt 3600);
         ("token_type", PStr "Bearer")].

Definition sample_env (key : string) (clk : nat → Z)
    (post get : http_outcome) : env :=
  {| encryption_key := key;
     clock := clk;
     entropy := λ n, pretty n;
     refresh_post := λ _, post;
     api_get := λ _ _ _, get |}.

(** A new client on an installation without a token file. *)
Definition new_world (now : Z) : world := World None 0 0 ∅ 0 now.

(** The installation after the setup script has saved [sample_response]
    at [T0] under the key ["key-1"]. *)
Definition installed : world :=
  (save_tokens (sample_env "key-1" (λ _, T0) Failed Failed) sample_response
     (new_world T0)).2.

Definition installed_record : pyval :=
  PDict [("access_token", PStr "access-1");
         ("refresh_token", PStr "refresh-1");
         ("token_type", PStr "Bearer");
         ("expires_at", PStr (isoformat (T0 + 3600 * SECOND)));
         ("created_at", PStr (isoformat T0))].

(** Upstream answers 401 one minute after the setup. *)
Definition E_unauthorized : env :=
  sample_env "key-1" (λ _, T0 + 60 * SECOND) Failed
    (Responded 401 "Unauthorized" None).

(** The key has been rotated since the setup. *)
Definition E_rotated : env := sample_env "key-2" (λ _, T0) Failed Failed.

(** A record that expires at 00:04:59 after [T0], checked at [T0]. *)
Definition expiring_record : pyval :=
  PDict [("expires_at", PStr (isoformat (T0 + 299 * SECOND)))].

(** A client that makes one request per millisecond. *)
Definition E_busy : env :=
  sample_env "key-1" (λ n, T0 + Z.of_nat n * 1000) Failed Failed.

Definition cached_payload : pyval := PDict [("user_id", PInt 12345)].

(** A payload cached at [T0] is looked up [age] microseconds later. *)
Definition E_lookup (age : Z) : env :=
  sample_env "key-1" (λ n, match n with O => T0 | _ => T0 + age end)
    Failed Failed.

(** The profile was cached at the setup; 400 seconds later the entry is
    stale and upstream times out. *)
Definition E_timeout : env :=
  sample_env "key-1"
    (λ n, if decide (n ≤ 2)%nat then T0 else T0 + 400 * SECOND)
    Failed TimedOut.

Definition installed_cached : world :=
  (_save_to_cache E_timeout "/user/profile/basic" cached_payload installed).2.

(** Two minutes before the stored token expires. *)
Definition E_closing : env :=
  sample_env "key-1" (λ _, T0 + 3480 * SECOND)
    (Responded 200 EmptyString (Some refreshed_response)) Failed.

(** ** Further notions *)

(** A timestamp with a UTC offset ends in [Z] or in a signed offset, which
    follows the date, a separator and the hour, so that its sign or its [Z]
    is the eleventh character at the earliest.  [no_utc_offset stamp] tells
    that none of these characters stands there or later: if
    [datetime.fromisoformat] accepts [stamp] at all, the result is naive. *)
Definition no_utc_offset (stamp : string) : bool :=
  let rest := string_drop 10 stamp in
  negb (is_substring "+" rest || is_substring "-" rest ||
        is_substring "Z" rest || is_substring "z" rest).

(** The record has no [expires_at] that parses: it is not a dict, the key is
    missing, the value is not a string, or the string is not a timestamp. *)
Definition unparsable_expiry `{L : Libs} (tokens : pyval) : Prop :=
  match getitem tokens "expires_at" with
  | Ok (PStr stamp) => fromisoformat stamp = None
  | _ => True
  end.

(** The two shapes of a status summary. *)
Definition summary_shape (info : pyval) : Prop :=
  info = PDict [("status", PStr "no_tokens")] ∨
  ∃ status expires_at created_at token_type has_refresh,
    info = PDict [("status", PStr status);
                  ("expires_at", PStr expires_at);
                  ("created_at", created_at);
                  ("token_type", token_type);
                  ("has_refresh_token", PBool has_refresh)] ∧
    (status = "valid" ∨ status = "expired").

(** Everything but the number of clock readings is as before. *)
Definition read_only : relation world := λ w w',
  token_file w' = token_file w ∧
  random_draws w' = random_draws w ∧
  same_client w w'.

(** The two answers of a tool. *)
Definition data_envelope `{L : Libs} (tool : string) (payload : pyval)
    (stamp : Z) : pyval :=
  PDict [("tool", PStr tool);
         ("data", payload);
         ("timestamp", PStr (isoformat stamp))].

Definition error_envelope `{L : Libs} (tool message : string) (stamp : Z)
  : pyval :=
  PDict [("tool", PStr tool);
         ("error", PStr message);
         ("timestamp", PStr (isoformat stamp))].

Definition tool_answer `{L : Libs} (tool : string) (v : pyval) : Prop :=
  ∃ stamp,
    (∃ payload, v = data_envelope tool payload stamp) ∨
    (∃ message, v = error_envelope tool message stamp).

(** The shape the four tools share: the client is initialised, a method
    of the client is called, the answer is built, and an expression over
    the payload is evaluated for the log, all under one handler. *)
Definition tool_shape `{L : Libs} (E : env) (describe : exn → string)
    {A : Type} (tool : string) (call : M pyval) (log : pyval → result A)
  : SM pyval :=
  stry
    (_ <~ init_whoop_client E ;;
     payload <~ on_client call ;;
     now <~ on_client (datetime_now E) ;;
     _ <~ on_client (lift (log payload)) ;;
     sret (data_envelope tool payload now))
    (λ e,
       now <~ on_client (datetime_now E) ;;
       sret (error_envelope tool (exception_str describe e) now)).

(** ** Further sample installations *)

(** Five minutes before the stored token expires the refresh endpoint
    answers with [refreshed_response]. *)
Definition E_refreshing : env :=
  sample_env "key-1" (λ _, T0 + 3300 * SECOND)
    (Responded 200 EmptyString (Some refreshed_response)) Failed.

(** A token file whose [expires_at] is not a timestamp. *)
Definition damaged : world :=
  set_token_file
    (Some (json_dump
       (PDict [("access_token",
                PStr (fernet_encrypt "key-1" "0" "access-1"));
               ("refresh_token",
                PStr (fernet_encrypt "key-1" "1" "refresh-1"));
               ("token_type", PStr "Bearer");
               ("expires_at", PStr "tomorrow");
               ("created_at", PStr "today")])))
    (new_world T0).

(** One minute after the setup upstream answers the profile request. *)
Definition E_serving (status_code : Z) (text : string) (body : option pyval)
  : env :=
  sample_env "key-1" (λ _, T0 + 60 * SECOND) Failed
    (Responded status_code text body).

(** A client without credentials that holds a cached profile. *)
Definition cached_only : world :=
  (_save_to_cache (sample_env "key-1" (λ _, T0) Failed Failed)
     "/user/profile/basic" cached_payload (new_world T0)).2.


(** A server process that has not built its client yet. *)
Definition fresh_server (w : world) : server := Server false w.

(** [str(e)] for the exceptions of the libraries, by the name of the
    class. *)
Definition describe_by_class (e : exn) : string :=
  match e with
  | KeyError k => k
  | TypeError => "TypeError"
  | AttributeError => "AttributeError"
  | ValueError => "ValueError"
  | OverflowError => "OverflowError"
  | InvalidToken => "InvalidToken"
  | JSONDecodeError => "JSONDecodeError"
  | TimeoutException => "TimeoutException"
  | TransportError => "TransportError"
  | Exception msg => msg
  end.

(** * Properties *)

Ltac run :=
  unfold bind, ret, raise, lift, try_except, gets, modify; simpl.

(** ** Expiry check *)

Section Expiry.
Context {L : Libs} (E : env).

Lemma datetime_add_in_range t delta :
  0 ≤ t + delta < DATETIME_END → datetime_add t delta = Ok (t + delta).
Proof. intros H. unfold datetime_add. by rewrite bool_decide_eq_true_2. Qed.

(** The expiry check on a record whose [expires_at] parses: one clock
    reading, and the comparison [now + 5 minutes >= expires_at]. *)
Lemma is_token_expired_parsed tokens stamp expires_at w :
  getitem tokens "expires_at" = Ok (PStr stamp) →
  fromisoformat stamp = Some expires_at →
  let now := clock E (clock_reads w) in
  0 ≤ now + 300 * SECOND < DATETIME_END →
  is_token_expired E tokens w =
    (Ok (bool_decide (expires_at ≤ now + 300 * SECOND)),
     set_clock_reads (S (clock_reads w)) w).
Proof.
  intros Hget Hparse now Hrange. unfold is_token_expired. run.
  rewrite Hget. simpl. rewrite Hparse. simpl.
  change (5 * 60 * SECOND) with (300 * SECOND).
  fold now. by rewrite datetime_add_in_range.
Qed.


End Expiry.

(** ** Cache keys *)

Section CacheKey.
Context {A : Type}.

Global Instance key_le_total : Total (@key_le A).
Proof. intros p q. unfold key_le. apply (total String.le). Qed.

Global Instance key_le_trans : Transitive (@key_le A).
Proof. intros p q r. unfold key_le. apply (transitivity (R:=String.le)). Qed.

Lemma NoDup_keys_binding (l : list (string * A)) p q :
  NoDup (l.*1) → p ∈ l → q ∈ l → p.1 = q.1 → p = q.
Proof.
  induction l as [|x l IH]; simpl; intros Hnd Hp Hq Hk.
  { by apply elem_of_nil in Hp. }
  pose proof (NoDup_cons_1_1 _ _ Hnd) as Hx.
  apply NoDup_cons_1_2 in Hnd.
  apply elem_of_cons in Hp as [->|Hp], Hq as [->|Hq]; auto.
  - destruct Hx. rewrite Hk. apply list_elem_of_fmap. eauto.
  - destruct Hx. rewrite <- Hk. apply list_elem_of_fmap. eauto.
Qed.

(** Sorting by key forgets the insertion order of a dict. *)
Lemma sort_items_Permutation (l1 l2 : list (string * A)) :
  NoDup (l1.*1) → l1 ≡ₚ l2 → sort_items l1 = sort_items l2.
Proof.
  intros Hnd Hperm. unfold sort_items.
  apply (StronglySorted_unique_strong key_le).
  - intros p q Hp Hq Hpq Hqp.
    rewrite merge_sort_Permutation in Hp.
    rewrite merge_sort_Permutation, <- Hperm in Hq.
    apply (NoDup_keys_binding l1); auto.
    apply (anti_symm String.le); assumption.
  - apply StronglySorted_merge_sort; apply _.
  - apply StronglySorted_merge_sort; apply _.
  - by rewrite !merge_sort_Permutation.
Qed.

End CacheKey.

Lemma json_dumps_sorted_dict_Permutation (p1 p2 : list (string * pyval)) :
  NoDup (p1.*1) → p1 ≡ₚ p2 →
  json_dumps_sorted (PDict p1) = json_dumps_sorted (PDict p2).
Proof.
  intros Hnd Hperm. simpl. do 4 f_equal.
  apply sort_items_Permutation.
  - replace ((map _ p1).*1) with (p1.*1); [exact Hnd|].
    clear. induction p1 as [|[k x] p1 IH]; simpl; by f_equal.
  - by apply fmap_Permutation.
Qed.

(** C8. Cache key determinism: for every endpoint, two parameter dicts
    that hold the same key-value bindings, in whatever order they were
    inserted, give the same cache key. *)
Theorem cache_key_deterministic (endpoint : string)
    (p1 p2 : list (string * pyval)) :
  NoDup (p1.*1) → p1 ≡ₚ p2 →
  _get_cache_key endpoint (Some p1) = _get_cache_key endpoint (Some p2).
Proof.
  intros Hnd Hperm. unfold _get_cache_key.
  destruct p1 as [|b1 p1], p2 as [|b2 p2]; try done.
  - by apply Permutation_nil_cons in Hperm.
  - symmetry in Hperm. by apply Permutation_nil_cons in Hperm.
  - f_equal. f_equal. by apply json_dumps_sorted_dict_Permutation.
Qed.

(** The two dicts of the specification,
    [{limit: 5, start: "2024-01-01"}] and [{start: "2024-01-01", limit: 5}]. *)
Lemma cache_key_deterministic_witness :
  _get_cache_key "/activity/workout"
    (Some [("limit", PInt 5); ("start", PStr "2024-01-01")]) =
  _get_cache_key "/activity/workout"
    (Some [("start", PStr "2024-01-01"); ("limit", PInt 5)]).
Proof.
  apply cache_key_deterministic.
  - compute_done.
  - apply perm_swap.
Defined.

(** ** Rate limiter *)

Section RateLimit.
Context (cfg : config) (E : env).

(** One call, spelled out: the window rolls over when 60 seconds have
    passed, then the request is counted or rejected. *)
Lemma _check_rate_limit_run w :
  let now := clock E (clock_reads w) in
  let rolled := bool_decide (60 * SECOND ≤ now - request_window_start w) in
  let count := if rolled then 0 else request_count w in
  let start := if rolled then now else request_window_start w in
  let w1 := World (token_file w) (S (clock_reads w)) (random_draws w)
              (cache w) count start in
  _check_rate_limit cfg E w =
    if bool_decide (MAX_REQUESTS_PER_MINUTE cfg ≤ count)
    then (Raise RATE_LIMIT_EXCEEDED, w1)
    else (Ok tt, set_request_count (count + 1) w1).
Proof.
  unfold _check_rate_limit, datetime_now. run.
  destruct (bool_decide (60 * SECOND ≤ _)); simpl;
    destruct (bool_decide (MAX_REQUESTS_PER_MINUTE cfg ≤ _)); reflexivity.
Qed.

(** While the window has room, [k] requests inside it are all admitted and
    counted, and the window start does not move. *)
Lemma rate_window_admits (k : nat) w :
  request_count w + Z.of_nat k ≤ MAX_REQUESTS_PER_MINUTE cfg →
  (∀ i : nat, (i < k)%nat →
     clock E (clock_reads w + i) - request_window_start w < 60 * SECOND) →
  ∃ w', call_times k (_check_rate_limit cfg E) w = (replicate k (Ok tt), w') ∧
        request_count w' = request_count w + Z.of_nat k ∧
        request_window_start w' = request_window_start w ∧
        clock_reads w' = (clock_reads w + k)%nat ∧
        cache w' = cache w ∧ token_file w' = token_file w.
Proof.
  revert w. induction k as [|k IH]; intros w Hroom Hin; simpl.
  { eexists. split; [reflexivity|]. repeat split; auto with lia. }
  rewrite _check_rate_limit_run. cbv zeta.
  rewrite (bool_decide_eq_false_2 (60 * SECOND ≤ _)).
  2:{ specialize (Hin O ltac:(lia)). rewrite Nat.add_0_r in Hin. lia. }
  rewrite bool_decide_eq_false_2 by lia.
  match goal with |- context [call_times k _ ?w0] =>
    destruct (IH w0) as (w' & Hrun & Hc & Hs & Hr & Hca & Htf) end.
  { simpl. lia. }
  { simpl. intros i Hi. specialize (Hin (S i) ltac:(lia)).
    by replace (clock_reads w + S i)%nat with (S (clock_reads w) + i)%nat
      in Hin by lia. }
  rewrite Hrun. exists w'. simpl in *. repeat split; auto with lia.
Qed.

(** C6. Fixed-window rate limiter.  With a ceiling of at least one request
    per window: (1) a call made 60 seconds or more after [window_start]
    resets the counter to 0 and restarts the window at the current time
    before it counts the request, so that request is admitted and is the
    first of the new window; (2) inside one window, once the requests
    admitted so far and the next [k] together reach the ceiling, these [k]
    are admitted and the one after them is rejected by an exception, with
    nothing queued: the counter stays at the ceiling and the window start
    does not move. *)
Theorem rate_limiter_fixed_window :
  0 < MAX_REQUESTS_PER_MINUTE cfg →
  (∀ w, 60 * SECOND ≤ clock E (clock_reads w) - request_window_start w →
     _check_rate_limit cfg E w =
       (Ok tt, World (token_file w) (S (clock_reads w)) (random_draws w)
                 (cache w) 1 (clock E (clock_reads w)))) ∧
  (∀ w (k : nat),
     request_count w + Z.of_nat k = MAX_REQUESTS_PER_MINUTE cfg →
     (∀ i : nat, (i ≤ k)%nat →
        clock E (clock_reads w + i) - request_window_start w < 60 * SECOND) →
     ∃ w', call_times (S k) (_check_rate_limit cfg E) w =
             (replicate k (Ok tt) ++ [Raise RATE_LIMIT_EXCEEDED], w') ∧
           request_count w' = MAX_REQUESTS_PER_MINUTE cfg ∧
           request_window_start w' = request_window_start w ∧
           cache w' = cache w ∧ token_file w' = token_file w).
Proof.
  intros Hpos. split.
  - intros w Hroll. rewrite _check_rate_limit_run. cbv zeta.
    rewrite (bool_decide_eq_true_2 (60 * SECOND ≤ _)) by done.
    by rewrite bool_decide_eq_false_2 by lia.
  - intros w k Hfull Hin.
    destruct (rate_window_admits k w) as (w1 & Hrun & Hc & Hs & Hr & Hca & Htf).
    { lia. } { intros i Hi. apply Hin. lia. }
    assert (Hsplit : ∀ (m : M unit) j w0 rs wj r wr,
      call_times j m w0 = (rs, wj) → m wj = (r, wr) →
      call_times (S j) m w0 = (rs ++ [r], wr)).
    { clear. intros m j. induction j as [|j IH]; intros w0 rs wj r wr Hj Hm.
      - simpl in Hj. injection Hj as <- <-. simpl. by rewrite Hm.
      - simpl in Hj. destruct (m w0) as [r0 w0'] eqn:H0.
        destruct (call_times j m w0') as [rs' wj'] eqn:Hj'.
        injection Hj as <- <-.
        change (call_times (S (S j)) m w0) with
          (let (r1, w1) := m w0 in
           let (rs1, w2) := call_times (S j) m w1 in (r1 :: rs1, w2)).
        rewrite H0. by rewrite (IH _ _ _ _ _ Hj' Hm). }
    pose proof (_check_rate_limit_run w1) as Hlast. cbv zeta in Hlast.
    rewrite (bool_decide_eq_false_2 (60 * SECOND ≤ _)) in Hlast.
    2:{ rewrite Hr, Hs. specialize (Hin k ltac:(lia)). lia. }
    rewrite bool_decide_eq_true_2 in Hlast by lia.
    eexists. split; [exact (Hsplit _ _ _ _ _ _ _ Hrun Hlast)|].
    simpl. repeat split; auto with lia.
Qed.

End RateLimit.

(** ** Response cache *)

Section Cache.
Context {L : Libs} (cfg : config) (E : env).

Lemma _get_from_cache_miss key w :
  cache w !! key = None → _get_from_cache cfg E key w = (Ok PNone, w).
Proof. intros Hmiss. unfold _get_from_cache. run. by rewrite Hmiss. Qed.

(** A lookup of a key that has an entry reads the clock once; a fresh
    entry is returned, a stale one deleted. *)
Lemma _get_from_cache_run key w entry t :
  cache w !! key = Some entry →
  fromisoformat (cached_at entry) = Some t →
  let now := clock E (clock_reads w) in
  let w1 := set_clock_reads (S (clock_reads w)) w in
  _get_from_cache cfg E key w =
    if bool_decide (now - t < CACHE_DURATION cfg * SECOND)
    then (Ok (data entry), w1)
    else (Ok PNone, set_cache (delete key (cache w)) w1).
Proof.
  intros Hhit Hparse. unfold _get_from_cache, datetime_now. run.
  rewrite Hhit. simpl. rewrite Hparse. simpl.
  by destruct (bool_decide _).
Qed.

Lemma _save_to_cache_run key payload w :
  _save_to_cache E key payload w =
    (Ok tt,
     set_cache
       (<[key := CacheEntry payload (isoformat (clock E (clock_reads w)))]>
          (cache w))
       (set_clock_reads (S (clock_reads w)) w)).
Proof. reflexivity. Qed.

(** A lookup never adds or changes an entry: afterwards every key holds
    what it held before, except that the key looked up may have lost its
    entry. *)
Lemma _get_from_cache_shrinks key w r w' :
  _get_from_cache cfg E key w = (r, w') →
  (cache w' = cache w ∨ cache w' = delete key (cache w)) ∧
  token_file w' = token_file w ∧
  request_count w' = request_count w ∧
  request_window_start w' = request_window_start w ∧
  random_draws w' = random_draws w.
Proof.
  unfold _get_from_cache, datetime_now. run.
  destruct (cache w !! key) as [entry|]; simpl.
  - destruct (fromisoformat (cached_at entry)); simpl.
    + destruct (bool_decide _); intros [= <- <-]; simpl; auto.
    + intros [= <- <-]; auto.
  - intros [= <- <-]; auto.
Qed.

End Cache.

(** C7. Cache TTL (300 seconds in [config.py]).  [_save_to_cache] stores
    the payload under the key together with the time of the call.  A lookup
    of an entry whose age, at the time of the lookup, is 300 seconds or
    more returns [None] and leaves the cache without that entry; a lookup of
    a younger entry returns the payload of the entry, the one that was
    stored, and leaves the cache as it was. *)
Theorem cache_ttl `{L : Libs} (E : env) (key : string) :
  (∀ payload w,
     let w' := (_save_to_cache E key payload w).2 in
     ∃ entry, cache w' !! key = Some entry ∧ data entry = payload ∧
       fromisoformat (cached_at entry) = Some (clock E (clock_reads w))) ∧
  (∀ w entry t,
     cache w !! key = Some entry →
     fromisoformat (cached_at entry) = Some t →
     let age := clock E (clock_reads w) - t in
     let '(r, w') := _get_from_cache default_config E key w in
     (300 * SECOND ≤ age →
        r = Ok PNone ∧ cache w' = delete key (cache w) ∧
        cache w' !! key = None) ∧
     (age < 300 * SECOND → r = Ok (data entry) ∧ cache w' = cache w)).
Proof.
  split.
  - intros payload w. rewrite _save_to_cache_run. simpl.
    eexists. rewrite lookup_insert_eq. split; [reflexivity|]. simpl.
    split; [reflexivity|]. apply fromisoformat_isoformat.
  - intros w entry t Hhit Hparse age.
    rewrite (_get_from_cache_run default_config E key w entry t Hhit Hparse).
    cbv zeta. change (CACHE_DURATION default_config) with 300. fold age.
    destruct (bool_decide (age < 300 * SECOND)) eqn:Hage.
    + apply bool_decide_eq_true_1 in Hage. split; [lia|]. by intros _.
    + apply bool_decide_eq_false_1 in Hage. split; [|lia]. intros _. simpl.
      split; [done|]. split; [done|]. apply lookup_delete_eq.
Qed.

(** ** Loading the credential record *)

Section Load.
Context {L : Libs} (E : env).

(** [load_tokens] never raises and leaves the state as it is: every
    exception of the decoding is caught and turned into [None]. *)
Lemma load_tokens_total w : ∃ r, load_tokens E w = (Ok r, w).
Proof.
  unfold load_tokens. run. destruct (token_file w) as [content|]; [|eauto].
  destruct (String.prefix "gAAAAA" content).
  - destruct (fernet_decrypt _ content) as [plain|]; simpl; [|eauto].
    destruct (parse_json plain); simpl; eauto.
  - destruct (parse_json content) as [doc|]; simpl; [|eauto].
    destruct (getitem doc "access_token") as [c1|]; simpl; [|eauto].
    destruct (_decrypt_data E c1); simpl; [|eauto].
    destruct (getitem doc "refresh_token") as [c2|]; simpl; [|eauto].
    destruct (_decrypt_data E c2); simpl; [|eauto].
    destruct (get_default doc "token_type" _); simpl; [|eauto].
    destruct (getitem doc "expires_at"); simpl; [|eauto].
    destruct (getitem doc "created_at"); simpl; eauto.
Qed.

Lemma load_tokens_no_file w :
  token_file w = None → load_tokens E w = (Ok PNone, w).
Proof. intros Hnone. unfold load_tokens. run. by rewrite Hnone. Qed.

Lemma load_tokens_cannot_decrypt w content :
  token_file w = Some content → cannot_decrypt E content →
  load_tokens E w = (Ok PNone, w).
Proof.
  intros Hfile Hbad. unfold load_tokens, cannot_decrypt in *. run.
  rewrite Hfile. destruct (String.prefix "gAAAAA" content).
  - by rewrite Hbad.
  - destruct Hbad as (doc & c1 & c2 & Hdoc & H1 & H2 & Hbad).
    unfold parse_json. rewrite Hdoc. simpl. rewrite H1. simpl.
    destruct (fernet_decrypt _ c1) as [m1|]; simpl; [|done].
    rewrite H2. simpl. destruct Hbad as [?|Hbad]; [done|]. by rewrite Hbad.
Qed.

End Load.

(** ** Saving and reading back *)

Section SaveLoad.
Context {L : Libs} (E : env).

Lemma save_tokens_run tokens access refresh token_type lifetime w :
  valid_token_response tokens access refresh token_type lifetime →
  let now := clock E (clock_reads w) in
  0 ≤ now + lifetime < DATETIME_END →
  save_tokens E tokens w =
    (Ok tt,
     World
       (Some (json_dump
          (envelope
             (fernet_encrypt (encryption_key E)
                (entropy E (random_draws w)) access)
             (fernet_encrypt (encryption_key E)
                (entropy E (S (random_draws w))) refresh)
             token_type (now + lifetime) (clock E (S (clock_reads w))))))
       (S (S (clock_reads w))) (S (S (random_draws w)))
       (cache w) (request_count w) (request_window_start w)).
Proof.
  intros (Ha & Hr & Ht & _ & ei & Hei & Hdelta) now Hrange.
  unfold save_tokens, datetime_now, _encrypt_data, draw_random. run.
  rewrite Hei. simpl. rewrite Hdelta. simpl.
  fold now. rewrite (datetime_add_in_range now lifetime Hrange). simpl.
  rewrite Ha. simpl. rewrite Hr. simpl. rewrite Ht. simpl. reflexivity.
Qed.

Lemma marker_not_prefix_of_dict d :
  String.prefix "gAAAAA" (json_dump (PDict d)) = false.
Proof. destruct (json_dump_dict_brace d) as [rest ->]. reflexivity. Qed.

Lemma load_tokens_envelope w access refresh token_type expires_at created_at
    rnd1 rnd2 :
  wf_pyval token_type = true →
  token_file w =
    Some (json_dump
      (envelope (fernet_encrypt (encryption_key E) rnd1 access)
                (fernet_encrypt (encryption_key E) rnd2 refresh)
                token_type expires_at created_at)) →
  load_tokens E w =
    (Ok (PDict [("access_token", PStr access);
                ("refresh_token", PStr refresh);
                ("token_type", token_type);
                ("expires_at", PStr (isoformat expires_at));
                ("created_at", PStr (isoformat created_at))]), w).
Proof.
  intros Hwf Hfile. unfold load_tokens. run. rewrite Hfile.
  unfold envelope. rewrite marker_not_prefix_of_dict.
  unfold parse_json. rewrite json_loads_dump.
  2:{ simpl. rewrite Hwf. reflexivity. }
  simpl. by rewrite !fernet_decrypt_encrypt.
Qed.

End SaveLoad.

(** C5. Round trip: a valid token response (a string access token, a
    string refresh token or none, a lifetime that keeps the expiry time
    inside the range of [datetime]) saved with [save_tokens] and read back
    with [load_tokens] gives the access token and the refresh token that
    were saved, in plaintext, and the token type, the expiry time and the
    creation time as they were stored in the file. *)
Theorem save_load_roundtrip `{L : Libs} (E : env)
    tokens access refresh token_type lifetime w :
  valid_token_response tokens access refresh token_type lifetime →
  let now := clock E (clock_reads w) in
  let created := clock E (S (clock_reads w)) in
  0 ≤ now + lifetime < DATETIME_END →
  ∃ w',
    save_tokens E tokens w = (Ok tt, w') ∧
    (∃ access_enc refresh_enc,
       token_file w' =
         Some (json_dump (envelope access_enc refresh_enc token_type
                            (now + lifetime) created))) ∧
    load_tokens E w' =
      (Ok (PDict [("access_token", PStr access);
                  ("refresh_token", PStr refresh);
                  ("token_type", token_type);
                  ("expires_at", PStr (isoformat (now + lifetime)));
                  ("created_at", PStr (isoformat created))]), w').
Proof.
  intros Hvalid now created Hrange.
  pose proof (save_tokens_run E _ _ _ _ _ w Hvalid Hrange) as Hsave.
  eexists. split; [exact Hsave|]. split.
  - simpl. eauto.
  - destruct Hvalid as (_ & _ & _ & Hwf & _).
    by eapply load_tokens_envelope.
Qed.

(** ** What the token store leaves alone

    The methods of [TokenManager] read the clock, draw randomness and
    write the token file; they never touch the fields of the client. *)

Global Instance same_client_refl : Reflexive same_client.
Proof. by intros w. Qed.

Global Instance same_client_trans : Transitive same_client.
Proof. intros w1 w2 w3 (?&?&?) (?&?&?). repeat split; congruence. Qed.

Section Preserves.
Context (R : relation world) `{!Reflexive R, !Transitive R}.

Lemma preserves_ret {A} (a : A) : preserves R (ret a).
Proof. by intros w r w' [= <- <-]. Qed.

Lemma preserves_raise {A} e : preserves R (@raise A e).
Proof. by intros w r w' [= <- <-]. Qed.

Lemma preserves_lift {A} (x : result A) : preserves R (lift x).
Proof. by intros w r w' [= <- <-]. Qed.

Lemma preserves_gets {A} (f : world → A) : preserves R (gets f).
Proof. by intros w r w' [= <- <-]. Qed.

Lemma preserves_modify f : (∀ w, R w (f w)) → preserves R (modify f).
Proof. intros Hf w r w' [= <- <-]. apply Hf. Qed.

Lemma preserves_bind {A B} (m : M A) (k : A → M B) :
  preserves R m → (∀ a, preserves R (k a)) → preserves R (bind m k).
Proof.
  intros Hm Hk w r w'. unfold bind.
  destruct (m w) as [[a|e] w1] eqn:Hrun.
  - intros Hrest. etrans; [by eapply Hm|by eapply Hk].
  - intros [= <- <-]. by eapply Hm.
Qed.

Lemma preserves_try_except {A} (m : M A) (h : exn → M A) :
  preserves R m → (∀ e, preserves R (h e)) → preserves R (try_except m h).
Proof.
  intros Hm Hh w r w'. unfold try_except.
  destruct (m w) as [[a|e] w1] eqn:Hrun.
  - intros [= <- <-]. by eapply Hm.
  - intros Hrest. etrans; [by eapply Hm|by eapply Hh].
Qed.

End Preserves.

Create HintDb frame discriminated.
#[export] Hint Resolve preserves_ret preserves_raise preserves_lift
  preserves_gets : frame.

Ltac frame_step :=
  lazymatch goal with
  | |- preserves _ (bind _ _) => apply preserves_bind; [apply _..| |intros ?]
  | |- preserves _ (try_except _ _) =>
      apply preserves_try_except; [apply _..| |intros ?]
  | |- preserves _ (match ?x with _ => _ end) => destruct x
  | |- preserves _ (modify _) =>
      apply preserves_modify; intros ?; by repeat split
  | |- preserves _ _ => solve [auto with frame typeclass_instances]
  end.
Ltac frame := repeat frame_step.

Section Frame.
Context {L : Libs} (E : env).

Lemma datetime_now_frame : preserves same_client (datetime_now E).
Proof. by intros w r w' [= <- <-]. Qed.

Lemma draw_random_frame : preserves same_client (draw_random E).
Proof. by intros w r w' [= <- <-]. Qed.
Hint Resolve datetime_now_frame draw_random_frame : frame.

Lemma _encrypt_data_frame v : preserves same_client (_encrypt_data E v).
Proof. unfold _encrypt_data. frame. Qed.
Hint Resolve _encrypt_data_frame : frame.

Lemma save_tokens_frame tokens : preserves same_client (save_tokens E tokens).
Proof. unfold save_tokens. frame. Qed.

Lemma load_tokens_frame : preserves same_client (load_tokens E).
Proof. unfold load_tokens. frame. Qed.

Lemma is_token_expired_frame tokens :
  preserves same_client (is_token_expired E tokens).
Proof. unfold is_token_expired. frame. Qed.
Hint Resolve save_tokens_frame load_tokens_frame is_token_expired_frame
  : frame.

Lemma refresh_tokens_frame v : preserves same_client (refresh_tokens E v).
Proof. unfold refresh_tokens. frame. Qed.
Hint Resolve refresh_tokens_frame : frame.

Lemma get_valid_access_token_frame :
  preserves same_client (get_valid_access_token E).
Proof. unfold get_valid_access_token. frame. Qed.

Lemma clear_tokens_frame : preserves same_client clear_tokens.
Proof. unfold clear_tokens. frame. Qed.

End Frame.

#[export] Hint Resolve datetime_now_frame get_valid_access_token_frame
  clear_tokens_frame : frame.

(** ** Refreshing *)

Section Refresh.
Context {L : Libs} (E : env).

Lemma save_tokens_ok_access tokens w w' :
  save_tokens E tokens w = (Ok tt, w') →
  ∃ s, getitem tokens "access_token" = Ok (PStr s).
Proof.
  unfold save_tokens, datetime_now. run.
  destruct (get_default tokens "expires_in" _) as [ei|]; simpl; [|done].
  destruct (timedelta_seconds ei); simpl; [|done].
  destruct (datetime_add _ _); simpl; [|done].
  destruct (getitem tokens "access_token") as [acc|]; simpl; [|done].
  destruct acc; simpl; try done. eauto.
Qed.

(** [refresh_tokens] never raises.  It returns the token data of the
    response when the endpoint answered 200 with a body whose [success] is
    true and the new record was saved, and [None] in every other case. *)
Lemma refresh_tokens_cases refresh_token w :
  ∃ new w', refresh_tokens E refresh_token w = (Ok new, w') ∧
    (new = PNone ∨
     (truthy new = true ∧
      (∃ text, refresh_post E refresh_token = Responded 200 text (Some new)) ∧
      save_tokens E new w = (Ok tt, w') ∧
      ∃ s, getitem new "access_token" = Ok (PStr s))).
Proof.
  unfold refresh_tokens. run.
  destruct (refresh_post E refresh_token) as [status text body| |] eqn:Hpost;
    simpl; [|eauto 6..].
  destruct (status =? 200) eqn:Hstatus; simpl; [|eauto 6].
  apply Z.eqb_eq in Hstatus as ->.
  destruct body as [token_data|]; simpl; [|eauto 6].
  destruct (get_default token_data "success" PNone) as [success|] eqn:Hs;
    simpl; [|eauto 6].
  destruct (truthy success) eqn:Hsuccess; simpl; [|eauto 6].
  destruct (save_tokens E token_data w) as [[[]|e] w1] eqn:Hsave; simpl;
    [|eauto 6].
  do 2 eexists. split; [reflexivity|]. right.
  destruct (save_tokens_ok_access _ _ _ Hsave) as [s Hacc].
  split; [|eauto].
  destruct token_data as [| | | | |d]; try done. by destruct d.
Qed.

Lemma get_valid_access_token_no_file w :
  token_file w = None → get_valid_access_token E w = (Ok PNone, w).
Proof.
  intros Hnone. unfold get_valid_access_token, bind.
  by rewrite load_tokens_no_file.
Qed.

End Refresh.


(** ** Status summary *)

Section Status.
Context {L : Libs} (E : env).

(** The summary of a stored record that has a parsable [expires_at]: two
    clock readings, the first compared with [expires_at] as it is. *)
Lemma get_token_info_run w d stamp expires_at :
  load_tokens E w = (Ok (PDict d), w) →
  dict_get "expires_at" d = Some (PStr stamp) →
  fromisoformat stamp = Some expires_at →
  let now := clock E (clock_reads w) in
  let now' := clock E (S (clock_reads w)) in
  get_token_info E w =
    (Ok (PDict
       [("status",
         PStr (if bool_decide (expires_at < now) then "expired" else "valid"));
        ("expires_at", PStr (isoformat expires_at));
        ("created_at",
         default (PStr (isoformat now')) (dict_get "created_at" d));
        ("token_type", default (PStr "Bearer") (dict_get "token_type" d));
        ("has_refresh_token",
         PBool (truthy (default PNone (dict_get "refresh_token" d))))]),
     set_clock_reads (S (S (clock_reads w))) w).
Proof.
  intros Hload Hget Hparse now now'.
  unfold get_token_info, datetime_now. run. rewrite Hload.
  assert (truthy (PDict d) = true) as -> by (by destruct d).
  simpl. rewrite Hget. simpl. rewrite Hparse. simpl.
  reflexivity.
Qed.

Lemma is_token_expired_within_buffer tokens stamp expires_at w :
  getitem tokens "expires_at" = Ok (PStr stamp) →
  fromisoformat stamp = Some expires_at →
  expires_at ≤ clock E (clock_reads w) + 300 * SECOND →
  is_token_expired E tokens w =
    (Ok true, set_clock_reads (S (clock_reads w)) w).
Proof.
  intros Hget Hparse Hle. unfold is_token_expired, datetime_now. run.
  rewrite Hget. simpl. rewrite Hparse. simpl.
  unfold datetime_add. change (5 * 60 * SECOND) with (300 * SECOND).
  destruct (bool_decide (0 ≤ _ < DATETIME_END)); simpl; [|done].
  by rewrite bool_decide_eq_true_2.
Qed.

End Status.

(** C10. The status summary compares [expires_at] with the current time
    as it is, without the 5-minute buffer: for a stored record whose
    [expires_at] parses, [get_token_info] reports the status ["expired"]
    exactly when now > [expires_at], and ["valid"] otherwise.  So for a
    record whose [expires_at] lies strictly between now and now + 5
    minutes, [get_token_info] reports the status ["valid"], while
    [is_token_expired] returns true for the same record at the same time,
    and [get_valid_access_token] does not return the stored token: it calls
    [refresh_tokens] and returns what the refresh gives. *)
Theorem status_summary_ignores_buffer `{L : Libs} (E : env) (w : world)
    d stamp expires_at :
  load_tokens E w = (Ok (PDict d), w) →
  dict_get "expires_at" d = Some (PStr stamp) →
  fromisoformat stamp = Some expires_at →
  let now := clock E (clock_reads w) in
  (∃ info w',
     get_token_info E w = (Ok info, w') ∧
     getitem info "status" =
       Ok (PStr (if bool_decide (now > expires_at) then "expired"
                 else "valid"))) ∧
  (now < expires_at < now + 5 * 60 * SECOND →
   (∃ info w', get_token_info E w = (Ok info, w') ∧
               getitem info "status" = Ok (PStr "valid")) ∧
   (∃ w1, is_token_expired E (PDict d) w = (Ok true, w1) ∧
      ∀ refresh, dict_get "refresh_token" d = Some refresh →
        ∃ new w2, refresh_tokens E refresh w1 = (Ok new, w2) ∧
          get_valid_access_token E w =
            ((if truthy new then getitem new "access_token" else Ok PNone),
             w2))).
Proof.
  intros Hload Hget Hparse now.
  pose proof (get_token_info_run E w d stamp expires_at Hload Hget Hparse)
    as Hinfo. cbv zeta in Hinfo. fold now in Hinfo.
  split.
  - do 2 eexists. split; [exact Hinfo|]. simpl.
    do 2 case_bool_decide; (done || lia).
  - intros [Hlo Hhi]. split.
    + do 2 eexists. split; [exact Hinfo|]. simpl.
      by rewrite bool_decide_eq_false_2 by lia.
    + assert (Hexp := is_token_expired_within_buffer E (PDict d) stamp
        expires_at w). simpl in Hexp. rewrite Hget in Hexp.
      specialize (Hexp eq_refl Hparse). fold now in Hexp.
      change (5 * 60 * SECOND) with (300 * SECOND) in Hhi.
      specialize (Hexp ltac:(lia)).
      eexists. split; [exact Hexp|]. intros refresh Href.
      destruct (refresh_tokens_cases E refresh
                  (set_clock_reads (S (clock_reads w)) w))
        as (new & w2 & Hrun & _).
      exists new, w2. split; [done|].
      unfold get_valid_access_token. run. rewrite Hload.
      assert (truthy (PDict d) = true) as -> by (by destruct d).
      simpl. rewrite Hexp. simpl. rewrite Href. simpl. rewrite Hrun.
      by destruct (truthy new).
Qed.

(** ** The request pipeline *)

Global Instance same_cache_refl : Reflexive same_cache.
Proof. by intros w. Qed.

Global Instance same_cache_trans : Transitive same_cache.
Proof. intros w1 w2 w3 H12 H23. unfold same_cache in *. congruence. Qed.

Lemma same_client_same_cache {A} (m : M A) :
  preserves same_client m → preserves same_cache m.
Proof. intros Hm w r w' Hrun. by destruct (Hm w r w' Hrun). Qed.

Section Request.
Context {L : Libs} (cfg : config) (E : env).

Lemma clear_tokens_run w : clear_tokens w = (Ok tt, set_token_file None w).
Proof.
  unfold clear_tokens. run. destruct w as [[content|] ? ? ? ? ?]; reflexivity.
Qed.

(** What [_make_request] does with the response of upstream. *)
Lemma _make_request_upstream endpoint params w outcome w3 :
  upstream_response cfg E endpoint params w = Some (outcome, w3) →
  _make_request cfg E endpoint params w =
    match outcome with
    | Responded status_code text body =>
        if status_code =? 200 then
          match body with
          | Some payload =>
              (Ok payload,
               (_save_to_cache E (_get_cache_key endpoint params) payload w3).2)
          | None => (Raise JSONDecodeError, w3)
          end
        else if status_code =? 401 then
          (Raise AUTHENTICATION_FAILED, set_token_file None w3)
        else (Raise (API_REQUEST_FAILED status_code text), w3)
    | TimedOut => (Raise REQUEST_TIMED_OUT, w3)
    | Failed => (Raise TransportError, w3)
    end.
Proof.
  unfold upstream_response, _make_request. run.
  destruct (_check_rate_limit cfg E w) as [[[]|?] w1]; [|done].
  destruct (_get_from_cache cfg E _ w1) as [[cached|?] w2]; [|done].
  destruct (truthy cached); [done|].
  destruct (_get_headers E w2) as [[headers|?] w3']; [|done].
  intros [= <- <-].
  destruct (api_get E _ headers _) as [status text body| |]; try done.
  destruct (status =? 200); [by destruct body|].
  destruct (status =? 401); [|done].
  by rewrite clear_tokens_run.
Qed.

Lemma _check_rate_limit_same_cache :
  preserves same_cache (_check_rate_limit cfg E).
Proof.
  intros w r w'. rewrite _check_rate_limit_run. cbv zeta.
  by destruct (bool_decide (MAX_REQUESTS_PER_MINUTE cfg ≤ _));
    intros [= <- <-].
Qed.

Lemma _get_headers_same_cache : preserves same_cache (_get_headers E).
Proof.
  apply same_client_same_cache. unfold _get_headers. frame.
Qed.

Lemma upstream_response_cache endpoint params w outcome w3 :
  upstream_response cfg E endpoint params w = Some (outcome, w3) →
  cache w3 = cache w ∨
  cache w3 = delete (_get_cache_key endpoint params) (cache w).
Proof.
  unfold upstream_response.
  destruct (_check_rate_limit cfg E w) as [[[]|?] w1] eqn:H1; [|done].
  destruct (_get_from_cache cfg E _ w1) as [[cached|?] w2] eqn:H2; [|done].
  destruct (truthy cached); [done|].
  destruct (_get_headers E w2) as [[headers|?] w3'] eqn:H3; [|done].
  intros [= <- <-].
  apply _check_rate_limit_same_cache in H1.
  apply _get_from_cache_shrinks in H2 as [H2 _].
  apply _get_headers_same_cache in H3. unfold same_cache in *.
  rewrite H3, <- H1. exact H2.
Qed.

(** A request that raises has created and changed no cache entry. *)
Lemma _make_request_raise_cache endpoint params w e w' :
  _make_request cfg E endpoint params w = (Raise e, w') →
  cache w' = cache w ∨
  cache w' = delete (_get_cache_key endpoint params) (cache w).
Proof.
  intros Hrun.
  destruct (upstream_response cfg E endpoint params w)
    as [[outcome w3]|] eqn:Hup.
  - pose proof (upstream_response_cache _ _ _ _ _ Hup) as Hcache.
    rewrite (_make_request_upstream _ _ _ _ _ Hup) in Hrun.
    destruct outcome as [status text body| |].
    + destruct (status =? 200); [by destruct body; simplify_eq|].
      destruct (status =? 401); by simplify_eq.
    + by simplify_eq.
    + by simplify_eq.
  - revert Hup Hrun. unfold upstream_response, _make_request. run.
    destruct (_check_rate_limit cfg E w) as [[[]|?] w1] eqn:H1.
    2:{ intros _ [= <- <-]. left.
        by apply _check_rate_limit_same_cache in H1. }
    apply _check_rate_limit_same_cache in H1. unfold same_cache in H1.
    destruct (_get_from_cache cfg E _ w1) as [[cached|?] w2] eqn:H2.
    2:{ intros _ [= <- <-]. rewrite <- H1.
        by apply _get_from_cache_shrinks in H2 as [H2 _]. }
    apply _get_from_cache_shrinks in H2 as [H2 _]. rewrite H1 in H2.
    destruct (truthy cached); [done|].
    destruct (_get_headers E w2) as [[headers|?] w3] eqn:H3; [done|].
    intros _ [= <- <-].
    apply _get_headers_same_cache in H3. unfold same_cache in H3.
    by rewrite H3.
Qed.

End Request.

(** C2. A request that receives a 401 response from upstream deletes the
    persisted credential record and fails with the authentication failure;
    a call of [get_valid_access_token] after it returns [None]. *)
Theorem unauthorized_clears_credentials `{L : Libs} (cfg : config) (E : env)
    endpoint params w text body w3 :
  upstream_response cfg E endpoint params w =
    Some (Responded 401 text body, w3) →
  let w' := set_token_file None w3 in
  _make_request cfg E endpoint params w = (Raise AUTHENTICATION_FAILED, w') ∧
  token_file w' = None ∧
  get_valid_access_token E w' = (Ok PNone, w').
Proof.
  intros Hup w'. split; [|split].
  - by rewrite (_make_request_upstream cfg E _ _ _ _ _ Hup).
  - reflexivity.
  - by apply get_valid_access_token_no_file.
Qed.

(** C3 (amended). [load_tokens] never raises.  It returns [None] when no
    token file exists, and it also returns [None], the failure being caught
    inside the method, when the file exists but the key cannot decrypt its
    content. *)
Theorem load_tokens_absence `{L : Libs} (E : env) (w : world) :
  (∃ r, load_tokens E w = (Ok r, w)) ∧
  (token_file w = None → load_tokens E w = (Ok PNone, w)) ∧
  (∀ content, token_file w = Some content → cannot_decrypt E content →
     load_tokens E w = (Ok PNone, w)).
Proof.
  split; [apply load_tokens_total|]. split.
  - apply load_tokens_no_file.
  - apply load_tokens_cannot_decrypt.
Qed.

(** C4 (amended). For a record whose [expires_at] parses, and a clock at
    least 5 minutes before the end of the range of [datetime],
    [is_token_expired] returns true exactly when now plus the 5-minute
    buffer is greater than or equal to [expires_at]: true when 5:00 or less
    remains until expiry, so also when 4:59 remains, and false only when
    more than 5 minutes remain. *)
Theorem is_token_expired_boundary `{L : Libs} (E : env)
    tokens stamp expires_at w :
  getitem tokens "expires_at" = Ok (PStr stamp) →
  fromisoformat stamp = Some expires_at →
  let now := clock E (clock_reads w) in
  let remaining := expires_at - now in
  0 ≤ now + 5 * 60 * SECOND < DATETIME_END →
  ∃ expired w',
    is_token_expired E tokens w = (Ok expired, w') ∧
    (expired = true ↔ expires_at ≤ now + 5 * 60 * SECOND) ∧
    (remaining = 5 * 60 * SECOND → expired = true) ∧
    (remaining = 4 * 60 * SECOND + 59 * SECOND → expired = true) ∧
    (5 * 60 * SECOND < remaining → expired = false).
Proof.
  intros Hget Hparse now remaining Hrange.
  change (5 * 60 * SECOND) with (300 * SECOND) in *.
  rewrite (is_token_expired_parsed E tokens stamp expires_at w Hget Hparse)
    by exact Hrange.
  do 2 eexists. split; [reflexivity|]. fold now.
  unfold remaining. unfold SECOND in *.
  destruct (bool_decide (expires_at ≤ now + 300 * 1000000)) eqn:Hcmp.
  - apply bool_decide_eq_true_1 in Hcmp. repeat split; auto with lia.
  - apply bool_decide_eq_false_1 in Hcmp.
    repeat split; try done; intros; lia.
Qed.

(** What a failing request does to the cache. *)

Section RequestFrame.
Context {L : Libs} (cfg : config) (E : env).

(** The lookup evicts the entry under its key exactly when the entry is
    stale: its age, at the clock reading of the lookup, has reached the
    TTL.  Nothing else in the cache changes. *)
Lemma _get_from_cache_evicts key w r w' :
  _get_from_cache cfg E key w = (r, w') →
  match cache w !! key with
  | Some entry =>
      match fromisoformat (cached_at entry) with
      | Some t =>
          if bool_decide
               (CACHE_DURATION cfg * SECOND ≤ clock E (clock_reads w) - t)
          then r = Ok PNone ∧ cache w' = delete key (cache w)
          else r = Ok (data entry) ∧ cache w' = cache w
      | None => r = Raise ValueError ∧ cache w' = cache w
      end
  | None => r = Ok PNone ∧ cache w' = cache w
  end.
Proof.
  unfold _get_from_cache, datetime_now. run.
  destruct (cache w !! key) as [entry|]; simpl.
  - destruct (fromisoformat (cached_at entry)) as [t|]; simpl.
    + case_bool_decide; case_bool_decide; try lia; by intros [= <- <-].
    + by intros [= <- <-].
  - by intros [= <- <-].
Qed.

(** A request that raises leaves the cache as its lookup left it. *)
Lemma _make_request_raise_after_lookup endpoint params w w1 r w2 e w' :
  _check_rate_limit cfg E w = (Ok tt, w1) →
  _get_from_cache cfg E (_get_cache_key endpoint params) w1 = (r, w2) →
  _make_request cfg E endpoint params w = (Raise e, w') →
  cache w' = cache w2.
Proof.
  intros H1 H2. unfold _make_request. unfold bind at 1. rewrite H1.
  unfold bind at 1. rewrite H2.
  destruct r as [cached|e2]; [|by intros [= <- <-]].
  destruct (truthy cached); [done|].
  unfold bind at 1.
  destruct (_get_headers E w2) as [[headers|?] w3] eqn:H3.
  2:{ intros [= <- <-]. by apply _get_headers_same_cache in H3. }
  apply _get_headers_same_cache in H3. unfold same_cache in H3.
  rewrite <- H3. run.
  destruct (api_get E _ headers _) as [status text body| |]; simpl;
    try (by intros [= <- <-]).
  destruct (status =? 200); simpl.
  - destruct body; simpl; by intros [= <- <-].
  - destruct (status =? 401); simpl.
    + rewrite clear_tokens_run. simpl. by intros [= <- <-].
    + by intros [= <- <-].
Qed.

Lemma _check_rate_limit_ok_reads w w1 :
  _check_rate_limit cfg E w = (Ok tt, w1) →
  cache w1 = cache w ∧ clock_reads w1 = S (clock_reads w).
Proof.
  rewrite _check_rate_limit_run. cbv zeta.
  case_bool_decide; [done|]. by intros [= <-].
Qed.

(** A request that raises: the cache is what it was, unless the lookup of
    the request has evicted a stale entry. *)
Lemma _make_request_raise_evicts endpoint params w e w' :
  _make_request cfg E endpoint params w = (Raise e, w') →
  let key := _get_cache_key endpoint params in
  cache w' = cache w ∨
  ∃ entry t,
    cache w !! key = Some entry ∧
    fromisoformat (cached_at entry) = Some t ∧
    CACHE_DURATION cfg * SECOND ≤ clock E (S (clock_reads w)) - t ∧
    cache w' = delete key (cache w).
Proof.
  intros Hrun key.
  destruct (_check_rate_limit cfg E w) as [[[]|?] w1] eqn:H1.
  2:{ left. revert Hrun. unfold _make_request. unfold bind at 1. rewrite H1.
      intros [= <- <-]. by apply _check_rate_limit_same_cache in H1. }
  destruct (_get_from_cache cfg E key w1) as [r w2] eqn:H2.
  rewrite (_make_request_raise_after_lookup _ _ _ _ _ _ _ _ H1 H2 Hrun).
  apply _check_rate_limit_ok_reads in H1 as [Hcache Hreads].
  apply _get_from_cache_evicts in H2. rewrite Hcache, Hreads in H2.
  destruct (cache w !! key) as [entry|] eqn:Hentry; [|left; by destruct H2].
  destruct (fromisoformat (cached_at entry)) as [t|] eqn:Hparse;
    [|left; by destruct H2].
  case_bool_decide; destruct H2 as [_ H2]; [|by left].
  right. by exists entry, t.
Qed.

(** The eviction is not optional: a request that the rate limiter admits
    and that raises has evicted the stale entry under its key. *)
Lemma _make_request_raise_stale endpoint params w w1 entry t e w' :
  _check_rate_limit cfg E w = (Ok tt, w1) →
  _make_request cfg E endpoint params w = (Raise e, w') →
  let key := _get_cache_key endpoint params in
  cache w !! key = Some entry →
  fromisoformat (cached_at entry) = Some t →
  CACHE_DURATION cfg * SECOND ≤ clock E (S (clock_reads w)) - t →
  cache w' = delete key (cache w).
Proof.
  intros H1 Hrun key Hentry Hparse Hstale.
  destruct (_get_from_cache cfg E key w1) as [r w2] eqn:H2.
  rewrite (_make_request_raise_after_lookup _ _ _ _ _ _ _ _ H1 H2 Hrun).
  apply _check_rate_limit_ok_reads in H1 as [Hcache Hreads].
  apply _get_from_cache_evicts in H2.
  rewrite Hcache, Hreads, Hentry, Hparse in H2.
  rewrite bool_decide_eq_true_2 in H2 by done. by destruct H2.
Qed.

End RequestFrame.

(** C9 (amended). No cache entry is created or changed by a request that
    fails.  A request that raises leaves the cache as it was, except that
    the stale entry under the key of the request, if there was one, has
    been evicted by the lookup: the cache differs from what it was only if
    the key of the request held an entry whose age, at the clock reading of
    the lookup, had reached the TTL, and then by the loss of that entry
    alone; and a request that the rate limiter admitted has evicted such an
    entry.  An entry that is not stale is never touched.  Every response of
    upstream other than a 200 with a body (a timeout, a transport failure,
    a 401, a 429, any other status, a 200 whose body does not parse) makes
    the request raise with the cache as the lookup left it; a 200 with a
    body stores the payload under the key of the request. *)
Theorem failed_request_cache_frame `{L : Libs} (cfg : config) (E : env)
    endpoint params w :
  let key := _get_cache_key endpoint params in
  (∀ e w', _make_request cfg E endpoint params w = (Raise e, w') →
     cache w' = cache w ∨
     ∃ entry t,
       cache w !! key = Some entry ∧
       fromisoformat (cached_at entry) = Some t ∧
       CACHE_DURATION cfg * SECOND ≤ clock E (S (clock_reads w)) - t ∧
       cache w' = delete key (cache w)) ∧
  (∀ e w' w1 entry t,
     _make_request cfg E endpoint params w = (Raise e, w') →
     _check_rate_limit cfg E w = (Ok tt, w1) →
     cache w !! key = Some entry →
     fromisoformat (cached_at entry) = Some t →
     CACHE_DURATION cfg * SECOND ≤ clock E (S (clock_reads w)) - t →
     cache w' = delete key (cache w)) ∧
  (∀ outcome w3,
     upstream_response cfg E endpoint params w = Some (outcome, w3) →
     match outcome with
     | Responded 200 _ (Some payload) =>
         ∃ w', _make_request cfg E endpoint params w = (Ok payload, w') ∧
           cache w' =
             <[key := CacheEntry payload (isoformat (clock E (clock_reads w3)))]>
               (cache w3)
     | _ =>
         ∃ e w', _make_request cfg E endpoint params w = (Raise e, w') ∧
           cache w' = cache w3
     end).
Proof.
  intros key. split; [|split].
  - intros e w' Hrun. by apply (_make_request_raise_evicts cfg E _ _ _ e).
  - intros e w' w1 entry t Hrun Hrate.
    by apply (_make_request_raise_stale cfg E _ _ _ w1 entry t e).
  - intros outcome w3 Hup.
    rewrite (_make_request_upstream cfg E _ _ _ _ _ Hup).
    destruct outcome as [status text body| |]; [|eauto..].
    destruct (status =? 200) eqn:H200.
    + apply Z.eqb_eq in H200 as ->. destruct body as [payload|]; eauto.
    + assert (∃ e w', (if status =? 401
                then (Raise AUTHENTICATION_FAILED, set_token_file None w3)
                else (Raise (API_REQUEST_FAILED status text), w3))
               = (@Raise pyval e, w') ∧ cache w' = cache w3) as Hfail.
      { destruct (status =? 401); eauto. }
      destruct status as [|p|p]; try exact Hfail.
      do 8 (destruct p as [p|p|]; try exact Hfail).
      discriminate H200.
Qed.

(** * Concrete runs *)

Example cache_key_of_workouts :
  _get_cache_key "/activity/workout"
    (Some [("start", PStr "2024-01-01"); ("limit", PInt 5)]) =
  "/activity/workout:{" +:+ json_string "limit" +:+ ": 5, "
    +:+ json_string "start" +:+ ": " +:+ json_string "2024-01-01" +:+ "}".
Proof. vm_compute. reflexivity. Qed.

Example cache_key_without_params :
  _get_cache_key "/user/profile/basic" None = "/user/profile/basic" ∧
  _get_cache_key "/user/profile/basic" (Some []) = "/user/profile/basic".
Proof. split; reflexivity. Qed.

Example installed_loads :
  (load_tokens (sample_env "key-1" (λ _, T0) Failed Failed) installed).1 =
  Ok (PDict [("access_token", PStr "access-1");
             ("refresh_token", PStr "refresh-1");
             ("token_type", PStr "Bearer");
             ("expires_at", PStr (isoformat (T0 + 3600 * SECOND)));
             ("created_at", PStr (isoformat T0))]).
Proof. vm_compute. reflexivity. Qed.

(** One minute after the setup the stored token is still good; five
    minutes before its expiry it is refreshed, or lost when the refresh
    fails. *)
Example stored_token_returned :
  (get_valid_access_token
     (sample_env "key-1" (λ _, T0 + 60 * SECOND) Failed Failed) installed).1
  = Ok (PStr "access-1").
Proof. vm_compute. reflexivity. Qed.

Example refreshed_token_returned :
  (get_valid_access_token
     (sample_env "key-1" (λ _, T0 + 3300 * SECOND)
        (Responded 200 EmptyString (Some refreshed_response)) Failed) installed).1
  = Ok (PStr "access-2").
Proof. vm_compute. reflexivity. Qed.

Example failed_refresh_gives_none :
  (get_valid_access_token
     (sample_env "key-1" (λ _, T0 + 3300 * SECOND) TimedOut Failed)
     installed).1
  = Ok PNone.
Proof. vm_compute. reflexivity. Qed.


Lemma unauthorized_clears_credentials_witness :
  ∃ w3,
    upstream_response default_config E_unauthorized
      "/user/profile/basic" None installed =
      Some (Responded 401 "Unauthorized" None, w3) ∧
    _make_request default_config E_unauthorized
      "/user/profile/basic" None installed =
      (Raise AUTHENTICATION_FAILED, set_token_file None w3) ∧
    token_file (set_token_file None w3) = None ∧
    get_valid_access_token E_unauthorized (set_token_file None w3) =
      (Ok PNone, set_token_file None w3).
Proof.
  eexists. split; [vm_compute; reflexivity|].
  apply (unauthorized_clears_credentials default_config E_unauthorized
           "/user/profile/basic" None installed "Unauthorized" None).
  vm_compute. reflexivity.
Defined.

Lemma installed_cannot_decrypt :
  ∃ content, token_file installed = Some content ∧
             cannot_decrypt E_rotated content.
Proof.
  eexists. split; [vm_compute; reflexivity|].
  unfold cannot_decrypt.
  match goal with |- context [String.prefix ?a ?b] =>
    replace (String.prefix a b) with false by (vm_compute; reflexivity) end.
  exists (envelope
            (fernet_encrypt "key-1" (pretty 0%nat) "access-1")
            (fernet_encrypt "key-1" (pretty 1%nat) "refresh-1")
            (PStr "Bearer") (T0 + 3600 * SECOND) T0).
  do 2 eexists. split; [vm_compute; reflexivity|].
  split; [reflexivity|]. split; [reflexivity|].
  left. vm_compute. reflexivity.
Qed.

Lemma load_tokens_absence_witness :
  load_tokens E_rotated (new_world T0) = (Ok PNone, new_world T0) ∧
  load_tokens E_rotated installed = (Ok PNone, installed).
Proof.
  destruct installed_cannot_decrypt as (content & Hfile & Hbad).
  split.
  - by apply (load_tokens_absence E_rotated (new_world T0)).
  - by apply (proj2 (proj2 (load_tokens_absence E_rotated installed)) content).
Defined.

(** C3 as stated fails: the token file exists and the key cannot decrypt
    it, yet [load_tokens] returns [None] to its caller and raises nothing. *)
Lemma load_tokens_decryption_error_counterexample :
  (∃ content, token_file installed = Some content ∧
              cannot_decrypt E_rotated content) ∧
  load_tokens E_rotated installed = (Ok PNone, installed) ∧
  ∀ e, (load_tokens E_rotated installed).1 ≠ Raise e.
Proof.
  split; [exact installed_cannot_decrypt|].
  assert (Hrun : load_tokens E_rotated installed = (Ok PNone, installed))
    by (vm_compute; reflexivity).
  rewrite Hrun. split; [reflexivity|]. intros e. discriminate.
Qed.

Lemma is_token_expired_boundary_witness :
  let E := sample_env "key-1" (λ _, T0) Failed Failed in
  ∃ expired w',
    is_token_expired E expiring_record (new_world T0) = (Ok expired, w') ∧
    (expired = true ↔ T0 + 299 * SECOND ≤ T0 + 5 * 60 * SECOND) ∧
    (T0 + 299 * SECOND - T0 = 5 * 60 * SECOND → expired = true) ∧
    (T0 + 299 * SECOND - T0 = 4 * 60 * SECOND + 59 * SECOND →
       expired = true) ∧
    (5 * 60 * SECOND < T0 + 299 * SECOND - T0 → expired = false).
Proof.
  intros E.
  apply (is_token_expired_boundary E expiring_record
           (isoformat (T0 + 299 * SECOND)) (T0 + 299 * SECOND) (new_world T0)).
  - reflexivity.
  - apply fromisoformat_isoformat.
  - vm_compute. split; [discriminate|reflexivity].
Defined.

(** C4 as stated fails: with 4:59 remaining the check returns true, not
    false. *)
Lemma is_token_expired_at_4_59_counterexample :
  let E := sample_env "key-1" (λ _, T0) Failed Failed in
  let w := new_world T0 in
  getitem expiring_record "expires_at" =
    Ok (PStr (isoformat (T0 + 299 * SECOND))) ∧
  (T0 + 299 * SECOND) - clock E (clock_reads w) =
    4 * 60 * SECOND + 59 * SECOND ∧
  (is_token_expired E expiring_record w).1 = Ok true.
Proof. vm_compute. auto. Qed.

Lemma save_load_roundtrip_witness :
  let E := sample_env "key-1" (λ _, T0) Failed Failed in
  ∃ w',
    save_tokens E sample_response (new_world T0) = (Ok tt, w') ∧
    (∃ access_enc refresh_enc,
       token_file w' =
         Some (json_dump (envelope access_enc refresh_enc (PStr "Bearer")
                            (T0 + 3600 * SECOND) T0))) ∧
    load_tokens E w' =
      (Ok (PDict [("access_token", PStr "access-1");
                  ("refresh_token", PStr "refresh-1");
                  ("token_type", PStr "Bearer");
                  ("expires_at", PStr (isoformat (T0 + 3600 * SECOND)));
                  ("created_at", PStr (isoformat T0))]), w').
Proof.
  intros E.
  apply (save_load_roundtrip E sample_response "access-1" "refresh-1"
           (PStr "Bearer") (3600 * SECOND) (new_world T0)).
  - repeat split. exists (PInt 3600). by split.
  - vm_compute. split; [discriminate|reflexivity].
Defined.

Lemma rate_limiter_fixed_window_witness :
  _check_rate_limit default_config E_busy
    (World None 0 0 ∅ 100 (T0 - 60 * SECOND)) =
    (Ok tt, World None 1 0 ∅ 1 T0) ∧
  ∃ w', call_times 101 (_check_rate_limit default_config E_busy)
          (new_world T0) =
          (replicate 100 (Ok tt) ++ [Raise RATE_LIMIT_EXCEEDED], w') ∧
        request_count w' = 100 ∧
        request_window_start w' = T0 ∧
        cache w' = ∅ ∧ token_file w' = None.
Proof.
  destruct (rate_limiter_fixed_window default_config E_busy) as [Hroll Hfull];
    [reflexivity|].
  split.
  - apply (Hroll (World None 0 0 ∅ 100 (T0 - 60 * SECOND))).
    vm_compute. discriminate.
  - apply (Hfull (new_world T0) 100%nat).
    + reflexivity.
    + intros i Hi. simpl. unfold SECOND. lia.
Defined.

Lemma cache_ttl_witness :
  (let w1 := (_save_to_cache (E_lookup (300 * SECOND)) "/recovery"
                cached_payload (new_world T0)).2 in
   let '(r, w') := _get_from_cache default_config (E_lookup (300 * SECOND))
                     "/recovery" w1 in
   r = Ok PNone ∧ cache w' = delete "/recovery" (cache w1) ∧
   cache w' !! "/recovery" = None) ∧
  (let w1 := (_save_to_cache (E_lookup (300 * SECOND - 1)) "/recovery"
                cached_payload (new_world T0)).2 in
   let '(r, w') := _get_from_cache default_config (E_lookup (300 * SECOND - 1))
                     "/recovery" w1 in
   r = Ok cached_payload ∧ cache w' = cache w1).
Proof.
  split.
  - intros w1.
    destruct (cache_ttl (E_lookup (300 * SECOND)) "/recovery")
      as [Hsave Hlook].
    destruct (Hsave cached_payload (new_world T0))
      as (entry & Hin & Hdata & Hparse).
    specialize (Hlook w1 entry T0 Hin Hparse).
    destruct (_get_from_cache _ _ _ w1) as [r w'].
    apply Hlook. vm_compute. discriminate.
  - intros w1.
    destruct (cache_ttl (E_lookup (300 * SECOND - 1)) "/recovery")
      as [Hsave Hlook].
    destruct (Hsave cached_payload (new_world T0))
      as (entry & Hin & Hdata & Hparse).
    specialize (Hlook w1 entry T0 Hin Hparse).
    destruct (_get_from_cache _ _ _ w1) as [r w'].
    rewrite <- Hdata. apply Hlook. vm_compute. reflexivity.
Defined.

Lemma failed_request_cache_frame_witness :
  let key := "/user/profile/basic" in
  let run := _make_request default_config E_timeout key None
               installed_cached in
  (run = (Raise REQUEST_TIMED_OUT, run.2) ∧
   cache installed_cached !! key =
     Some (CacheEntry cached_payload (isoformat T0)) ∧
   CACHE_DURATION default_config * SECOND ≤
     clock E_timeout (S (clock_reads installed_cached)) - T0 ∧
   cache run.2 = delete key (cache installed_cached)) ∧
  (∃ w3,
     upstream_response default_config E_timeout key None installed_cached =
       Some (TimedOut, w3) ∧
     ∃ e w', run = (Raise e, w') ∧ cache w' = cache w3).
Proof.
  intros key run.
  destruct (failed_request_cache_frame default_config E_timeout key None
              installed_cached) as (_ & Hstale & Hup).
  assert (Hrun : run = (Raise REQUEST_TIMED_OUT, run.2))
    by (vm_compute; reflexivity).
  split.
  - split; [exact Hrun|].
    split; [vm_compute; reflexivity|].
    split; [vm_compute; discriminate|].
    apply (Hstale REQUEST_TIMED_OUT run.2
             (_check_rate_limit default_config E_timeout installed_cached).2
             (CacheEntry cached_payload (isoformat T0)) T0).
    + exact Hrun.
    + vm_compute. reflexivity.
    + vm_compute. reflexivity.
    + apply fromisoformat_isoformat.
    + vm_compute. discriminate.
  - exists (match upstream_response default_config E_timeout key None
                    installed_cached with
            | Some (_, w3) => w3
            | None => installed_cached
            end).
    split; [vm_compute; reflexivity|].
    apply (Hup TimedOut). vm_compute. reflexivity.
Defined.

(** C9 as stated fails: the request times out, and the cache is not what
    it was before the request, the stale entry having been evicted. *)
Lemma failed_request_changes_cache_counterexample :
  let run := _make_request default_config E_timeout "/user/profile/basic"
               None installed_cached in
  run.1 = Raise REQUEST_TIMED_OUT ∧
  cache installed_cached !! "/user/profile/basic" =
    Some (CacheEntry cached_payload (isoformat T0)) ∧
  cache run.2 !! "/user/profile/basic" = None ∧
  cache run.2 ≠ cache installed_cached.
Proof.
  intros run.
  assert (H1 : run.1 = Raise REQUEST_TIMED_OUT) by (vm_compute; reflexivity).
  assert (H2 : cache installed_cached !! "/user/profile/basic" =
               Some (CacheEntry cached_payload (isoformat T0)))
    by (vm_compute; reflexivity).
  assert (H3 : cache run.2 !! "/user/profile/basic" = None)
    by (vm_compute; reflexivity).
  repeat split; try assumption.
  intros Heq.
  pose proof (f_equal (λ c, c !! "/user/profile/basic") Heq) as Hk.
  cbv beta in Hk. rewrite H3, H2 in Hk. discriminate Hk.
Qed.

Lemma status_summary_ignores_buffer_witness :
  (∃ info w',
     get_token_info E_closing installed = (Ok info, w') ∧
     getitem info "status" =
       Ok (PStr (if bool_decide
                      (clock E_closing (clock_reads installed) >
                       T0 + 3600 * SECOND)
                 then "expired" else "valid"))) ∧
  (∃ info w',
     get_token_info E_closing installed = (Ok info, w') ∧
     getitem info "status" = Ok (PStr "valid")) ∧
  (∃ w1,
     is_token_expired E_closing installed_record installed = (Ok true, w1) ∧
     ∀ refresh,
       dict_get "refresh_token"
         [("access_token", PStr "access-1");
          ("refresh_token", PStr "refresh-1");
          ("token_type", PStr "Bearer");
          ("expires_at", PStr (isoformat (T0 + 3600 * SECOND)));
          ("created_at", PStr (isoformat T0))] = Some refresh →
       ∃ new w2,
         refresh_tokens E_closing refresh w1 = (Ok new, w2) ∧
         get_valid_access_token E_closing installed =
           ((if truthy new then getitem new "access_token" else Ok PNone),
            w2)).
Proof.
  assert (Hload : load_tokens E_closing installed =
                  (Ok installed_record, installed))
    by (vm_compute; reflexivity).
  destruct (status_summary_ignores_buffer E_closing installed _
              (isoformat (T0 + 3600 * SECOND)) (T0 + 3600 * SECOND)
              Hload eq_refl (fromisoformat_isoformat _)) as [Hplain Hwindow].
  split; [exact Hplain|].
  apply Hwindow. vm_compute. split; reflexivity.
Defined.

Example status_valid_but_refreshed :
  getitem (match (get_token_info E_closing installed).1 with
           | Ok info => info
           | Raise _ => PNone
           end) "status" = Ok (PStr "valid") ∧
  (get_valid_access_token E_closing installed).1 = Ok (PStr "access-2").
Proof. vm_compute. split; reflexivity. Qed.

(** * Further properties of the token store *)

Section SaveFurther.
Context {L : Libs} (E : env).

(** A successful [save_tokens] has found a string access token, a string
    refresh token or none, and a lifetime that keeps the expiry time in
    range. *)
Lemma save_tokens_ok_inv tokens w w' :
  save_tokens E tokens w = (Ok tt, w') →
  ∃ access refresh token_type lifetime,
    getitem tokens "access_token" = Ok (PStr access) ∧
    get_default tokens "refresh_token" (PStr EmptyString) = Ok (PStr refresh) ∧
    get_default tokens "token_type" (PStr "Bearer") = Ok token_type ∧
    (∃ expires_in,
       get_default tokens "expires_in" (PInt 3600) = Ok expires_in ∧
       timedelta_seconds expires_in = Ok lifetime) ∧
    0 ≤ clock E (clock_reads w) + lifetime < DATETIME_END ∧
    w' = World
       (Some (json_dump
          (envelope
             (fernet_encrypt (encryption_key E)
                (entropy E (random_draws w)) access)
             (fernet_encrypt (encryption_key E)
                (entropy E (S (random_draws w))) refresh)
             token_type (clock E (clock_reads w) + lifetime)
             (clock E (S (clock_reads w))))))
       (S (S (clock_reads w))) (S (S (random_draws w)))
       (cache w) (request_count w) (request_window_start w).
Proof.
  unfold save_tokens, datetime_now, _encrypt_data, draw_random. run.
  destruct (get_default tokens "expires_in" _) as [ei|] eqn:Hei; simpl;
    [|done].
  destruct (timedelta_seconds ei) as [lifetime|] eqn:Hlife; simpl; [|done].
  unfold datetime_add.
  destruct (bool_decide (0 ≤ _ < DATETIME_END)) eqn:Hrange; simpl; [|done].
  apply bool_decide_eq_true_1 in Hrange.
  destruct (getitem tokens "access_token") as [acc|] eqn:Hacc; simpl; [|done].
  destruct acc as [| | |access| |]; simpl; try done.
  destruct (get_default tokens "refresh_token" _) as [ref|] eqn:Href; simpl;
    [|done].
  destruct ref as [| | |refresh| |]; simpl; try done.
  destruct (get_default tokens "token_type" _) as [token_type|] eqn:Htype;
    simpl; [|done].
  intros [= <-]. exists access, refresh, token_type, lifetime.
  repeat split; eauto; lia.
Qed.

(** A failed [save_tokens] has written nothing. *)
Lemma save_tokens_raise_file tokens w e w' :
  save_tokens E tokens w = (Raise e, w') → token_file w' = token_file w.
Proof.
  unfold save_tokens, datetime_now, _encrypt_data, draw_random. run.
  destruct (get_default tokens "expires_in" _) as [ei|]; simpl;
    [|by intros [= <- <-]].
  destruct (timedelta_seconds ei) as [lifetime|]; simpl;
    [|by intros [= <- <-]].
  destruct (datetime_add _ _); simpl; [|by intros [= <- <-]].
  destruct (getitem tokens "access_token") as [acc|]; simpl;
    [|by intros [= <- <-]].
  destruct acc; simpl; try (by intros [= <- <-]).
  destruct (get_default tokens "refresh_token" _) as [ref|]; simpl;
    [|by intros [= <- <-]].
  destruct ref; simpl; try (by intros [= <- <-]).
  destruct (get_default tokens "token_type" _); simpl; by intros [= <- <-].
Qed.

End SaveFurther.

(** X1. What [save_tokens] writes.  When it succeeds, the token file holds
    the envelope of the response: its access token and its refresh token
    (the empty string when the response has none), each stored as a
    ciphertext that decrypts, under the key of the manager, to the token;
    its token type; the expiry time, which is the first clock reading plus
    [expires_in]; and the second clock reading as the time of creation.
    Whether it succeeds or raises, the fields of the client are untouched.
    Nothing is stated of the token file after a raise. *)
Theorem save_tokens_writes_envelope `{L : Libs} (E : env) tokens w :
  match save_tokens E tokens w with
  | (Ok _, w') =>
      ∃ access refresh access_enc refresh_enc token_type lifetime,
        getitem tokens "access_token" = Ok (PStr access) ∧
        get_default tokens "refresh_token" (PStr EmptyString) =
          Ok (PStr refresh) ∧
        get_default tokens "token_type" (PStr "Bearer") = Ok token_type ∧
        (∃ expires_in,
           get_default tokens "expires_in" (PInt 3600) = Ok expires_in ∧
           timedelta_seconds expires_in = Ok lifetime) ∧
        token_file w' =
          Some (json_dump (envelope access_enc refresh_enc token_type
                             (clock E (clock_reads w) + lifetime)
                             (clock E (S (clock_reads w))))) ∧
        fernet_decrypt (encryption_key E) access_enc = Some access ∧
        fernet_decrypt (encryption_key E) refresh_enc = Some refresh ∧
        same_client w w'
  | (Raise _, w') => same_client w w'
  end.
Proof.
  destruct (save_tokens E tokens w) as [[[]|e] w'] eqn:Hrun.
  - pose proof (save_tokens_frame E tokens w _ _ Hrun) as Hsame.
    apply save_tokens_ok_inv in Hrun
      as (access & refresh & token_type & lifetime
          & Ha & Hr & Ht & He & _ & ->).
    exists access, refresh. do 2 eexists. exists token_type, lifetime.
    do 4 (split; [done|]). split; [reflexivity|].
    rewrite !fernet_decrypt_encrypt. by repeat split.
  - by eapply save_tokens_frame.
Qed.

(** X2. What [save_tokens] rejects, in the order it looks: a response that
    is not a dict ([AttributeError]), an [expires_in] that is not an integer
    ([TypeError]), a lifetime that takes the expiry time out of the range of
    [datetime] ([OverflowError]), a missing access token ([KeyError]), and
    an access token or a refresh token that is present but not a string,
    such as a JSON [null] ([AttributeError]). *)
Theorem save_tokens_rejections `{L : Libs} (E : env) tokens w :
  let now := clock E (clock_reads w) in
  let outcome := (save_tokens E tokens w).1 in
  (get_default tokens "expires_in" (PInt 3600) = Raise AttributeError →
     outcome = Raise AttributeError) ∧
  (∀ expires_in,
     get_default tokens "expires_in" (PInt 3600) = Ok expires_in →
     timedelta_seconds expires_in = Raise TypeError →
     outcome = Raise TypeError) ∧
  (∀ expires_in lifetime,
     get_default tokens "expires_in" (PInt 3600) = Ok expires_in →
     timedelta_seconds expires_in = Ok lifetime →
     (¬ 0 ≤ now + lifetime < DATETIME_END → outcome = Raise OverflowError) ∧
     (0 ≤ now + lifetime < DATETIME_END →
        (getitem tokens "access_token" = Raise (KeyError "access_token") →
           outcome = Raise (KeyError "access_token")) ∧
        (∀ access,
           getitem tokens "access_token" = Ok access →
           (∀ s, access ≠ PStr s) → outcome = Raise AttributeError) ∧
        (∀ s refresh,
           getitem tokens "access_token" = Ok (PStr s) →
           get_default tokens "refresh_token" (PStr EmptyString) = Ok refresh →
           (∀ r, refresh ≠ PStr r) → outcome = Raise AttributeError))).
Proof.
  intros now outcome. subst outcome.
  unfold save_tokens, datetime_now, _encrypt_data, draw_random. run.
  fold now. split; [by intros ->|]. split.
  { intros ei -> Hdelta. simpl. by rewrite Hdelta. }
  intros ei lifetime -> Hdelta. simpl. rewrite Hdelta. simpl.
  unfold datetime_add. split.
  - intros Hout. by rewrite bool_decide_eq_false_2.
  - intros Hin. rewrite bool_decide_eq_true_2 by done. simpl.
    split; [by intros ->|]. split.
    + intros access -> Hnot. simpl.
      destruct access; try done. by destruct (Hnot s).
    + intros s refresh -> -> Hnot. simpl.
      destruct refresh as [| | |r| |]; try done. by destruct (Hnot r).
Qed.

Lemma save_tokens_rejections_witness :
  (save_tokens (sample_env "key-1" (λ _, T0) Failed Failed)
     (PDict [("access_token", PStr "access-1"); ("refresh_token", PNone)])
     (new_world T0)).1 = Raise AttributeError ∧
  (save_tokens (sample_env "key-1" (λ _, T0) Failed Failed)
     (PDict [("refresh_token", PStr "refresh-1")])
     (new_world T0)).1 = Raise (KeyError "access_token").
Proof.
  pose proof (save_tokens_rejections (sample_env "key-1" (λ _, T0) Failed Failed)
    (PDict [("access_token", PStr "access-1"); ("refresh_token", PNone)])
    (new_world T0)) as (_ & _ & H1).
  pose proof (save_tokens_rejections (sample_env "key-1" (λ _, T0) Failed Failed)
    (PDict [("refresh_token", PStr "refresh-1")])
    (new_world T0)) as (_ & _ & H2).
  split.
  - destruct (H1 (PInt 3600) (3600 * SECOND) eq_refl eq_refl) as [_ H].
    destruct H as (_ & _ & H); [vm_compute; split; [discriminate|reflexivity]|].
    by apply (H "access-1" PNone).
  - destruct (H2 (PInt 3600) (3600 * SECOND) eq_refl eq_refl) as [_ H].
    destruct H as (H & _); [vm_compute; split; [discriminate|reflexivity]|].
    by apply H.
Defined.

Section RefreshFurther.
Context {L : Libs} (E : env).

Lemma wf_pyval_dict_get d k v :
  wf_pyval (PDict d) = true → dict_get k d = Some v → wf_pyval v = true.
Proof.
  simpl. intros [_ Hall]%andb_prop. revert Hall.
  induction d as [|[k' x] d IH]; simpl; [done|].
  intros [Hx Hd]%andb_prop. destruct (decide (k = k')); [|by apply IH].
  by intros [= <-].
Qed.

Lemma wf_pyval_get_default tokens k dflt v :
  wf_pyval tokens = true → wf_pyval dflt = true →
  get_default tokens k dflt = Ok v → wf_pyval v = true.
Proof.
  intros Hwf Hdflt. destruct tokens as [| | | | |d]; try done. simpl.
  destruct (dict_get k d) as [x|] eqn:Hget; intros [= <-]; [|done].
  by eapply wf_pyval_dict_get.
Qed.

(** After a successful save of a well-formed response, the record reads
    back. *)
Lemma save_tokens_then_load tokens w w' :
  save_tokens E tokens w = (Ok tt, w') →
  wf_pyval tokens = true →
  ∃ access refresh token_type lifetime,
    getitem tokens "access_token" = Ok (PStr access) ∧
    get_default tokens "refresh_token" (PStr EmptyString) = Ok (PStr refresh) ∧
    get_default tokens "token_type" (PStr "Bearer") = Ok token_type ∧
    (∃ expires_in,
       get_default tokens "expires_in" (PInt 3600) = Ok expires_in ∧
       timedelta_seconds expires_in = Ok lifetime) ∧
    clock_reads w' = S (S (clock_reads w)) ∧
    load_tokens E w' =
      (Ok (PDict [("access_token", PStr access);
                  ("refresh_token", PStr refresh);
                  ("token_type", token_type);
                  ("expires_at",
                   PStr (isoformat (clock E (clock_reads w) + lifetime)));
                  ("created_at",
                   PStr (isoformat (clock E (S (clock_reads w)))))]), w').
Proof.
  intros Hsave Hwf.
  apply save_tokens_ok_inv in Hsave
    as (access & refresh & token_type & lifetime & Ha & Hr & Ht & He & _ & ->).
  exists access, refresh, token_type, lifetime.
  do 4 (split; [done|]). split; [done|].
  eapply load_tokens_envelope; [|reflexivity].
  eapply wf_pyval_get_default; [exact Hwf| |exact Ht]. reflexivity.
Qed.

Lemma refresh_tokens_none_file refresh_token w w' :
  refresh_tokens E refresh_token w = (Ok PNone, w') →
  token_file w' = token_file w.
Proof.
  unfold refresh_tokens. run.
  destruct (refresh_post E refresh_token) as [status text body| |]; simpl;
    try (by intros [= <-]).
  destruct (status =? 200); simpl; [|by intros [= <-]].
  destruct body as [token_data|]; simpl; [|by intros [= <-]].
  destruct (get_default token_data "success" PNone) as [success|]; simpl;
    [|by intros [= <-]].
  destruct (truthy success) eqn:Hsuccess; simpl; [|by intros [= <-]].
  destruct (save_tokens E token_data w) as [[[]|e] w1] eqn:Hsave; simpl.
  - intros [= -> <-]. destruct (save_tokens_ok_access E _ _ _ Hsave). done.
  - intros [= <-]. by eapply save_tokens_raise_file.
Qed.

(** After a successful refresh with a well-formed response, the new
    record reads back. *)
Lemma refresh_tokens_then_load refresh_token w new w' :
  refresh_tokens E refresh_token w = (Ok new, w') →
  truthy new = true →
  wf_pyval new = true →
  ∃ access refresh token_type lifetime,
    getitem new "access_token" = Ok (PStr access) ∧
    get_default new "refresh_token" (PStr EmptyString) = Ok (PStr refresh) ∧
    get_default new "token_type" (PStr "Bearer") = Ok token_type ∧
    (∃ expires_in,
       get_default new "expires_in" (PInt 3600) = Ok expires_in ∧
       timedelta_seconds expires_in = Ok lifetime) ∧
    load_tokens E w' =
      (Ok (PDict [("access_token", PStr access);
                  ("refresh_token", PStr refresh);
                  ("token_type", token_type);
                  ("expires_at",
                   PStr (isoformat (clock E (clock_reads w) + lifetime)));
                  ("created_at",
                   PStr (isoformat (clock E (S (clock_reads w)))))]), w').
Proof.
  intros Hrun Hnew Hwf.
  destruct (refresh_tokens_cases E refresh_token w)
    as (new0 & w0 & Hrun0 & Hcases).
  rewrite Hrun in Hrun0. injection Hrun0 as <- <-.
  destruct Hcases as [->|(_ & _ & Hsave & _)]; [done|].
  destruct (save_tokens_then_load new w w' Hsave Hwf)
    as (access & refresh & token_type & lifetime & ? & ? & ? & ? & _ & ?).
  by exists access, refresh, token_type, lifetime.
Qed.

End RefreshFurther.

(** X3. A refresh that fails keeps the stored credentials: [refresh_tokens]
    never raises, and when it returns [None] the token file is what it was
    before the call.  In particular a response whose [refresh_token] is a
    JSON [null] counts as a failure, whatever else it says. *)
Theorem refresh_failure_keeps_credentials `{L : Libs} (E : env)
    refresh_token w :
  (∃ new w', refresh_tokens E refresh_token w = (Ok new, w') ∧
     (truthy new = false → new = PNone ∧ token_file w' = token_file w)) ∧
  (∀ status_code text d,
     refresh_post E refresh_token = Responded status_code text (Some (PDict d)) →
     dict_get "refresh_token" d = Some PNone →
     ∃ w', refresh_tokens E refresh_token w = (Ok PNone, w') ∧
           token_file w' = token_file w).
Proof.
  split.
  - destruct (refresh_tokens_cases E refresh_token w)
      as (new & w' & Hrun & [->|(Hnew & _)]).
    + exists PNone, w'. split; [done|]. intros _. split; [done|].
      by eapply refresh_tokens_none_file.
    + exists new, w'. split; [done|]. by rewrite Hnew.
  - intros status text d Hpost Hnull.
    destruct (refresh_tokens_cases E refresh_token w)
      as (new & w' & Hrun & [->|(_ & [text' Hpost'] & Hsave & _)]).
    + exists w'. split; [done|]. by eapply refresh_tokens_none_file.
    + rewrite Hpost in Hpost'. injection Hpost' as _ _ <-.
      apply save_tokens_ok_inv in Hsave as (? & r & ? & ? & _ & Hr & _).
      simpl in Hr. by rewrite Hnull in Hr.
Qed.

Lemma refresh_failure_keeps_credentials_witness :
  let E := sample_env "key-1" (λ _, T0 + 3300 * SECOND)
             (Responded 200 EmptyString
                (Some (PDict [("success", PBool true);
                              ("access_token", PStr "access-2");
                              ("refresh_token", PNone)])))
             Failed in
  ∃ w', refresh_tokens E (PStr "refresh-1") installed = (Ok PNone, w') ∧
        token_file w' = token_file installed.
Proof.
  intros E.
  apply (proj2 (refresh_failure_keeps_credentials E (PStr "refresh-1")
                  installed) 200 EmptyString
           [("success", PBool true); ("access_token", PStr "access-2");
            ("refresh_token", PNone)]); reflexivity.
Defined.

(** X4. A refresh that succeeds is persisted: when [refresh_tokens] returns
    the token data of a well-formed response, [load_tokens] in the state it
    leaves returns that access token and refresh token in plaintext, with
    the expiry time computed from the time of the refresh. *)
Theorem refresh_success_persists `{L : Libs} (E : env)
    refresh_token w new w' :
  refresh_tokens E refresh_token w = (Ok new, w') →
  truthy new = true →
  wf_pyval new = true →
  ∃ access refresh token_type lifetime,
    getitem new "access_token" = Ok (PStr access) ∧
    get_default new "refresh_token" (PStr EmptyString) = Ok (PStr refresh) ∧
    get_default new "token_type" (PStr "Bearer") = Ok token_type ∧
    (∃ expires_in,
       get_default new "expires_in" (PInt 3600) = Ok expires_in ∧
       timedelta_seconds expires_in = Ok lifetime) ∧
    load_tokens E w' =
      (Ok (PDict [("access_token", PStr access);
                  ("refresh_token", PStr refresh);
                  ("token_type", token_type);
                  ("expires_at",
                   PStr (isoformat (clock E (clock_reads w) + lifetime)));
                  ("created_at",
                   PStr (isoformat (clock E (S (clock_reads w)))))]), w').
Proof.
  apply refresh_tokens_then_load.
Qed.

Lemma refresh_success_persists_witness :
  let w' := (refresh_tokens E_refreshing (PStr "refresh-1") installed).2 in
  ∃ access refresh token_type lifetime,
    getitem refreshed_response "access_token" = Ok (PStr access) ∧
    get_default refreshed_response "refresh_token" (PStr EmptyString) =
      Ok (PStr refresh) ∧
    get_default refreshed_response "token_type" (PStr "Bearer") =
      Ok token_type ∧
    (∃ expires_in,
       get_default refreshed_response "expires_in" (PInt 3600) =
         Ok expires_in ∧
       timedelta_seconds expires_in = Ok lifetime) ∧
    load_tokens E_refreshing w' =
      (Ok (PDict [("access_token", PStr access);
                  ("refresh_token", PStr refresh);
                  ("token_type", token_type);
                  ("expires_at",
                   PStr (isoformat
                     (clock E_refreshing (clock_reads installed) + lifetime)));
                  ("created_at",
                   PStr (isoformat
                     (clock E_refreshing (S (clock_reads installed)))))]),
       w').
Proof.
  intros w'.
  apply (refresh_success_persists E_refreshing (PStr "refresh-1") installed
           refreshed_response w').
  - vm_compute. reflexivity.
  - reflexivity.
  - reflexivity.
Defined.

(** X5. The token obtained by a refresh is served without another refresh:
    after [refresh_tokens] has returned the token data of a well-formed
    response, a call of [get_valid_access_token] made while more than 5
    minutes of the new lifetime remain returns the new access token and
    only reads the clock. *)
Theorem refreshed_token_served `{L : Libs} (E : env)
    refresh_token w new w' expires_in lifetime :
  refresh_tokens E refresh_token w = (Ok new, w') →
  truthy new = true →
  wf_pyval new = true →
  get_default new "expires_in" (PInt 3600) = Ok expires_in →
  timedelta_seconds expires_in = Ok lifetime →
  let now := clock E (clock_reads w') in
  0 ≤ now + 300 * SECOND < DATETIME_END →
  now + 300 * SECOND < clock E (clock_reads w) + lifetime →
  ∃ access,
    getitem new "access_token" = Ok (PStr access) ∧
    get_valid_access_token E w' =
      (Ok (PStr access), set_clock_reads (S (clock_reads w')) w').
Proof.
  intros Hrun Hnew Hwf Hei Hlife now Hrange Hfresh.
  destruct (refresh_tokens_then_load E _ _ _ _ Hrun Hnew Hwf)
    as (access & refresh & token_type & lifetime' & Ha & _ & _ & He & Hload).
  destruct He as (ei' & Hei' & Hlife').
  rewrite Hei in Hei'. injection Hei' as <-.
  rewrite Hlife in Hlife'. injection Hlife' as <-.
  exists access. split; [done|].
  unfold get_valid_access_token. unfold bind at 1. rewrite Hload.
  cbn [truthy negb]. unfold bind at 1.
  erewrite is_token_expired_parsed;
    [|reflexivity|apply fromisoformat_isoformat|exact Hrange].
  fold now. rewrite bool_decide_eq_false_2 by lia. reflexivity.
Qed.

Lemma refreshed_token_served_witness :
  let w' := (refresh_tokens E_refreshing (PStr "refresh-1") installed).2 in
  ∃ access,
    getitem refreshed_response "access_token" = Ok (PStr access) ∧
    get_valid_access_token E_refreshing w' =
      (Ok (PStr access), set_clock_reads (S (clock_reads w')) w').
Proof.
  intros w'.
  apply (refreshed_token_served E_refreshing (PStr "refresh-1") installed
           refreshed_response w' (PInt 3600) (3600 * SECOND)).
  - vm_compute. reflexivity.
  - reflexivity.
  - reflexivity.
  - reflexivity.
  - reflexivity.
  - vm_compute. split; [discriminate|reflexivity].
  - vm_compute. reflexivity.
Defined.

(** X6. The expiry check fails safe: a record without an [expires_at] that
    parses is reported as expired, without an exception and without a look
    at the clock. *)
Theorem is_token_expired_fail_safe `{L : Libs} (E : env) tokens w :
  unparsable_expiry tokens → is_token_expired E tokens w = (Ok true, w).
Proof.
  unfold unparsable_expiry, is_token_expired. run.
  destruct (getitem tokens "expires_at") as [stamp|]; simpl; [|done].
  destruct stamp as [| | |s| |]; simpl; try done. by intros ->.
Qed.

Lemma is_token_expired_fail_safe_witness :
  let E := sample_env "key-1" (λ _, T0) Failed Failed in
  is_token_expired E (PDict [("access_token", PStr "access-1")])
    (new_world T0) = (Ok true, new_world T0) ∧
  is_token_expired E (PDict [("expires_at", PStr "tomorrow")])
    (new_world T0) = (Ok true, new_world T0).
Proof.
  intros E. split; apply is_token_expired_fail_safe.
  - exact I.
  - vm_compute. reflexivity.
Defined.

Section StatusFurther.
Context {L : Libs} (E : env).

Lemma get_token_info_no_tokens w :
  load_tokens E w = (Ok PNone, w) →
  get_token_info E w = (Ok (PDict [("status", PStr "no_tokens")]), w).
Proof. intros Hload. unfold get_token_info, bind. by rewrite Hload. Qed.

Lemma get_token_info_shape w info w' :
  get_token_info E w = (Ok info, w') → summary_shape info.
Proof.
  unfold get_token_info, datetime_now. unfold bind at 1.
  destruct (load_tokens E w) as [[tokens|] w1]; [|done].
  destruct (truthy tokens); simpl; [|by intros [= <- <-]; left].
  run. intros Hrun. right.
  repeat (case_match; simplify_eq/=; try done);
    (do 5 eexists; split; [reflexivity|]; case_bool_decide; auto).
Qed.

End StatusFurther.

(** X7. The status summary has one of two shapes and never carries a token:
    whenever [get_token_info] returns, the result is [{status: no_tokens}]
    or a dict with exactly the keys [status], [expires_at], [created_at],
    [token_type] and [has_refresh_token], where [status] is ["valid"] or
    ["expired"] and [has_refresh_token] is a boolean. *)
Theorem status_summary_shape `{L : Libs} (E : env) (w : world) :
  match get_token_info E w with
  | (Ok info, _) =>
      summary_shape info ∧
      getitem info "access_token" = Raise (KeyError "access_token") ∧
      getitem info "refresh_token" = Raise (KeyError "refresh_token")
  | (Raise _, _) => True
  end.
Proof.
  destruct (get_token_info E w) as [[info|] w'] eqn:Hrun; [|done].
  apply get_token_info_shape in Hrun. split; [done|].
  destruct Hrun as [->|(? & ? & ? & ? & ? & -> & _)]; by split.
Qed.

(** X8. A token file that is missing, or that the key cannot decrypt, is
    reported as [{status: no_tokens}], not as an error, and nothing is
    changed. *)
Theorem status_summary_no_tokens `{L : Libs} (E : env) (w : world) :
  token_file w = None ∨
  (∃ content, token_file w = Some content ∧ cannot_decrypt E content) →
  get_token_info E w = (Ok (PDict [("status", PStr "no_tokens")]), w).
Proof.
  intros [Hnone|(content & Hfile & Hbad)]; apply get_token_info_no_tokens.
  - by apply load_tokens_no_file.
  - by eapply load_tokens_cannot_decrypt.
Qed.

Lemma status_summary_no_tokens_witness :
  get_token_info E_rotated (new_world T0) =
    (Ok (PDict [("status", PStr "no_tokens")]), new_world T0) ∧
  get_token_info E_rotated installed =
    (Ok (PDict [("status", PStr "no_tokens")]), installed).
Proof.
  split; apply status_summary_no_tokens.
  - by left.
  - right. exact installed_cannot_decrypt.
Defined.

(** X9. The status summary does not guard the parsing of [expires_at]: for
    a stored record whose [expires_at] is a string that is not a timestamp,
    neither a naive one nor one with a UTC offset, [get_token_info] raises
    [ValueError] before it reads the clock, while [is_token_expired] returns
    true for the same record. *)
Theorem status_summary_unparsable_expiry `{L : Libs} (E : env) (w : world)
    d stamp :
  load_tokens E w = (Ok (PDict d), w) →
  dict_get "expires_at" d = Some (PStr stamp) →
  fromisoformat stamp = None →
  no_utc_offset stamp = true →
  get_token_info E w = (Raise ValueError, w) ∧
  is_token_expired E (PDict d) w = (Ok true, w).
Proof.
  intros Hload Hget Hparse _. split.
  - unfold get_token_info. unfold bind at 1. rewrite Hload.
    assert (truthy (PDict d) = true) as -> by (by destruct d).
    run. rewrite Hget. simpl. by rewrite Hparse.
  - unfold is_token_expired. run. rewrite Hget. simpl. by rewrite Hparse.
Qed.

Lemma status_summary_unparsable_expiry_witness :
  let E := sample_env "key-1" (λ _, T0) Failed Failed in
  get_token_info E damaged = (Raise ValueError, damaged) ∧
  is_token_expired E
    (PDict [("access_token", PStr "access-1");
            ("refresh_token", PStr "refresh-1");
            ("token_type", PStr "Bearer");
            ("expires_at", PStr "tomorrow");
            ("created_at", PStr "today")]) damaged = (Ok true, damaged).
Proof.
  intros E.
  apply (status_summary_unparsable_expiry E damaged _ "tomorrow");
    vm_compute; reflexivity.
Defined.

(** X10. The summary of a record just saved: after [save_tokens] of a valid
    response, [get_token_info] reports the expiry time computed at the save
    and the token type saved; [has_refresh_token] is false exactly when the
    response had no refresh token or an empty one; and [status] is
    ["expired"] exactly when the clock is strictly past the expiry time. *)
Theorem saved_record_summary `{L : Libs} (E : env)
    tokens access refresh token_type lifetime w :
  valid_token_response tokens access refresh token_type lifetime →
  let expires_at := clock E (clock_reads w) + lifetime in
  0 ≤ expires_at < DATETIME_END →
  let w1 := (save_tokens E tokens w).2 in
  let now := clock E (clock_reads w1) in
  get_token_info E w1 =
    (Ok (PDict
       [("status",
         PStr (if bool_decide (expires_at < now) then "expired" else "valid"));
        ("expires_at", PStr (isoformat expires_at));
        ("created_at", PStr (isoformat (clock E (S (clock_reads w)))));
        ("token_type", token_type);
        ("has_refresh_token", PBool (negb (String.eqb refresh EmptyString)))]),
     set_clock_reads (S (S (clock_reads w1))) w1).
Proof.
  intros Hvalid expires_at Hrange w1 now.
  pose proof (save_tokens_run E _ _ _ _ _ w Hvalid Hrange) as Hsave.
  subst now w1. rewrite Hsave. cbn [snd].
  destruct Hvalid as (_ & _ & _ & Hwf & _).
  match goal with |- get_token_info E ?w1 = _ =>
    rewrite (get_token_info_run E w1
               [("access_token", PStr access);
                ("refresh_token", PStr refresh);
                ("token_type", token_type);
                ("expires_at", PStr (isoformat expires_at));
                ("created_at", PStr (isoformat (clock E (S (clock_reads w)))))]
               (isoformat expires_at) expires_at)
  end.
  - reflexivity.
  - by eapply load_tokens_envelope.
  - reflexivity.
  - apply fromisoformat_isoformat.
Qed.

Lemma saved_record_summary_witness :
  let E := sample_env "key-1" (λ _, T0) Failed Failed in
  let w1 := (save_tokens E (PDict [("access_token", PStr "access-1")])
               (new_world T0)).2 in
  get_token_info E w1 =
    (Ok (PDict
       [("status",
         PStr (if bool_decide (T0 + 3600 * SECOND < T0)
               then "expired" else "valid"));
        ("expires_at", PStr (isoformat (T0 + 3600 * SECOND)));
        ("created_at", PStr (isoformat T0));
        ("token_type", PStr "Bearer");
        ("has_refresh_token",
         PBool (negb (String.eqb EmptyString EmptyString)))]),
     set_clock_reads (S (S (clock_reads w1))) w1).
Proof.
  intros E.
  apply (saved_record_summary E (PDict [("access_token", PStr "access-1")])
           "access-1" EmptyString (PStr "Bearer") (3600 * SECOND)
           (new_world T0)).
  - repeat split. exists (PInt 3600). by split.
  - vm_compute. split; [discriminate|reflexivity].
Defined.

(** X11. [clear_tokens] removes the token file, whatever the state, and is
    idempotent; afterwards the record loads as [None] and the summary is
    [{status: no_tokens}].  The cache and the rate window are untouched. *)
Theorem clear_tokens_idempotent `{L : Libs} (E : env) (w : world) :
  let w' := (clear_tokens w).2 in
  clear_tokens w = (Ok tt, w') ∧
  clear_tokens w' = (Ok tt, w') ∧
  token_file w' = None ∧
  same_client w w' ∧
  load_tokens E w' = (Ok PNone, w') ∧
  get_token_info E w' = (Ok (PDict [("status", PStr "no_tokens")]), w').
Proof.
  intros w'. subst w'. rewrite !clear_tokens_run. cbn [snd].
  repeat split.
Qed.

(** X12. The key outlives the process.  Once a [TokenManager] has been
    constructed, a later construction on the same key file gets the same
    key, generates none and leaves the key file alone; so the record that
    the first manager saved is read back by the second. *)
Theorem tokens_survive_restart `{L : Libs} (key_ok : string → bool)
    key_file generated generated' key key_file' (E E' : env)
    tokens access refresh token_type lifetime w :
  TokenManager_init key_ok key_file generated = (Ok key, key_file') →
  valid_token_response tokens access refresh token_type lifetime →
  let now := clock E (clock_reads w) in
  0 ≤ now + lifetime < DATETIME_END →
  TokenManager_init key_ok key_file' generated' = (Ok key, key_file') ∧
  ∃ w',
    save_tokens (with_key key E) tokens w = (Ok tt, w') ∧
    load_tokens (with_key key E') w' =
      (Ok (PDict [("access_token", PStr access);
                  ("refresh_token", PStr refresh);
                  ("token_type", token_type);
                  ("expires_at", PStr (isoformat (now + lifetime)));
                  ("created_at",
                   PStr (isoformat (clock E (S (clock_reads w)))))]), w').
Proof.
  intros Hinit Hvalid now Hrange. split.
  - revert Hinit. unfold TokenManager_init, _get_or_create_key.
    destruct key_file as [k|].
    + destruct (key_ok k) eqn:Hok; intros [= <- <-]. by rewrite Hok.
    + destruct (key_ok generated) eqn:Hok; intros [= <- <-]. by rewrite Hok.
  - pose proof (save_tokens_run (with_key key E) _ _ _ _ _ w Hvalid Hrange)
      as Hsave.
    eexists. split; [exact Hsave|].
    destruct Hvalid as (_ & _ & _ & Hwf & _).
    by eapply (load_tokens_envelope (with_key key E')).
Qed.

Lemma tokens_survive_restart_witness :
  let key_ok := λ k : string, bool_decide (String.length k = 44%nat) in
  let key := "c2l4dGVlbi1ieXRlLWtleS1mb3ItdGhlLW1vZGVsISE=" in
  let E := sample_env "-" (λ _, T0) Failed Failed in
  let E' := sample_env "-" (λ _, T0 + 60 * SECOND) Failed Failed in
  TokenManager_init key_ok (Some key) "unused" = (Ok key, Some key) ∧
  ∃ w',
    save_tokens (with_key key E) sample_response (new_world T0) =
      (Ok tt, w') ∧
    load_tokens (with_key key E') w' =
      (Ok (PDict [("access_token", PStr "access-1");
                  ("refresh_token", PStr "refresh-1");
                  ("token_type", PStr "Bearer");
                  ("expires_at", PStr (isoformat (T0 + 3600 * SECOND)));
                  ("created_at", PStr (isoformat T0))]), w').
Proof.
  intros key_ok key E E'.
  apply (tokens_survive_restart key_ok None key "unused" key (Some key) E E'
           sample_response "access-1" "refresh-1" (PStr "Bearer")
           (3600 * SECOND) (new_world T0)).
  - reflexivity.
  - repeat split. exists (PInt 3600). by split.
  - vm_compute. split; [discriminate|reflexivity].
Defined.

(** * Further properties of the client *)

Section ClientFurther.
Context {L : Libs} (cfg : config) (E : env).

Lemma _check_rate_limit_ok_inv w w1 :
  _check_rate_limit cfg E w = (Ok tt, w1) →
  token_file w1 = token_file w ∧ cache w1 = cache w ∧
  clock_reads w1 = S (clock_reads w) ∧ random_draws w1 = random_draws w.
Proof.
  rewrite _check_rate_limit_run. cbv zeta.
  destruct (bool_decide (MAX_REQUESTS_PER_MINUTE cfg ≤ _)); [done|].
  by intros [= <-].
Qed.

(** Inside a window the counter only grows, and stops at the ceiling. *)
Lemma rate_window_budget (n : nat) w :
  (∀ i : nat, (i < n)%nat →
     clock E (clock_reads w + i) - request_window_start w < 60 * SECOND) →
  let admitted :=
    Nat.min n (Z.to_nat (MAX_REQUESTS_PER_MINUTE cfg - request_count w)) in
  ∃ w', call_times n (_check_rate_limit cfg E) w =
          (replicate admitted (Ok tt) ++
           replicate (n - admitted) (Raise RATE_LIMIT_EXCEEDED), w') ∧
        request_count w' = request_count w + Z.of_nat admitted ∧
        request_window_start w' = request_window_start w ∧
        cache w' = cache w ∧ token_file w' = token_file w.
Proof.
  revert w. induction n as [|n IH]; intros w Hin; cbv zeta.
  { simpl. eexists. split; [reflexivity|]. repeat split. lia. }
  change (call_times (S n) (_check_rate_limit cfg E) w) with
    (let (r, w0) := _check_rate_limit cfg E w in
     let (rs, w1) := call_times n (_check_rate_limit cfg E) w0 in
     (r :: rs, w1)).
  rewrite _check_rate_limit_run. cbv zeta.
  rewrite (bool_decide_eq_false_2 (60 * SECOND ≤ _)).
  2:{ specialize (Hin O ltac:(lia)). rewrite Nat.add_0_r in Hin. lia. }
  destruct (bool_decide (MAX_REQUESTS_PER_MINUTE cfg ≤ request_count w))
    eqn:Hfull.
  - apply bool_decide_eq_true_1 in Hfull.
    match goal with |- context [call_times n _ ?w0] =>
      destruct (IH w0) as (w' & Hrun & Hc & Hs & Hca & Htf) end.
    { simpl. intros i Hi. specialize (Hin (S i) ltac:(lia)).
      by replace (clock_reads w + S i)%nat with (S (clock_reads w) + i)%nat
        in Hin by lia. }
    simpl in Hrun, Hc, Hs, Hca, Htf. rewrite Hrun.
    replace (Z.to_nat (MAX_REQUESTS_PER_MINUTE cfg - request_count w))
      with O in * by lia.
    rewrite !Nat.min_0_r in *. exists w'. simpl.
    rewrite Nat.sub_0_r in Hrun |- *. repeat split; auto.
  - apply bool_decide_eq_false_1 in Hfull.
    match goal with |- context [call_times n _ ?w0] =>
      destruct (IH w0) as (w' & Hrun & Hc & Hs & Hca & Htf) end.
    { simpl. intros i Hi. specialize (Hin (S i) ltac:(lia)).
      by replace (clock_reads w + S i)%nat with (S (clock_reads w) + i)%nat
        in Hin by lia. }
    simpl in Hrun, Hc, Hs, Hca, Htf. rewrite Hrun.
    replace (Z.to_nat (MAX_REQUESTS_PER_MINUTE cfg - (request_count w + 1)))
      with (Nat.pred
              (Z.to_nat (MAX_REQUESTS_PER_MINUTE cfg - request_count w)))
      in * by lia.
    destruct (Z.to_nat (MAX_REQUESTS_PER_MINUTE cfg - request_count w))
      as [|budget] eqn:Hbudget; [lia|].
    exists w'. simpl in *. repeat split; auto. lia.
Qed.

(** A request that finds the window full. *)
Lemma _make_request_rate_limited endpoint params w :
  MAX_REQUESTS_PER_MINUTE cfg ≤ request_count w →
  clock E (clock_reads w) - request_window_start w < 60 * SECOND →
  _make_request cfg E endpoint params w =
    (Raise RATE_LIMIT_EXCEEDED, set_clock_reads (S (clock_reads w)) w).
Proof.
  intros Hfull Hin. unfold _make_request. unfold bind at 1.
  rewrite _check_rate_limit_run. cbv zeta.
  rewrite (bool_decide_eq_false_2 (60 * SECOND ≤ _)) by lia.
  by rewrite bool_decide_eq_true_2.
Qed.

(** A request that finds a fresh, truthy entry. *)
Lemma _make_request_cache_hit endpoint params w w1 entry t :
  _check_rate_limit cfg E w = (Ok tt, w1) →
  cache w !! _get_cache_key endpoint params = Some entry →
  fromisoformat (cached_at entry) = Some t →
  clock E (clock_reads w1) - t < CACHE_DURATION cfg * SECOND →
  truthy (data entry) = true →
  _make_request cfg E endpoint params w =
    (Ok (data entry), set_clock_reads (S (clock_reads w1)) w1).
Proof.
  intros Hrate Hentry Hparse Hfresh Htruthy.
  destruct (_check_rate_limit_ok_inv _ _ Hrate) as (_ & Hcache & _).
  unfold _make_request. unfold bind at 1. rewrite Hrate.
  unfold bind at 1.
  rewrite (_get_from_cache_run cfg E _ w1 entry t) by congruence.
  cbv zeta. rewrite bool_decide_eq_true_2 by done. by rewrite Htruthy.
Qed.


Lemma _get_headers_no_file w :
  token_file w = None → _get_headers E w = (Raise NO_VALID_TOKEN, w).
Proof.
  intros Hnone. unfold _get_headers. unfold bind at 1.
  by rewrite get_valid_access_token_no_file.
Qed.


End ClientFurther.

(** X13. The budget of a window.  In a run of [n] rate-limit checks that
    all fall inside the current window, the first [ceiling - request_count]
    of them are admitted and every later one is rejected; none is admitted
    once the ceiling is reached, and the window start, the cache and the
    token file are untouched. *)
Theorem rate_limiter_budget (cfg : config) (E : env) (n : nat) (w : world) :
  (∀ i : nat, (i < n)%nat →
     clock E (clock_reads w + i) - request_window_start w < 60 * SECOND) →
  let admitted :=
    Nat.min n (Z.to_nat (MAX_REQUESTS_PER_MINUTE cfg - request_count w)) in
  ∃ w', call_times n (_check_rate_limit cfg E) w =
          (replicate admitted (Ok tt) ++
           replicate (n - admitted) (Raise RATE_LIMIT_EXCEEDED), w') ∧
        request_count w' = request_count w + Z.of_nat admitted ∧
        request_window_start w' = request_window_start w ∧
        cache w' = cache w ∧ token_file w' = token_file w.
Proof. apply rate_window_budget. Qed.

Lemma rate_limiter_budget_witness :
  ∃ w', call_times 5 (_check_rate_limit default_config E_busy)
          (set_request_count 98 (new_world T0)) =
          ([Ok tt; Ok tt; Raise RATE_LIMIT_EXCEEDED;
            Raise RATE_LIMIT_EXCEEDED; Raise RATE_LIMIT_EXCEEDED], w') ∧
        request_count w' = 98 + Z.of_nat 2 ∧
        request_window_start w' = T0 ∧
        cache w' = ∅ ∧ token_file w' = None.
Proof.
  apply (rate_limiter_budget default_config E_busy 5
           (set_request_count 98 (new_world T0))).
  intros i Hi. simpl. unfold SECOND. lia.
Defined.

(** X14. A request rejected by the rate limiter does nothing else: when the
    window is full and has not elapsed, [_make_request] raises the
    rate-limit exception having only read the clock.  It looks neither in
    the cache nor at the tokens, so even a request whose answer is cached
    is rejected. *)
Theorem rate_limited_request_does_nothing `{L : Libs} (cfg : config)
    (E : env) endpoint params w :
  MAX_REQUESTS_PER_MINUTE cfg ≤ request_count w →
  clock E (clock_reads w) - request_window_start w < 60 * SECOND →
  _make_request cfg E endpoint params w =
    (Raise RATE_LIMIT_EXCEEDED, set_clock_reads (S (clock_reads w)) w).
Proof. apply _make_request_rate_limited. Qed.

(** X15. A cache hit needs neither tokens nor upstream: a request admitted
    by the rate limiter that finds an entry younger than the TTL with a
    truthy payload returns that payload, having read the clock once more
    and changed nothing else. *)
Theorem cache_hit_is_local `{L : Libs} (cfg : config) (E : env)
    endpoint params w w1 entry t :
  _check_rate_limit cfg E w = (Ok tt, w1) →
  cache w !! _get_cache_key endpoint params = Some entry →
  fromisoformat (cached_at entry) = Some t →
  clock E (clock_reads w1) - t < CACHE_DURATION cfg * SECOND →
  truthy (data entry) = true →
  _make_request cfg E endpoint params w =
    (Ok (data entry), set_clock_reads (S (clock_reads w1)) w1).
Proof. apply _make_request_cache_hit. Qed.

(** X16. A repeated request is served from the cache: after a request that
    upstream answered with 200 and a truthy payload, the same request, if
    the rate limiter admits it and less than the TTL has passed since the
    payload was cached, returns the same payload without a call to
    upstream. *)
Theorem repeated_request_served_from_cache `{L : Libs} (cfg : config)
    (E : env) endpoint params w text payload w3 w1 :
  upstream_response cfg E endpoint params w =
    Some (Responded 200 text (Some payload), w3) →
  truthy payload = true →
  let w' := (_make_request cfg E endpoint params w).2 in
  _check_rate_limit cfg E w' = (Ok tt, w1) →
  clock E (clock_reads w1) - clock E (clock_reads w3)
    < CACHE_DURATION cfg * SECOND →
  _make_request cfg E endpoint params w =
    (Ok payload, w') ∧
  _make_request cfg E endpoint params w' =
    (Ok payload, set_clock_reads (S (clock_reads w1)) w1).
Proof.
  intros Hup Htruthy w' Hrate Hfresh. subst w'.
  rewrite (_make_request_upstream cfg E _ _ _ _ _ Hup) in *. cbn [snd] in *.
  split; [reflexivity|].
  rewrite _save_to_cache_run in *. cbn [snd] in *.
  eapply (_make_request_cache_hit cfg E endpoint params _ w1
            (CacheEntry payload (isoformat (clock E (clock_reads w3))))).
  - exact Hrate.
  - simpl. apply lookup_insert_eq.
  - apply fromisoformat_isoformat.
  - exact Hfresh.
  - exact Htruthy.
Qed.


(** X18. Without credentials no request reaches upstream: when there is no
    token file and the cache has no entry for the request, [_make_request]
    raises "No valid access token available"; the request has been counted
    by the rate limiter all the same. *)
Theorem unauthenticated_request `{L : Libs} (cfg : config) (E : env)
    endpoint params w w1 :
  token_file w = None →
  _check_rate_limit cfg E w = (Ok tt, w1) →
  cache w !! _get_cache_key endpoint params = None →
  _make_request cfg E endpoint params w = (Raise NO_VALID_TOKEN, w1) ∧
  upstream_response cfg E endpoint params w = None.
Proof.
  intros Hnone Hrate Hmiss.
  destruct (_check_rate_limit_ok_inv cfg E _ _ Hrate) as (Hfile & Hcache & _).
  assert (Hlookup : _get_from_cache cfg E (_get_cache_key endpoint params) w1
                    = (Ok PNone, w1))
    by (apply _get_from_cache_miss; congruence).
  assert (Hheaders : _get_headers E w1 = (Raise NO_VALID_TOKEN, w1))
    by (apply _get_headers_no_file; congruence).
  split.
  - unfold _make_request. unfold bind at 1. rewrite Hrate.
    unfold bind at 1. rewrite Hlookup. cbn [truthy]. unfold bind at 1.
    by rewrite Hheaders.
  - unfold upstream_response. rewrite Hrate, Hlookup. cbn [truthy].
    by rewrite Hheaders.
Qed.

(** X19. How the failures of upstream are reported.  A timeout becomes
    "Request timed out"; a transport failure is passed on; a status other
    than 200 and 401, a 429 included, becomes "API request failed with
    status ..." with the status and the body text; a 200 whose body does
    not parse raises the decoding error.  None of these touches the
    credentials: only a 401 removes the token file. *)
Theorem upstream_failures `{L : Libs} (cfg : config) (E : env)
    endpoint params w outcome w3 :
  upstream_response cfg E endpoint params w = Some (outcome, w3) →
  match outcome with
  | TimedOut =>
      _make_request cfg E endpoint params w = (Raise REQUEST_TIMED_OUT, w3)
  | Failed =>
      _make_request cfg E endpoint params w = (Raise TransportError, w3)
  | Responded status_code text body =>
      (status_code ≠ 200 → status_code ≠ 401 →
         _make_request cfg E endpoint params w =
           (Raise (API_REQUEST_FAILED status_code text), w3)) ∧
      (status_code = 200 → body = None →
         _make_request cfg E endpoint params w = (Raise JSONDecodeError, w3)) ∧
      (status_code ≠ 401 →
         token_file (_make_request cfg E endpoint params w).2 = token_file w3)
  end.
Proof.
  intros Hup. rewrite (_make_request_upstream cfg E _ _ _ _ _ Hup).
  destruct outcome as [status text body| |]; try done.
  split; [|split].
  - intros H200 H401. apply Z.eqb_neq in H200, H401. by rewrite H200, H401.
  - by intros -> ->.
  - intros H401. apply Z.eqb_neq in H401. rewrite H401.
    destruct (status =? 200); [by destruct body|done].
Qed.

(** X20. The query parameters of the data methods: [limit] is always sent,
    [start] and [end] only when the argument is truthy (so [None] and the
    empty string are both left out), and the keys are pairwise distinct. *)
Theorem date_params_bindings (start_date end_date limit : pyval) :
  let params := date_params start_date end_date limit in
  NoDup (params.*1) ∧
  dict_get "limit" params = Some limit ∧
  dict_get "start" params =
    (if truthy start_date then Some start_date else None) ∧
  dict_get "end" params = (if truthy end_date then Some end_date else None).
Proof.
  unfold date_params.
  destruct (truthy start_date), (truthy end_date); simpl;
    (split; [compute_done|done]).
Qed.


Lemma rate_limited_request_does_nothing_witness :
  _make_request default_config E_busy "/user/profile/basic" None
    (set_request_count 100 cached_only) =
    (Raise RATE_LIMIT_EXCEEDED,
     set_clock_reads (S (clock_reads (set_request_count 100 cached_only)))
       (set_request_count 100 cached_only)).
Proof.
  apply rate_limited_request_does_nothing.
  - vm_compute. discriminate.
  - vm_compute. reflexivity.
Defined.

Lemma cache_hit_is_local_witness :
  let E := sample_env "key-1" (λ _, T0 + 60 * SECOND) Failed Failed in
  let w1 := (_check_rate_limit default_config E cached_only).2 in
  _make_request default_config E "/user/profile/basic" None cached_only =
    (Ok cached_payload, set_clock_reads (S (clock_reads w1)) w1).
Proof.
  intros E w1.
  apply (cache_hit_is_local default_config E "/user/profile/basic" None
           cached_only w1 (CacheEntry cached_payload (isoformat T0)) T0).
  - vm_compute. reflexivity.
  - vm_compute. reflexivity.
  - apply fromisoformat_isoformat.
  - vm_compute. reflexivity.
  - reflexivity.
Defined.

Lemma repeated_request_served_from_cache_witness :
  let E := E_serving 200 EmptyString (Some cached_payload) in
  let w' := (_make_request default_config E "/user/profile/basic" None
               installed).2 in
  let w1 := (_check_rate_limit default_config E w').2 in
  _make_request default_config E "/user/profile/basic" None installed =
    (Ok cached_payload, w') ∧
  _make_request default_config E "/user/profile/basic" None w' =
    (Ok cached_payload, set_clock_reads (S (clock_reads w1)) w1).
Proof.
  intros E w' w1.
  pose proof (repeated_request_served_from_cache default_config E
                "/user/profile/basic" None installed EmptyString
                cached_payload
                (match upstream_response default_config E
                         "/user/profile/basic" None installed with
                 | Some (_, w3) => w3
                 | None => installed
                 end) w1) as H.
  cbv zeta in H.
  assert (Hup : upstream_response default_config E "/user/profile/basic"
                  None installed =
                Some (Responded 200 EmptyString (Some cached_payload),
                      match upstream_response default_config E
                              "/user/profile/basic" None installed with
                      | Some (_, w3) => w3
                      | None => installed
                      end)) by (vm_compute; reflexivity).
  specialize (H Hup eq_refl). fold w' in H.
  apply H; vm_compute; reflexivity.
Defined.


Lemma unauthenticated_request_witness :
  let w1 := (_check_rate_limit default_config E_busy (new_world T0)).2 in
  _make_request default_config E_busy "/recovery"
    (Some [("limit", PInt 5)]) (new_world T0) = (Raise NO_VALID_TOKEN, w1) ∧
  upstream_response default_config E_busy "/recovery"
    (Some [("limit", PInt 5)]) (new_world T0) = None.
Proof.
  intros w1. apply unauthenticated_request.
  - reflexivity.
  - vm_compute. reflexivity.
  - apply lookup_empty.
Defined.

Lemma upstream_failures_witness :
  let E := E_serving 429 "Too Many Requests" None in
  ∃ w3,
    (429 ≠ 200 → 429 ≠ 401 →
       _make_request default_config E "/user/profile/basic" None installed =
         (Raise (API_REQUEST_FAILED 429 "Too Many Requests"), w3)) ∧
    (429 = 200 → @None pyval = None →
       _make_request default_config E "/user/profile/basic" None installed =
         (Raise JSONDecodeError, w3)) ∧
    (429 ≠ 401 →
       token_file (_make_request default_config E "/user/profile/basic" None
                     installed).2 = token_file w3).
Proof.
  intros E. eexists.
  apply (upstream_failures default_config E "/user/profile/basic" None
           installed (Responded 429 "Too Many Requests" None)).
  vm_compute. reflexivity.
Defined.


(** * Properties of the tools *)

Global Instance read_only_refl : Reflexive read_only.
Proof. by intros w. Qed.

Global Instance read_only_trans : Transitive read_only.
Proof.
  intros w1 w2 w3 (?&?&?) (?&?&?).
  split; [congruence|]. split; [congruence|]. by etrans.
Qed.

Section StatusReads.
Context {L : Libs} (E : env).

Lemma datetime_now_read_only : preserves read_only (datetime_now E).
Proof. by intros w r w' [= <- <-]. Qed.
Hint Resolve datetime_now_read_only : frame.

Lemma load_tokens_read_only : preserves read_only (load_tokens E).
Proof. unfold load_tokens. frame. Qed.
Hint Resolve load_tokens_read_only : frame.

Lemma get_token_info_read_only : preserves read_only (get_token_info E).
Proof. unfold get_token_info. frame. Qed.

End StatusReads.

Section Tools.
Context {L : Libs} (E : env) (describe : exn → string).

Lemma init_whoop_client_built s :
  whoop_client s = true → init_whoop_client E s = (Ok tt, s).
Proof. unfold init_whoop_client. by intros ->. Qed.

(** A call that returns leaves the process with its client. *)
Lemma init_whoop_client_ok_flag s s1 :
  init_whoop_client E s = (Ok tt, s1) → whoop_client s1 = true.
Proof.
  unfold init_whoop_client. destruct (whoop_client s) eqn:Hflag.
  - by intros [= <-].
  - unfold on_client. simpl. destruct (bind _ _ _) as [[[]|e] w1]; [|done].
    by intros [= <-].
Qed.

(** A run of a tool, by the outcome of its steps. *)
Lemma tool_shape_run {A} tool call (log : pyval → result A) s :
  tool_shape E describe tool call log s =
    match init_whoop_client E s with
    | (Ok _, s0) =>
        match call (client_state s0) with
        | (Ok payload, w1) =>
            match log payload with
            | Ok _ =>
                (Ok (data_envelope tool payload (clock E (clock_reads w1))),
                 Server (whoop_client s0)
                   (set_clock_reads (S (clock_reads w1)) w1))
            | Raise e =>
                (Ok (error_envelope tool (exception_str describe e)
                       (clock E (S (clock_reads w1)))),
                 Server (whoop_client s0)
                   (set_clock_reads (S (S (clock_reads w1))) w1))
            end
        | (Raise e, w1) =>
            (Ok (error_envelope tool (exception_str describe e)
                   (clock E (clock_reads w1))),
             Server (whoop_client s0)
               (set_clock_reads (S (clock_reads w1)) w1))
        end
    | (Raise e, s0) =>
        (Ok (error_envelope tool (exception_str describe e)
               (clock E (clock_reads (client_state s0)))),
         Server (whoop_client s0)
           (set_clock_reads (S (clock_reads (client_state s0)))
              (client_state s0)))
    end.
Proof.
  unfold tool_shape, stry. unfold sbind at 1.
  destruct (init_whoop_client E s) as [[[]|e] s0]; [|done].
  unfold sbind at 1. unfold on_client at 1.
  destruct (call (client_state s0)) as [[payload|e] w1]; [|done].
  unfold sbind, on_client, lift, sret, datetime_now. simpl.
  by destruct (log payload).
Qed.

Lemma tool_shape_answers {A} tool call (log : pyval → result A) s :
  ∃ v s', tool_shape E describe tool call log s = (Ok v, s') ∧
          tool_answer tool v.
Proof.
  rewrite tool_shape_run.
  destruct (init_whoop_client E s) as [[[]|e] s0].
  - destruct (call (client_state s0)) as [[payload|e] w1].
    + destruct (log payload) as [a|e].
      * do 2 eexists. split; [reflexivity|]. eexists. left. by eexists.
      * do 2 eexists. split; [reflexivity|]. eexists. right. by eexists.
    + do 2 eexists. split; [reflexivity|]. eexists. right. by eexists.
  - do 2 eexists. split; [reflexivity|]. eexists. right. by eexists.
Qed.

(** The first call builds the client and asks for the status; the status
    summary always has a [status]. *)
Lemma init_whoop_client_fresh s :
  whoop_client s = false →
  let w0 := (WhoopClient_init E (client_state s)).2 in
  init_whoop_client E s =
    match get_token_info E w0 with
    | (Ok _, w) => (Ok tt, Server true w)
    | (Raise e, w) => (Raise e, Server true w)
    end.
Proof.
  intros Hflag w0. unfold init_whoop_client. rewrite Hflag. subst w0.
  destruct (WhoopClient_init E (client_state s)) as [r w0]. cbn [snd].
  unfold on_client, get_auth_status. cbn [client_state whoop_client].
  unfold bind at 1.
  destruct (get_token_info E w0) as [[info|e] w] eqn:Hinfo; [|done].
  apply get_token_info_shape in Hinfo.
  by destruct Hinfo as [->|(? & ? & ? & ? & ? & -> & _)].
Qed.

Lemma WhoopClient_init_run w :
  WhoopClient_init E w =
    (Ok tt, World (token_file w) (S (clock_reads w)) (random_draws w) ∅ 0
              (clock E (clock_reads w))).
Proof. reflexivity. Qed.

(** The first call on an installation without a token file. *)
Lemma init_whoop_client_no_file s :
  whoop_client s = false →
  token_file (client_state s) = None →
  let w := client_state s in
  init_whoop_client E s =
    (Ok tt, Server true (World None (S (clock_reads w)) (random_draws w) ∅ 0
                           (clock E (clock_reads w)))).
Proof.
  intros Hflag Hnone w. rewrite init_whoop_client_fresh by done.
  rewrite WhoopClient_init_run. cbn [snd]. fold w. subst w. rewrite Hnone.
  by rewrite get_token_info_no_tokens by (by apply load_tokens_no_file).
Qed.

(** The answer of a data tool of a server that has its client, by the
    outcome of the request. *)
Lemma data_tool_run {A} tool endpoint params (log : pyval → result A) s :
  whoop_client s = true →
  tool_shape E describe tool (_make_request default_config E endpoint params)
    log s =
    match _make_request default_config E endpoint params (client_state s) with
    | (Ok payload, w1) =>
        match log payload with
        | Ok _ =>
            (Ok (data_envelope tool payload (clock E (clock_reads w1))),
             Server true (set_clock_reads (S (clock_reads w1)) w1))
        | Raise e =>
            (Ok (error_envelope tool (exception_str describe e)
                   (clock E (S (clock_reads w1)))),
             Server true (set_clock_reads (S (S (clock_reads w1))) w1))
        end
    | (Raise e, w1) =>
        (Ok (error_envelope tool (exception_str describe e)
               (clock E (clock_reads w1))),
         Server true (set_clock_reads (S (clock_reads w1)) w1))
    end.
Proof.
  intros Hflag. rewrite tool_shape_run, init_whoop_client_built by done.
  by rewrite Hflag.
Qed.

(** A data tool whose request finds the window full. *)
Lemma data_tool_rate_limited {A} tool endpoint params (log : pyval → result A)
    s :
  whoop_client s = true →
  let w := client_state s in
  MAX_REQUESTS_PER_MINUTE default_config ≤ request_count w →
  clock E (clock_reads w) - request_window_start w < 60 * SECOND →
  tool_shape E describe tool (_make_request default_config E endpoint params)
    log s =
    (Ok (error_envelope tool
           "Rate limit exceeded. Please wait before making more requests."
           (clock E (S (clock_reads w)))),
     Server true (set_clock_reads (S (S (clock_reads w))) w)).
Proof.
  intros Hflag w Hfull Hin. rewrite data_tool_run by done. fold w.
  by rewrite _make_request_rate_limited.
Qed.

(** A data tool on a server that has not built its client yet, on an
    installation without a token file. *)
Lemma data_tool_no_file {A} tool endpoint params (log : pyval → result A) s :
  whoop_client s = false →
  token_file (client_state s) = None →
  let w := client_state s in
  tool_shape E describe tool (_make_request default_config E endpoint params)
    log s =
    (Ok (error_envelope tool "No valid access token available"
           (clock E (S (S (clock_reads w))))),
     Server true
       (World None (S (S (S (clock_reads w)))) (random_draws w) ∅ 1
          (if bool_decide (60 * SECOND ≤
                clock E (S (clock_reads w)) - clock E (clock_reads w))
           then clock E (S (clock_reads w)) else clock E (clock_reads w)))).
Proof.
  intros Hflag Hnone w. rewrite tool_shape_run.
  rewrite init_whoop_client_no_file by done. fold w.
  cbn [client_state whoop_client].
  match goal with |- context [_make_request _ _ _ _ ?w0] =>
    pose proof (_check_rate_limit_run default_config E w0) as Hrate;
    cbv zeta in Hrate; cbn [request_count clock_reads request_window_start
      token_file random_draws cache] in Hrate
  end.
  assert (bool_decide (MAX_REQUESTS_PER_MINUTE default_config ≤ 0) = false)
    as Hroom by reflexivity.
  unfold _make_request. unfold bind at 1. rewrite Hrate.
  destruct (bool_decide (60 * SECOND ≤ _)); rewrite Hroom;
    unfold bind at 1;
    rewrite _get_from_cache_miss by apply lookup_empty;
    cbn [truthy]; unfold bind at 1;
    by rewrite _get_headers_no_file by done.
Qed.

(** A data tool whose request upstream answers with 200: the answer is
    cached, and reported through the log expression. *)
Lemma data_tool_upstream {A} tool endpoint params (log : pyval → result A) s
    text payload w3 :
  whoop_client s = true →
  upstream_response default_config E endpoint params (client_state s) =
    Some (Responded 200 text (Some payload), w3) →
  ∃ v s',
    tool_shape E describe tool (_make_request default_config E endpoint params)
      log s = (Ok v, s') ∧
    v = match log payload with
        | Ok _ => data_envelope tool payload (clock E (S (clock_reads w3)))
        | Raise e =>
            error_envelope tool (exception_str describe e)
              (clock E (S (S (clock_reads w3))))
        end ∧
    cache (client_state s') !! _get_cache_key endpoint params =
      Some (CacheEntry payload (isoformat (clock E (clock_reads w3)))).
Proof.
  intros Hflag Hup. rewrite data_tool_run by done.
  rewrite (_make_request_upstream default_config E _ _ _ _ _ Hup).
  cbn [Z.eqb Pos.eqb]. rewrite _save_to_cache_run. cbn [snd].
  destruct (log payload) as [a|e]; do 2 eexists;
    (split; [reflexivity|]); (split; [reflexivity|]);
    apply lookup_insert_eq.
Qed.

End Tools.

(** X22. The tools always answer.  Whatever the state of the server and
    whatever the initialisation and the client do, each of the four tools
    returns, without an exception, a dict with exactly the keys [tool] (its
    own name), [data] or [error], and [timestamp]; an [error] is a
    string. *)
Theorem tools_always_answer `{L : Libs} (E : env) (describe : exn → string)
    (limit : pyval) (s : server) :
  (∃ v s', get_whoop_auth_status E describe s = (Ok v, s') ∧
           tool_answer "get_whoop_auth_status" v) ∧
  (∃ v s', get_whoop_profile E describe s = (Ok v, s') ∧
           tool_answer "get_whoop_profile" v) ∧
  (∃ v s', get_whoop_workouts E describe limit s = (Ok v, s') ∧
           tool_answer "get_whoop_workouts" v) ∧
  (∃ v s', get_whoop_recovery E describe limit s = (Ok v, s') ∧
           tool_answer "get_whoop_recovery" v).
Proof.
  repeat split.
  - apply (tool_shape_answers E describe "get_whoop_auth_status"
             (get_auth_status E) (λ status, getitem status "status")).
  - apply (tool_shape_answers E describe "get_whoop_profile"
             (get_user_profile default_config E)
             (λ payload, get_default payload "first_name" (PStr "N/A"))).
  - apply (tool_shape_answers E describe "get_whoop_workouts"
             (get_workouts default_config E PNone PNone limit) py_len).
  - apply (tool_shape_answers E describe "get_whoop_recovery"
             (get_recovery default_config E PNone PNone limit) py_len).
Qed.

(** X23. A full window is answered, not raised:
    when the client exists and its window is full and has not elapsed, each
    of the three data tools returns the error answer with the message of the
    rate limiter, having read the clock twice and changed nothing else. *)
Theorem tools_rate_limited `{L : Libs} (E : env) (describe : exn → string)
    (limit : pyval) (s : server) :
  whoop_client s = true →
  let w := client_state s in
  MAX_REQUESTS_PER_MINUTE default_config ≤ request_count w →
  clock E (clock_reads w) - request_window_start w < 60 * SECOND →
  let message :=
    "Rate limit exceeded. Please wait before making more requests." in
  let stamp := clock E (S (clock_reads w)) in
  let s' := Server true (set_clock_reads (S (S (clock_reads w))) w) in
  get_whoop_profile E describe s =
    (Ok (error_envelope "get_whoop_profile" message stamp), s') ∧
  get_whoop_workouts E describe limit s =
    (Ok (error_envelope "get_whoop_workouts" message stamp), s') ∧
  get_whoop_recovery E describe limit s =
    (Ok (error_envelope "get_whoop_recovery" message stamp), s').
Proof.
  intros Hflag w Hfull Hin message stamp s'.
  split; [|split].
  - by apply (data_tool_rate_limited E describe "get_whoop_profile"
                "/user/profile/basic" None).
  - by apply (data_tool_rate_limited E describe "get_whoop_workouts"
                "/activity/workout"
                (Some (date_params PNone PNone limit)) py_len).
  - by apply (data_tool_rate_limited E describe "get_whoop_recovery"
                "/recovery" (Some (date_params PNone PNone limit)) py_len).
Qed.

(** X24. The status tool only reads: on a server whose client exists,
    [get_whoop_auth_status] leaves the token file, the cache, the request
    counter and the window start as they were.  It is not counted by the
    rate limiter. *)
Theorem auth_status_tool_reads_only `{L : Libs} (E : env)
    (describe : exn → string) (s : server) :
  whoop_client s = true →
  read_only (client_state s)
    (client_state (get_whoop_auth_status E describe s).2).
Proof.
  intros Hflag.
  change (get_whoop_auth_status E describe) with
    (tool_shape E describe "get_whoop_auth_status" (get_auth_status E)
       (λ status, getitem status "status")).
  rewrite tool_shape_run, init_whoop_client_built by done.
  unfold get_auth_status.
  destruct (get_token_info E (client_state s)) as [[info|e] w1] eqn:Hinfo.
  - apply get_token_info_read_only in Hinfo.
    destruct (getitem info "status"); cbn [snd client_state];
      (etrans; [exact Hinfo|by repeat split]).
  - apply get_token_info_read_only in Hinfo. cbn [snd client_state].
    etrans; [exact Hinfo|by repeat split].
Qed.

(** X25. The first calls on an installation without a token file.  On a
    server that has not built its client, the status tool answers with the
    data [{status: no_tokens}], and each data tool answers with the error
    "No valid access token available"; the token file is still absent
    afterwards. *)
Theorem tools_without_credentials `{L : Libs} (E : env)
    (describe : exn → string) (limit : pyval) (s : server) :
  whoop_client s = false →
  token_file (client_state s) = None →
  let w := client_state s in
  let built :=
    World None (S (clock_reads w)) (random_draws w) ∅ 0
      (clock E (clock_reads w)) in
  let message := "No valid access token available" in
  let stamp := clock E (S (S (clock_reads w))) in
  get_whoop_auth_status E describe s =
    (Ok (data_envelope "get_whoop_auth_status"
           (PDict [("status", PStr "no_tokens")])
           (clock E (S (clock_reads w)))),
     Server true (set_clock_reads (S (S (clock_reads w))) built)) ∧
  (get_whoop_profile E describe s).1 =
    Ok (error_envelope "get_whoop_profile" message stamp) ∧
  (get_whoop_workouts E describe limit s).1 =
    Ok (error_envelope "get_whoop_workouts" message stamp) ∧
  (get_whoop_recovery E describe limit s).1 =
    Ok (error_envelope "get_whoop_recovery" message stamp) ∧
  token_file (client_state (get_whoop_profile E describe s).2) = None.
Proof.
  intros Hflag Hnone w built message stamp.
  split; [|split; [|split; [|split]]].
  - change (get_whoop_auth_status E describe) with
      (tool_shape E describe "get_whoop_auth_status" (get_auth_status E)
         (λ status, getitem status "status")).
    rewrite tool_shape_run, init_whoop_client_no_file by done.
    cbn [client_state whoop_client]. unfold get_auth_status.
    by rewrite get_token_info_no_tokens by (by apply load_tokens_no_file).
  - change (get_whoop_profile E describe) with
      (tool_shape E describe "get_whoop_profile"
         (_make_request default_config E "/user/profile/basic" None)
         (λ payload, get_default payload "first_name" (PStr "N/A"))).
    by rewrite data_tool_no_file.
  - change (get_whoop_workouts E describe limit) with
      (tool_shape E describe "get_whoop_workouts"
         (_make_request default_config E "/activity/workout"
            (Some (date_params PNone PNone limit))) py_len).
    by rewrite data_tool_no_file.
  - change (get_whoop_recovery E describe limit) with
      (tool_shape E describe "get_whoop_recovery"
         (_make_request default_config E "/recovery"
            (Some (date_params PNone PNone limit))) py_len).
    by rewrite data_tool_no_file.
  - change (get_whoop_profile E describe) with
      (tool_shape E describe "get_whoop_profile"
         (_make_request default_config E "/user/profile/basic" None)
         (λ payload, get_default payload "first_name" (PStr "N/A"))).
    by rewrite data_tool_no_file.
Qed.

(** X26. The expression that is logged decides the answer.  When upstream
    answers a data tool with 200 and a payload on which the logged
    expression fails ([data.get] on a payload that is not an object for the
    profile, [len(data)] on [null], a boolean or a number for workouts and
    recovery), the tool returns the error answer with the text of that
    exception, although the request succeeded and the payload has been
    stored in the cache. *)
Theorem answer_reported_through_log `{L : Libs} (E : env)
    (describe : exn → string) (limit : pyval) (s : server) :
  whoop_client s = true →
  (∀ text payload w3,
     upstream_response default_config E "/user/profile/basic" None
       (client_state s) = Some (Responded 200 text (Some payload), w3) →
     (∀ d, payload ≠ PDict d) →
     ∃ s',
       get_whoop_profile E describe s =
         (Ok (error_envelope "get_whoop_profile" (describe AttributeError)
                (clock E (S (S (clock_reads w3))))), s') ∧
       cache (client_state s') !! "/user/profile/basic" =
         Some (CacheEntry payload (isoformat (clock E (clock_reads w3))))) ∧
  (∀ text payload w3,
     upstream_response default_config E "/activity/workout"
       (Some (date_params PNone PNone limit)) (client_state s) =
       Some (Responded 200 text (Some payload), w3) →
     py_len payload = Raise TypeError →
     ∃ s',
       get_whoop_workouts E describe limit s =
         (Ok (error_envelope "get_whoop_workouts" (describe TypeError)
                (clock E (S (S (clock_reads w3))))), s') ∧
       cache (client_state s') !!
         _get_cache_key "/activity/workout"
           (Some (date_params PNone PNone limit)) =
         Some (CacheEntry payload (isoformat (clock E (clock_reads w3))))) ∧
  (∀ text payload w3,
     upstream_response default_config E "/recovery"
       (Some (date_params PNone PNone limit)) (client_state s) =
       Some (Responded 200 text (Some payload), w3) →
     py_len payload = Raise TypeError →
     ∃ s',
       get_whoop_recovery E describe limit s =
         (Ok (error_envelope "get_whoop_recovery" (describe TypeError)
                (clock E (S (S (clock_reads w3))))), s') ∧
       cache (client_state s') !!
         _get_cache_key "/recovery" (Some (date_params PNone PNone limit)) =
         Some (CacheEntry payload (isoformat (clock E (clock_reads w3))))).
Proof.
  intros Hflag. split; [|split].
  - intros text payload w3 Hup Hdict.
    destruct (data_tool_upstream E describe "get_whoop_profile"
                "/user/profile/basic" None
                (λ payload, get_default payload "first_name" (PStr "N/A"))
                s text payload w3 Hflag Hup) as (v & s' & Hrun & -> & Hcache).
    exists s'. split; [|exact Hcache].
    etrans; [exact Hrun|].
    destruct payload as [| | | | |d]; try done. by destruct (Hdict d).
  - intros text payload w3 Hup Hlen.
    destruct (data_tool_upstream E describe "get_whoop_workouts"
                "/activity/workout" (Some (date_params PNone PNone limit))
                py_len s text payload w3 Hflag Hup)
      as (v & s' & Hrun & -> & Hcache).
    exists s'. split; [|exact Hcache].
    etrans; [exact Hrun|]. by rewrite Hlen.
  - intros text payload w3 Hup Hlen.
    destruct (data_tool_upstream E describe "get_whoop_recovery"
                "/recovery" (Some (date_params PNone PNone limit))
                py_len s text payload w3 Hflag Hup)
      as (v & s' & Hrun & -> & Hcache).
    exists s'. split; [|exact Hcache].
    etrans; [exact Hrun|]. by rewrite Hlen.
Qed.

(** X27. The client is built once.  A call of [init_whoop_client] on a
    server that has its client returns at once and changes nothing.  When a
    call returns, the client exists, a further call is a no-op, and the
    token file is what it was; and if that call built the client, the
    client starts with an empty cache, a zero counter and a window that
    starts at the clock reading of the construction. *)
Theorem client_built_once `{L : Libs} (E : env) (s : server) :
  (whoop_client s = true → init_whoop_client E s = (Ok tt, s)) ∧
  (∀ s1,
     init_whoop_client E s = (Ok tt, s1) →
     whoop_client s1 = true ∧
     init_whoop_client E s1 = (Ok tt, s1) ∧
     token_file (client_state s1) = token_file (client_state s) ∧
     (whoop_client s = false →
        cache (client_state s1) = ∅ ∧
        request_count (client_state s1) = 0 ∧
        request_window_start (client_state s1) =
          clock E (clock_reads (client_state s)))).
Proof.
  split; [apply init_whoop_client_built|].
  intros s1 Hrun.
  pose proof (init_whoop_client_ok_flag E s s1 Hrun) as Hflag.
  split; [done|]. split; [by apply init_whoop_client_built|].
  destruct (whoop_client s) eqn:Hs.
  - rewrite init_whoop_client_built in Hrun by done.
    injection Hrun as <-. by split.
  - rewrite init_whoop_client_fresh, WhoopClient_init_run in Hrun by done.
    cbn [snd] in Hrun.
    match type of Hrun with context [get_token_info E ?w0] =>
      destruct (get_token_info E w0) as [[info|e] w1] eqn:Hinfo;
      [|done];
      apply get_token_info_read_only in Hinfo;
      destruct Hinfo as (Hf & _ & Hc & Hn & Hw)
    end.
    injection Hrun as <-. cbn [client_state] in *. by repeat split.
Qed.

(** * Properties of the setup script *)

Section SetupFurther.
Context {L : Libs} (E : env).

Lemma verify_setup_run w d stamp expires_at :
  load_tokens E w = (Ok (PDict d), w) →
  dict_get "expires_at" d = Some (PStr stamp) →
  fromisoformat stamp = Some expires_at →
  setup.verify_setup E w =
    (Ok true, set_clock_reads (S (S (clock_reads w))) w).
Proof.
  intros Hload Hget Hparse.
  unfold setup.verify_setup, try_except. unfold bind at 1.
  rewrite (get_token_info_run E w d stamp expires_at) by done.
  cbv zeta. by case_bool_decide.
Qed.

Lemma verify_setup_no_tokens w :
  load_tokens E w = (Ok PNone, w) → setup.verify_setup E w = (Ok false, w).
Proof.
  intros Hload. unfold setup.verify_setup, try_except. unfold bind at 1.
  by rewrite get_token_info_no_tokens.
Qed.

Lemma verify_setup_total w : ∃ b w', setup.verify_setup E w = (Ok b, w').
Proof.
  unfold setup.verify_setup, try_except.
  destruct (bind _ _ w) as [[b|e] w']; by do 2 eexists.
Qed.

End SetupFurther.

(** X28. [exchange_code_for_tokens] returns [None] or a token response:
    what it returns is either [None] or the JSON object of a 200 response
    whose [success] is truthy, returned as received (and truthy, so that the
    caller goes on); and every such response is returned.  A timeout, a
    transport failure, another status, a body that is not JSON or not an
    object, and a falsy or missing [success] all give [None]. *)
Theorem exchange_code_for_tokens_result (token_get : string → http_outcome)
    (auth_code : string) :
  let outcome := token_get (OAUTH_TOKEN_URL +:+ "/" +:+ auth_code) in
  let token_data := setup.exchange_code_for_tokens token_get auth_code in
  (token_data = PNone ∨
   ∃ text d success,
     outcome = Responded 200 text (Some (PDict d)) ∧
     token_data = PDict d ∧
     dict_get "success" d = Some success ∧
     truthy success = true ∧
     truthy token_data = true) ∧
  (∀ text d success,
     outcome = Responded 200 text (Some (PDict d)) →
     dict_get "success" d = Some success →
     truthy success = true →
     token_data = PDict d).
Proof.
  intros outcome token_data. subst outcome token_data.
  unfold setup.exchange_code_for_tokens.
  destruct (token_get _) as [status text body| |]; [|by split; [left|]..].
  destruct (status =? 200) eqn:Hstatus.
  2:{ split; [by left|]. intros ? ? ? [= -> _ _]. done. }
  apply Z.eqb_eq in Hstatus as ->.
  destruct body as [[| | | | |d]|]; try (by split; [left|]).
  simpl. destruct (dict_get "success" d) as [success|] eqn:Hsuccess.
  - simpl. destruct (truthy success) eqn:Htruthy.
    + split.
      * right. exists text, d, success. repeat split; try done.
        by destruct d.
      * by intros ? ? ? [= _ <-].
    + split; [by left|]. intros ? ? ? [= _ <-]. congruence.
  - simpl. split; [by left|]. intros ? ? ? [= _ <-]. congruence.
Qed.

(** X29. What the setup script saved, it verifies.  For a well-formed token
    response, [save_tokens] of the script never raises; when it returns
    true, [verify_setup] on the resulting state returns true, having read
    the clock twice; when it returns false, the token file is what it
    was. *)
Theorem setup_save_then_verify `{L : Libs} (E : env) (token_data : pyval)
    (w : world) :
  wf_pyval token_data = true →
  match setup.save_tokens E token_data w with
  | (Ok true, w') =>
      setup.verify_setup E w' =
        (Ok true, set_clock_reads (S (S (clock_reads w'))) w')
  | (Ok false, w') => token_file w' = token_file w
  | (Raise _, _) => False
  end.
Proof.
  intros Hwf. unfold setup.save_tokens, try_except. unfold bind at 1.
  destruct (save_tokens E token_data w) as [[[]|e] w'] eqn:Hsave.
  - destruct (save_tokens_then_load E _ _ _ Hsave Hwf)
      as (access & refresh & token_type & lifetime & _ & _ & _ & _ & _ & Hload).
    eapply (verify_setup_run E w'); [exact Hload|reflexivity|].
    apply fromisoformat_isoformat.
  - simpl. by eapply save_tokens_raise_file.
Qed.

(** X30. [verify_setup] never raises, and it returns false, leaving the
    state alone, when the token file is missing, when the key cannot decrypt
    it, and when the stored [expires_at] is a string that is not a
    timestamp. *)
Theorem verify_setup_rejects `{L : Libs} (E : env) (w : world) :
  (∃ b w', setup.verify_setup E w = (Ok b, w')) ∧
  (token_file w = None ∨
   (∃ content, token_file w = Some content ∧ cannot_decrypt E content) →
   setup.verify_setup E w = (Ok false, w)) ∧
  (∀ d stamp,
     load_tokens E w = (Ok (PDict d), w) →
     dict_get "expires_at" d = Some (PStr stamp) →
     fromisoformat stamp = None →
     setup.verify_setup E w = (Ok false, w)).
Proof.
  split; [apply verify_setup_total|]. split.
  - intros [Hnone|(content & Hfile & Hbad)]; apply verify_setup_no_tokens.
    + by apply load_tokens_no_file.
    + by eapply load_tokens_cannot_decrypt.
  - intros d stamp Hload Hget Hparse.
    unfold setup.verify_setup, try_except, get_token_info.
    unfold bind at 1. unfold bind at 1. rewrite Hload.
    assert (truthy (PDict d) = true) as -> by (by destruct d).
    run. rewrite Hget. simpl. by rewrite Hparse.
Qed.

(** * Concrete runs of the tools and of the setup script *)

Lemma tools_rate_limited_witness :
  let s := Server true (set_request_count 100 cached_only) in
  let w := client_state s in
  let message :=
    "Rate limit exceeded. Please wait before making more requests." in
  let stamp := clock E_busy (S (clock_reads w)) in
  let s' := Server true (set_clock_reads (S (S (clock_reads w))) w) in
  get_whoop_profile E_busy describe_by_class s =
    (Ok (error_envelope "get_whoop_profile" message stamp), s') ∧
  get_whoop_workouts E_busy describe_by_class (PInt 5) s =
    (Ok (error_envelope "get_whoop_workouts" message stamp), s') ∧
  get_whoop_recovery E_busy describe_by_class (PInt 5) s =
    (Ok (error_envelope "get_whoop_recovery" message stamp), s').
Proof.
  apply (tools_rate_limited E_busy describe_by_class (PInt 5)
           (Server true (set_request_count 100 cached_only))).
  - reflexivity.
  - vm_compute. discriminate.
  - vm_compute. reflexivity.
Defined.

Lemma auth_status_tool_reads_only_witness :
  let E := sample_env "key-1" (λ _, T0) Failed Failed in
  read_only installed
    (client_state
       (get_whoop_auth_status E describe_by_class (Server true installed)).2).
Proof.
  intros E.
  apply (auth_status_tool_reads_only E describe_by_class
           (Server true installed)).
  reflexivity.
Defined.

Lemma tools_without_credentials_witness :
  let s := fresh_server (new_world T0) in
  let built := World None 1 0 ∅ 0 T0 in
  let message := "No valid access token available" in
  let stamp := clock E_busy 2 in
  get_whoop_auth_status E_busy describe_by_class s =
    (Ok (data_envelope "get_whoop_auth_status"
           (PDict [("status", PStr "no_tokens")]) (clock E_busy 1)),
     Server true (set_clock_reads 2 built)) ∧
  (get_whoop_profile E_busy describe_by_class s).1 =
    Ok (error_envelope "get_whoop_profile" message stamp) ∧
  (get_whoop_workouts E_busy describe_by_class (PInt 5) s).1 =
    Ok (error_envelope "get_whoop_workouts" message stamp) ∧
  (get_whoop_recovery E_busy describe_by_class (PInt 5) s).1 =
    Ok (error_envelope "get_whoop_recovery" message stamp) ∧
  token_file
    (client_state (get_whoop_profile E_busy describe_by_class s).2) = None.
Proof.
  apply (tools_without_credentials E_busy describe_by_class (PInt 5)
           (fresh_server (new_world T0))); reflexivity.
Defined.

Lemma answer_reported_through_log_witness :
  let E := E_serving 200 EmptyString (Some (PList [PInt 1])) in
  let s := Server true installed in
  let w3 := match upstream_response default_config E "/user/profile/basic"
                    None installed with
            | Some (_, w3) => w3
            | None => installed
            end in
  ∃ s',
    get_whoop_profile E describe_by_class s =
      (Ok (error_envelope "get_whoop_profile" "AttributeError"
             (clock E (S (S (clock_reads w3))))), s') ∧
    cache (client_state s') !! "/user/profile/basic" =
      Some (CacheEntry (PList [PInt 1])
              (isoformat (clock E (clock_reads w3)))).
Proof.
  intros E s w3.
  destruct (answer_reported_through_log E describe_by_class (PInt 5) s
              eq_refl) as [Hprofile _].
  apply (Hprofile EmptyString (PList [PInt 1]) w3).
  - vm_compute. reflexivity.
  - intros d. discriminate.
Defined.

Lemma setup_save_then_verify_witness :
  let E := sample_env "key-1" (λ _, T0) Failed Failed in
  match setup.save_tokens E sample_response (new_world T0) with
  | (Ok true, w') =>
      setup.verify_setup E w' =
        (Ok true, set_clock_reads (S (S (clock_reads w'))) w')
  | (Ok false, w') => token_file w' = token_file (new_world T0)
  | (Raise _, _) => False
  end.
Proof.
  intros E. apply (setup_save_then_verify E sample_response (new_world T0)).
  reflexivity.
Defined.

(** The key has been rotated, or the token file is damaged: the
    verification fails. *)
Lemma verify_setup_rejects_witness :
  setup.verify_setup E_rotated installed = (Ok false, installed) ∧
  setup.verify_setup (sample_env "key-1" (λ _, T0) Failed Failed) damaged =
    (Ok false, damaged).
Proof.
  split.
  - apply (verify_setup_rejects E_rotated installed).
    right. exact installed_cannot_decrypt.
  - destruct (verify_setup_rejects
                (sample_env "key-1" (λ _, T0) Failed Failed) damaged)
      as (_ & _ & Hdamaged).
    apply (Hdamaged
             [("access_token", PStr "access-1");
              ("refresh_token", PStr "refresh-1");
              ("token_type", PStr "Bearer");
              ("expires_at", PStr "tomorrow");
              ("created_at", PStr "today")] "tomorrow");
      vm_compute; reflexivity.
Defined.

Lemma client_built_once_witness :
  let s := fresh_server (new_world T0) in
  let s1 := (init_whoop_client E_busy s).2 in
  whoop_client s1 = true ∧
  init_whoop_client E_busy s1 = (Ok tt, s1) ∧
  token_file (client_state s1) = token_file (client_state s) ∧
  (whoop_client s = false →
     cache (client_state s1) = ∅ ∧
     request_count (client_state s1) = 0 ∧
     request_window_start (client_state s1) =
       clock E_busy (clock_reads (client_state s))).
Proof.
  intros s s1.
  apply (client_built_once E_busy s). reflexivity.
Defined.

(** The exchange endpoint answers with a token response, with an error
    document, with a server error, or not at all. *)
Lemma exchange_code_for_tokens_runs :
  let code := "0123456789abcdefghij" in
  setup.exchange_code_for_tokens
    (λ _, Responded 200 EmptyString (Some sample_response)) code =
    sample_response ∧
  setup.exchange_code_for_tokens
    (λ _, Responded 200 EmptyString
            (Some (PDict [("success", PBool false);
                          ("error", PStr "invalid code")]))) code = PNone ∧
  setup.exchange_code_for_tokens
    (λ _, Responded 500 "Internal Server Error" None) code = PNone ∧
  setup.exchange_code_for_tokens (λ _, TimedOut) code = PNone.
Proof. repeat split. Qed.
